(** * User-profile applications: model and verification

    Two Flask programs are embedded here:
      - [Auth]     : src/app.py                     (password + session variant)
      - [Profiles] : src/flask_user_profiles_app.py (public listing variant)

    Both sit on a single SQLite table [users] and on WTForms validators.
    The table, the validators and Python's [str.strip] are modelled first,
    then each program, then the properties of the specification. *)

From Stdlib Require Import ZArith List String Ascii Bool Lia.
Import ListNotations.
Open Scope string_scope.
Open Scope Z_scope.

(* ================================================================== *)
(** ** Python strings *)

(** A Python [str] is modelled by a Rocq [string]; each [ascii] stands for
    one code point below U+0100. *)
Module Py.

(** [str.isspace] on one code point below U+0100:
    U+0009..U+000D, U+001C..U+0020, U+0085 and U+00A0. *)
Definition isspace (c : ascii) : bool :=
  let n := Z.of_N (N_of_ascii c) in
  ((9 <=? n) && (n <=? 13)) || ((28 <=? n) && (n <=? 32))
  || (n =? 133) || (n =? 160).

Fixpoint lstrip (s : string) : string :=
  match s with
  | EmptyString => EmptyString
  | String c s' => if isspace c then lstrip s' else s
  end.

Fixpoint rstrip (s : string) : string :=
  match s with
  | EmptyString => EmptyString
  | String c s' =>
      match rstrip s' with
      | EmptyString => if isspace c then EmptyString else String c EmptyString
      | t => String c t
      end
  end.

(** [s.strip()] *)
Definition strip (s : string) : string := rstrip (lstrip s).

(** Truth value of an optional string: [None] and [''] are falsy. *)
Definition truthy (o : option string) : bool :=
  match o with
  | Some (String _ _) => true
  | _ => false
  end.

(** [x or ''] *)
Definition or_empty (o : option string) : string :=
  match o with
  | Some s => s
  | None => EmptyString
  end.

(** [x if x else None] on an optional string. *)
Definition or_none (o : option string) : option string :=
  if truthy o then o else None.

(** [len(s)] *)
Definition len (s : string) : Z := Z.of_nat (String.length s).

(** First and last code point of a string, when it has one. *)
Definition first (s : string) : option ascii :=
  match s with
  | EmptyString => None
  | String c _ => Some c
  end.

Fixpoint last (s : string) : option ascii :=
  match s with
  | EmptyString => None
  | String c EmptyString => Some c
  | String _ s' => last s'
  end.

Definition edge_ok (o : option ascii) : bool :=
  match o with
  | None => true
  | Some c => negb (isspace c)
  end.

(** A string is trimmed when neither end is whitespace. *)
Definition trimmed (s : string) : bool :=
  edge_ok (first s) && edge_ok (last s).

End Py.

(* ================================================================== *)
(** ** WTForms validators *)

Module WTForms.

(** What calling a validator does: return, raise [ValidationError], or
    raise [StopValidation] (which ends the field's chain). *)
Inductive verdict : Type :=
| Pass
| Fail (msg : string)
| Stop (msg : string).

(** [Field._run_validation_chain]: the messages appended to
    [field.errors]. *)
Fixpoint run_validation_chain {A : Type}
         (validators : list (A -> verdict)) (data : A) : list string :=
  match validators with
  | [] => []
  | v :: rest =>
      match v data with
      | Pass => run_validation_chain rest data
      | Fail msg => msg :: run_validation_chain rest data
      | Stop msg => [msg]
      end
  end.

(** [DataRequired(message)] on a string field: the data must be truthy
    and must not strip to the empty string. *)
Definition DataRequired (message : string) (data : option string) : verdict :=
  match data with
  | Some s =>
      if Py.truthy (Some s) && Py.truthy (Some (Py.strip s))
      then Pass else Stop message
  | None => Stop message
  end.

(** [Length(min, max, message)]; [-1] switches a bound off.
    [length = field.data and len(field.data) or 0]. *)
Definition Length (min max : Z) (message : string)
           (data : option string) : verdict :=
  let length := Py.len (Py.or_empty data) in
  if (min <=? length) && ((max =? -1) || (length <=? max))
  then Pass else Fail message.

(** [NumberRange(min, max, message)]: data that is [None] fails. *)
Definition NumberRange (min max : Z) (message : string)
           (data : option Z) : verdict :=
  match data with
  | Some n => if (min <=? n) && (n <=? max) then Pass else Fail message
  | None => Fail message
  end.

(** [Email(message)]; [syntax_ok] is the judgement of the
    [email_validator] package. *)
Definition Email (syntax_ok : string -> bool) (message : string)
           (data : option string) : verdict :=
  match data with
  | Some s => if syntax_ok s then Pass else Fail message
  | None => Fail message
  end.

(** What [IntegerField.process_formdata] is given: no value at all, a
    value on which [int()] raises [ValueError], or an integer. *)
Inductive int_input : Type :=
| NoValue
| NotAnInteger (raw : string)
| IntValue (n : Z).

(** [IntegerField.data] after processing (default [None]). *)
Definition int_data (i : int_input) : option Z :=
  match i with
  | IntValue n => Some n
  | _ => None
  end.

(** [IntegerField.process_errors]. *)
Definition int_process_errors (i : int_input) : list string :=
  match i with
  | NotAnInteger _ => ["Not a valid integer value."]
  | _ => []
  end.

(** [form.errors]: the fields that have messages, with their messages. *)
Definition form_errors : Type := list (string * list string).

Definition has_messages (p : string * list string) : bool :=
  match snd p with
  | [] => false
  | _ :: _ => true
  end.

Definition errors_of (fields : list (string * list string)) : form_errors :=
  filter has_messages fields.

(** What Flask-WTF's [validate_csrf] finds when it checks the hidden
    [csrf_token] field of a [FlaskForm] against the session, in the order
    of its tests: no token submitted, no token in the session, signature
    too old, signature bad, token different from the session's. *)
Inductive csrf_check : Type :=
| TokenValid
| TokenMissing
| SessionTokenMissing
| TokenExpired
| TokenInvalid
| TokensDiffer.

Definition csrf_passes (c : csrf_check) : bool :=
  match c with
  | TokenValid => true
  | _ => false
  end.

(** The messages of the [ValidationError] that [validate_csrf] raises. *)
Definition csrf_errors (c : csrf_check) : list string :=
  match c with
  | TokenValid => []
  | TokenMissing => ["The CSRF token is missing."]
  | SessionTokenMissing => ["The CSRF session token is missing."]
  | TokenExpired => ["The CSRF token has expired."]
  | TokenInvalid => ["The CSRF token is invalid."]
  | TokensDiffer => ["The CSRF tokens do not match."]
  end.

Definition no_errors (e : form_errors) : bool :=
  match e with
  | [] => true
  | _ :: _ => false
  end.

End WTForms.

(* ================================================================== *)
(** ** Library functions the programs import *)

(** The two judgements taken from packages outside the repository:
    [email_validator.validate_email] (does the address parse) and the
    digest computed by [werkzeug.security]. *)
Class Library : Type := {
  email_syntax_ok : string -> bool;
  hash_internal : string -> string -> string
}.

Module Werkzeug.

Definition method : string := "scrypt:32768:8:1".

(** [generate_password_hash(password)] with the salt drawn for this call:
    [f"{method}${salt}${h}"]. *)
Definition generate_password_hash `{Library} (salt password : string) : string :=
  method ++ "$" ++ salt ++ "$" ++ hash_internal salt password.

End Werkzeug.

(* ================================================================== *)
(** ** The SQLite table *)

Module Sqlite.

(** A table with an [INTEGER PRIMARY KEY AUTOINCREMENT] column and two
    [UNIQUE] text columns. *)
Class Schema (row : Type) : Type := {
  row_id : row -> Z;
  row_username : row -> string;
  row_email : row -> string;
  with_id : Z -> row -> row;
  row_id_with_id : forall i r, row_id (with_id i r) = i;
  row_username_with_id : forall i r, row_username (with_id i r) = row_username r;
  row_email_with_id : forall i r, row_email (with_id i r) = row_email r
}.

Section Table.
Context {row : Type} `{Schema row}.

(** [rows] in insertion order; [seq] is the table's entry in
    [sqlite_sequence] (largest id ever handed out). *)
Record table : Type := { rows : list row; seq : Z }.

Inductive outcome : Type :=
| Done (t : table)
| IntegrityError.

(** Two rows cannot coexist: a [UNIQUE] column agrees. *)
Definition clash (r o : row) : bool :=
  String.eqb (row_username r) (row_username o)
  || String.eqb (row_email r) (row_email o).

Definition max_rowid (l : list row) : Z :=
  fold_right (fun r m => Z.max (row_id r) m) 0 l.

Definition next_rowid (t : table) : Z :=
  Z.max (seq t) (max_rowid (rows t)) + 1.

(** [SELECT ... WHERE <cond>] followed by [fetchone()]. *)
Definition fetchone (cond : row -> bool) (t : table) : option row :=
  find cond (rows t).

Definition has_id (uid : Z) (r : row) : bool := row_id r =? uid.

(** [INSERT INTO users (...) VALUES (...)]: the id column is filled by
    AUTOINCREMENT; a failed statement leaves the table as it was. *)
Definition insert (r : row) (t : table) : outcome :=
  let r' := with_id (next_rowid t) r in
  if existsb (clash r') (rows t) then IntegrityError
  else Done {| rows := rows t ++ [r']; seq := next_rowid t |}.

(** [UPDATE users SET ... WHERE id = uid], [set] being the SET clause. *)
Definition update (uid : Z) (set : row -> row) (t : table) : outcome :=
  match fetchone (has_id uid) t with
  | None => Done t
  | Some r =>
      if existsb (fun o => negb (has_id uid o) && clash (set r) o) (rows t)
      then IntegrityError
      else Done {| rows := map (fun o => if has_id uid o then set o else o) (rows t);
                   seq := seq t |}
  end.

(** The table after a statement, whether it succeeded or not. *)
Definition after (t : table) (o : outcome) : table :=
  match o with
  | Done t' => t'
  | IntegrityError => t
  end.

(** What the schema promises of every stored table. *)
Record wf (t : table) : Prop := {
  wf_ids : NoDup (map row_id (rows t));
  wf_usernames : NoDup (map row_username (rows t));
  wf_emails : NoDup (map row_email (rows t));
  wf_seq : Forall (fun r => row_id r <= seq t) (rows t)
}.

Definition empty : table := {| rows := []; seq := 0 |}.

End Table.

Arguments table row : clear implicits.
Arguments outcome row : clear implicits.

End Sqlite.


(* ================================================================== *)
(** ** What a view function sees and returns *)

Module Flask.

Inductive http_method : Type := GET | POST.

(** One column of a fetched row. *)
Inductive cell : Type :=
| Null
| Int (n : Z)
| Text (s : string).

Definition int_cell (o : option Z) : cell :=
  match o with
  | Some n => Int n
  | None => Null
  end.

Definition text_cell (o : option string) : cell :=
  match o with
  | Some s => Text s
  | None => Null
  end.

(** The outcome of a view function.
    - [Saved]: the write was committed, success flashed, redirect.
    - [FormPage]: the form is rendered, with the field errors and the
      values loaded into it from the table (on GET of an update form).
    - [Conflict]: [sqlite3.IntegrityError] was caught, an error flashed and
      the form rendered again.
    - [NotFound], [LoginRequired]: error flashed, redirect.
    - [Page]: rows rendered read-only.
    - [Redirect]: plain redirect to the named endpoint.
    - [MethodNotAllowed]: the URL map refuses the method.
    - [NoSuchPage]: the URL map matches no rule (HTTP 404), no view runs.
    - [ServerError]: an exception left the view function (HTTP 500). *)
Inductive response : Type :=
| Saved
| FormPage (errors : WTForms.form_errors) (loaded : list cell)
| Conflict
| NotFound
| LoginRequired
| Page (shown : list (list cell))
| Redirect (endpoint : string)
| MethodNotAllowed
| NoSuchPage
| ServerError.

(** [form.validate_on_submit()]: submitted by POST and no field error.
    [errors] is what [validate()] would collect; it is collected only when
    the form is submitted. *)
Definition validate_on_submit (m : http_method) (errors : WTForms.form_errors) : bool :=
  match m with
  | POST => WTForms.no_errors errors
  | GET => false
  end.

(** [form.errors] as the template sees it after [validate_on_submit()]:
    [validate()] ran on POST only, on GET the dictionary is empty. *)
Definition rendered_errors (m : http_method) (errors : WTForms.form_errors)
  : WTForms.form_errors :=
  match m with
  | POST => errors
  | GET => []
  end.

(** Whether [sqlite3] can bind the Python integer to a [?] parameter:
    it fits a signed 64-bit integer; otherwise [execute] raises
    [OverflowError]. *)
Definition binds (n : Z) : bool := (- 2 ^ 63 <=? n) && (n <=? 2 ^ 63 - 1).

(** Werkzeug's [<int:...>] converter matches an unsigned decimal only, so
    a negative number in the path matches no rule. *)
Definition int_converter (n : Z) : bool := 0 <=? n.

End Flask.

(* ================================================================== *)
(** ** src/app.py *)

Module Auth.
Import WTForms Sqlite Flask.

(** One row of [users] (schema of [init_db]). *)
Record user : Type := {
  id : Z;
  username : string;
  email : string;
  password : string;
  full_name : string;
  age : option Z;
  bio : option string;
  created_at : Z;
  updated_at : Z
}.

#[global] Instance user_schema : Schema user := {|
  row_id := id;
  row_username := username;
  row_email := email;
  with_id := fun i r =>
    {| id := i; username := username r; email := email r;
       password := password r; full_name := full_name r; age := age r;
       bio := bio r; created_at := created_at r; updated_at := updated_at r |};
  row_id_with_id := fun _ _ => eq_refl;
  row_username_with_id := fun _ _ => eq_refl;
  row_email_with_id := fun _ _ => eq_refl
|}.

Definition db : Type := table user.

(** [init_db]: [CREATE TABLE IF NOT EXISTS users]. *)
Definition init_db : db := empty.

(** [request.form] as the fields of the two forms receive it. *)
Record formdata : Type := {
  f_username : option string;
  f_email : option string;
  f_password : option string;
  f_full_name : option string;
  f_age : int_input;
  f_bio : option string
}.

(** A request: method, what the CSRF check of its token finds, the form
    data, the value of [CURRENT_TIMESTAMP] when its statement runs, and the
    salt drawn by [generate_password_hash]. *)
Record request : Type := {
  method : http_method;
  csrf : csrf_check;
  form : formdata;
  now : Z;
  salt : string
}.

Definition csrf_token_ok (req : request) : bool := csrf_passes (csrf req).

(** Flask's [session]: absent, or [user_id] and [username]. *)
Definition session : Type := option (Z * string).

Definition username_is (name : option string) (r : user) : bool :=
  match name with
  | Some n => String.eqb (username r) n
  | None => false
  end.

Definition email_is (addr : option string) (r : user) : bool :=
  match addr with
  | Some a => String.eqb (email r) a
  | None => false
  end.

Definition username_taken_msg : string :=
  "This username is already taken. Please choose another.".
Definition email_taken_msg : string :=
  "This email is already registered. Please use another email.".
Definition email_other_user_msg : string :=
  "This email is already registered to another user.".

(** [RegistrationForm.validate_username] *)
Definition validate_username (snapshot : db) (data : option string) : verdict :=
  match fetchone (username_is data) snapshot with
  | Some _ => Fail username_taken_msg
  | None => Pass
  end.

(** [RegistrationForm.validate_email] *)
Definition validate_email (snapshot : db) (data : option string) : verdict :=
  match fetchone (email_is data) snapshot with
  | Some _ => Fail email_taken_msg
  | None => Pass
  end.

(** [UpdateProfileForm.validate_email]:
    [WHERE email = ? AND id != ?], only with a [user_id] in the session. *)
Definition validate_email_update (snapshot : db) (s : session)
           (data : option string) : verdict :=
  match s with
  | None => Pass
  | Some (uid, _) =>
      match fetchone (fun r => email_is data r && negb (has_id uid r)) snapshot with
      | Some _ => Fail email_other_user_msg
      | None => Pass
      end
  end.

Definition username_validators (snapshot : db) : list (option string -> verdict) :=
  [ DataRequired "Username is required";
    Length 3 20 "Username must be between 3 and 20 characters";
    validate_username snapshot ].

Definition email_static_validators `{Library} : list (option string -> verdict) :=
  [ DataRequired "Email is required";
    Email email_syntax_ok "Please enter a valid email address" ].

Definition password_validators : list (option string -> verdict) :=
  [ DataRequired "Password is required";
    Length 6 (-1) "Password must be at least 6 characters long" ].

Definition full_name_validators : list (option string -> verdict) :=
  [ DataRequired "Full name is required";
    Length 2 100 "Full name must be between 2 and 100 characters" ].

Definition age_validators : list (option Z -> verdict) :=
  [ NumberRange 1 150 "Age must be between 1 and 150" ].

Definition bio_validators : list (option string -> verdict) :=
  [ Length (-1) 500 "Bio cannot exceed 500 characters" ].

(** Messages of the [age] field: processing errors, then the chain. *)
Definition age_errors (i : int_input) : list string :=
  int_process_errors i ++ run_validation_chain age_validators (int_data i).

(** [RegistrationForm(...).errors] after [validate()]. *)
Definition registration_errors `{Library} (snapshot : db) (req : request) : form_errors :=
  let fd := form req in
  errors_of
    [ ("username", run_validation_chain (username_validators snapshot) (f_username fd));
      ("email", run_validation_chain
                  (email_static_validators ++ [validate_email snapshot]) (f_email fd));
      ("password", run_validation_chain password_validators (f_password fd));
      ("full_name", run_validation_chain full_name_validators (f_full_name fd));
      ("age", age_errors (f_age fd));
      ("bio", run_validation_chain bio_validators (f_bio fd));
      ("csrf_token", csrf_errors (csrf req)) ].

(** [UpdateProfileForm(...).errors] after [validate()]. *)
Definition update_errors `{Library} (snapshot : db) (s : session) (req : request)
  : form_errors :=
  let fd := form req in
  errors_of
    [ ("email", run_validation_chain
                  (email_static_validators ++ [validate_email_update snapshot s])
                  (f_email fd));
      ("full_name", run_validation_chain full_name_validators (f_full_name fd));
      ("age", age_errors (f_age fd));
      ("bio", run_validation_chain bio_validators (f_bio fd));
      ("csrf_token", csrf_errors (csrf req)) ].

(** [form.age.data if form.age.data else None] *)
Definition age_or_none (o : option Z) : option Z :=
  match o with
  | Some n => if n =? 0 then None else Some n
  | None => None
  end.

(** [INSERT INTO users (username, email, password, full_name, age, bio)];
    a [None] bound to a [NOT NULL] column fails the statement;
    [created_at] and [updated_at] default to [CURRENT_TIMESTAMP]. *)
Definition sql_insert (uname mail pwhash fname : option string)
           (age_value : option Z) (bio_value : option string) (ts : Z) (t : db)
  : outcome user :=
  match uname, mail, pwhash, fname with
  | Some u, Some e, Some p, Some f =>
      insert {| id := 0; username := u; email := e; password := p;
                full_name := f; age := age_value; bio := bio_value;
                created_at := ts; updated_at := ts |} t
  | _, _, _, _ => IntegrityError
  end.

(** The SET clause of [update_profile]:
    [email = ?, full_name = ?, age = ?, bio = ?, updated_at = CURRENT_TIMESTAMP]. *)
Definition set_profile (e f : string) (age_value : option Z)
           (bio_value : option string) (ts : Z) (r : user) : user :=
  {| id := id r; username := username r; email := e; password := password r;
     full_name := f; age := age_value; bio := bio_value;
     created_at := created_at r; updated_at := ts |}.

(** [UPDATE users SET ... WHERE id = ?] *)
Definition sql_update (mail fname : option string) (age_value : option Z)
           (bio_value : option string) (ts uid : Z) (t : db) : outcome user :=
  match mail, fname with
  | Some e, Some f => update uid (set_profile e f age_value bio_value ts) t
  | _, _ =>
      match fetchone (has_id uid) t with
      | Some _ => IntegrityError
      | None => Done t
      end
  end.

(** [index] *)
Definition index (s : session) : response :=
  match s with
  | Some _ => Redirect "profile"
  | None => Redirect "register"
  end.

(** [register]: the validators read [snapshot], the INSERT runs on [t]
    (the two coincide unless another request committed in between).  The
    form rendered at the end shows the errors of [validate()], which ran
    only if the request was a POST. *)
Definition register `{Library} (snapshot t : db) (s : session) (req : request)
  : db * session * response :=
  let fd := form req in
  let errors := registration_errors snapshot req in
  if validate_on_submit (method req) errors then
    let hashed_password :=
      option_map (Werkzeug.generate_password_hash (salt req)) (f_password fd) in
    match sql_insert (f_username fd) (f_email fd) hashed_password (f_full_name fd)
                     (age_or_none (int_data (f_age fd))) (Py.or_none (f_bio fd))
                     (now req) t with
    | Done t' =>
        match fetchone (username_is (f_username fd)) t' with
        | Some u => (t', Some (id u, username u), Saved)
        | None => (t', s, ServerError)
        end
    | IntegrityError => (t, s, Conflict)
    end
  else (t, s, FormPage (rendered_errors (method req) errors) []).

(** [profile] *)
Definition profile (t : db) (s : session) : db * session * response :=
  match s with
  | None => (t, s, LoginRequired)
  | Some (uid, _) =>
      match fetchone (has_id uid) t with
      | None => (t, None, NotFound)
      | Some u =>
          (t, s, Page [[ Int (id u); Text (username u); Text (email u);
                         Text (full_name u); int_cell (age u); text_cell (bio u);
                         Int (created_at u); Int (updated_at u) ]])
      end
  end.

(** [update_profile]: the row lookup and the validators read [snapshot],
    the UPDATE runs on [t]; the UPDATE is not inside a [try].  On GET
    nothing is validated: the form is rendered without errors, loaded
    with the row. *)
Definition update_profile `{Library} (snapshot t : db) (s : session) (req : request)
  : db * session * response :=
  match s with
  | None => (t, s, LoginRequired)
  | Some (uid, _) =>
      match fetchone (has_id uid) snapshot with
      | None => (t, None, NotFound)
      | Some u =>
          let fd := form req in
          let errors := update_errors snapshot s req in
          if validate_on_submit (method req) errors then
            match sql_update (f_email fd) (f_full_name fd)
                             (age_or_none (int_data (f_age fd)))
                             (Py.or_none (f_bio fd)) (now req) uid t with
            | Done t' => (t', s, Saved)
            | IntegrityError => (t, s, ServerError)
            end
          else
            match method req with
            | GET => (t, s, FormPage [] [ Text (email u); Text (full_name u);
                                          int_cell (age u); text_cell (bio u) ])
            | POST => (t, s, FormPage errors [])
            end
      end
  end.

(** [logout] *)
Definition logout (t : db) : db * session * response :=
  (t, None, Redirect "register").

(** The URL map. *)
Inductive route : Type := Index | Register | Profile | UpdateProfile | Logout.

Definition get_only (m : http_method) (r : db * session * response)
           (t : db) (s : session) : db * session * response :=
  match m with
  | GET => r
  | POST => (t, s, MethodNotAllowed)
  end.

Definition handle `{Library} (rt : route) (snapshot t : db) (s : session)
           (req : request) : db * session * response :=
  match rt with
  | Index => get_only (method req) (t, s, index s) t s
  | Register => register snapshot t s req
  | Profile => get_only (method req) (profile t s) t s
  | UpdateProfile => update_profile snapshot t s req
  | Logout => get_only (method req) (logout t) t s
  end.

(** One request served; [snapshot] is whatever the table held when the
    request read it. *)
Inductive step `{Library} : db -> db -> Prop :=
| step_handle (rt : route) (snapshot t : db) (s : session) (req : request) :
    step t (fst (fst (handle rt snapshot t s req))).

Inductive reachable `{Library} : db -> Prop :=
| reach_init : reachable init_db
| reach_step (t t' : db) : reachable t -> step t t' -> reachable t'.

End Auth.

(* ================================================================== *)
(** ** src/flask_user_profiles_app.py *)

Module Profiles.
Import WTForms Sqlite Flask.

(** One row of [users] (schema of [init_db]). *)
Record user : Type := {
  id : Z;
  username : string;
  full_name : string;
  email : string;
  age : option Z;
  bio : option string
}.

#[global] Instance user_schema : Schema user := {|
  row_id := id;
  row_username := username;
  row_email := email;
  with_id := fun i r =>
    {| id := i; username := username r; full_name := full_name r;
       email := email r; age := age r; bio := bio r |};
  row_id_with_id := fun _ _ => eq_refl;
  row_username_with_id := fun _ _ => eq_refl;
  row_email_with_id := fun _ _ => eq_refl
|}.

Definition db : Type := table user.

(** [init_db]: [CREATE TABLE users] when the file does not exist. *)
Definition init_db : db := empty.

(** [INSERT INTO users (username, full_name, email, age, bio)] *)
Definition sql_insert (uname fname mail : string) (age_value : option Z)
           (bio_value : option string) (t : db) : outcome user :=
  insert {| id := 0; username := uname; full_name := fname; email := mail;
            age := age_value; bio := bio_value |} t.

(** The block under [__main__]: two sample rows when the table is empty. *)
Definition seed (t : db) : db :=
  match rows t with
  | [] =>
      let t1 := after t (sql_insert "jdoe" "John Doe" "jdoe@example.com"
                                    (Some 34) (Some "A short bio about John.") t) in
      after t1 (sql_insert "asmith" "Alice Smith" "alice@example.com"
                           (Some 28) (Some "Alice loves coding and coffee.") t1)
  | _ :: _ => t
  end.

(** [request.form] as the fields of [ProfileForm] receive it. *)
Record formdata : Type := {
  f_username : option string;
  f_full_name : option string;
  f_email : option string;
  f_age : int_input;
  f_bio : option string
}.

(** A request: method, what the CSRF check of its token finds, and the
    form data. *)
Record request : Type := {
  method : http_method;
  csrf : csrf_check;
  form : formdata
}.

Definition csrf_token_ok (req : request) : bool := csrf_passes (csrf req).

Definition username_validators : list (option string -> verdict) :=
  [ DataRequired "This field is required.";
    Length 3 30 "Field must be between 3 and 30 characters long." ].

Definition full_name_validators : list (option string -> verdict) :=
  [ DataRequired "This field is required.";
    Length 2 100 "Field must be between 2 and 100 characters long." ].

Definition email_validators `{Library} : list (option string -> verdict) :=
  [ DataRequired "This field is required.";
    Email email_syntax_ok "Invalid email address.";
    Length (-1) 120 "Field cannot be longer than 120 characters." ].

Definition age_validators : list (option Z -> verdict) :=
  [ NumberRange 0 120 "Number must be between 0 and 120." ].

Definition bio_validators : list (option string -> verdict) :=
  [ Length (-1) 500 "Field cannot be longer than 500 characters." ].

Definition age_errors (i : int_input) : list string :=
  int_process_errors i ++ run_validation_chain age_validators (int_data i).

(** [ProfileForm(...).errors] after [validate()]; no validator looks at
    the table. *)
Definition profile_errors `{Library} (req : request) : form_errors :=
  let fd := form req in
  errors_of
    [ ("username", run_validation_chain username_validators (f_username fd));
      ("full_name", run_validation_chain full_name_validators (f_full_name fd));
      ("email", run_validation_chain email_validators (f_email fd));
      ("age", age_errors (f_age fd));
      ("bio", run_validation_chain bio_validators (f_bio fd));
      ("csrf_token", csrf_errors (csrf req)) ].

(** [(x or '').strip()] *)
Definition cleaned (o : option string) : string := Py.strip (Py.or_empty o).

(** The SET clause of [update]:
    [username = ?, full_name = ?, email = ?, age = ?, bio = ?]. *)
Definition set_profile (uname fname mail : string) (age_value : option Z)
           (bio_value : option string) (r : user) : user :=
  {| id := id r; username := uname; full_name := fname; email := mail;
     age := age_value; bio := bio_value |}.

(** [UPDATE users SET ... WHERE id = ?] *)
Definition sql_update (uname fname mail : string) (age_value : option Z)
           (bio_value : option string) (uid : Z) (t : db) : outcome user :=
  update uid (set_profile uname fname mail age_value bio_value) t.

Definition all_columns (u : user) : list cell :=
  [ Int (id u); Text (username u); Text (full_name u); Text (email u);
    int_cell (age u); text_cell (bio u) ].

(** [index]: [SELECT id, username, full_name, email ... ORDER BY id DESC];
    rows are kept in insertion order, which is ascending id. *)
Definition index (t : db) : response :=
  Page (map (fun u => [ Int (id u); Text (username u); Text (full_name u);
                        Text (email u) ]) (rev (rows t))).

(** [register]: the INSERT runs on [t].  The form rendered at the end
    shows the errors of [validate()], which ran only on POST. *)
Definition register `{Library} (t : db) (req : request) : db * response :=
  let fd := form req in
  let errors := profile_errors req in
  if validate_on_submit (method req) errors then
    let age_value := int_data (f_age fd) in
    let bio_value := cleaned (f_bio fd) in
    match sql_insert (cleaned (f_username fd)) (cleaned (f_full_name fd))
                     (cleaned (f_email fd)) age_value (Some bio_value) t with
    | Done t' => (t', Saved)
    | IntegrityError => (t, Conflict)
    end
  else (t, FormPage (rendered_errors (method req) errors) []).

(** What [SELECT * FROM users WHERE id = ?] gives for a [user_id] that
    matches no row: nothing when [sqlite3] can bind the number, and
    [OverflowError] out of [execute] otherwise.  SQLite keeps row ids in
    64 bits, so a number that cannot be bound never matches a row. *)
Definition no_such_row (t : db) (user_id : Z) : db * response :=
  if binds user_id then (t, NotFound) else (t, ServerError).

(** [profile].  [PROFILE_TEMPLATE] tests [user['age'] is not None];
    Jinja has no test of the name [None] (its test is [none]), so rendering
    the template raises and the view never returns the page of a row it
    found. *)
Definition profile (t : db) (user_id : Z) : db * response :=
  match fetchone (has_id user_id) t with
  | None => no_such_row t user_id
  | Some u => (t, ServerError)
  end.

(** [update]: the row lookup reads [snapshot], the UPDATE runs on [t]. *)
Definition update `{Library} (snapshot t : db) (user_id : Z) (req : request)
  : db * response :=
  match fetchone (has_id user_id) snapshot with
  | None => no_such_row t user_id
  | Some u =>
      match method req with
      | GET => (t, FormPage [] (all_columns u))
      | POST =>
          let fd := form req in
          let errors := profile_errors req in
          if validate_on_submit (method req) errors then
            let age_value := int_data (f_age fd) in
            let bio_value := cleaned (f_bio fd) in
            match sql_update (cleaned (f_username fd)) (cleaned (f_full_name fd))
                             (cleaned (f_email fd)) age_value (Some bio_value)
                             user_id t with
            | Done t' => (t', Saved)
            | IntegrityError => (t, Conflict)
            end
          else (t, FormPage errors [])
      end
  end.

(** The URL map; [user_id] is the number written in the path. *)
Inductive route : Type :=
| Index
| Register
| Profile (user_id : Z)
| Update (user_id : Z).

Definition get_only (m : http_method) (r : db * response) (t : db) : db * response :=
  match m with
  | GET => r
  | POST => (t, MethodNotAllowed)
  end.

Definition handle `{Library} (rt : route) (snapshot t : db) (req : request)
  : db * response :=
  match rt with
  | Index => get_only (method req) (t, index t) t
  | Register => register t req
  | Profile user_id =>
      if int_converter user_id
      then get_only (method req) (profile t user_id) t
      else (t, NoSuchPage)
  | Update user_id =>
      if int_converter user_id
      then update snapshot t user_id req
      else (t, NoSuchPage)
  end.

Inductive step `{Library} : db -> db -> Prop :=
| step_handle (rt : route) (snapshot t : db) (req : request) :
    step t (fst (handle rt snapshot t req)).

(** The table starts empty or seeded by the [__main__] block. *)
Inductive reachable `{Library} : db -> Prop :=
| reach_init : reachable init_db
| reach_seed : reachable (seed init_db)
| reach_step (t t' : db) : reachable t -> step t t' -> reachable t'.

End Profiles.

(* ================================================================== *)
(** ** A concrete library, for running the model *)

Module Sample.

Definition code (c : ascii) : Z := Z.of_N (N_of_ascii c).

Definition is_lower (c : ascii) : bool := (97 <=? code c) && (code c <=? 122).
Definition is_digit (c : ascii) : bool := (48 <=? code c) && (code c <=? 57).
Definition is_lower_alnum (c : ascii) : bool := is_lower c || is_digit c.

Fixpoint all_chars (p : ascii -> bool) (s : string) : bool :=
  match s with
  | EmptyString => true
  | String c s' => p c && all_chars p s'
  end.

(** [s.split(sep)] *)
Fixpoint split (sep : ascii) (s : string) : list string :=
  match s with
  | EmptyString => [EmptyString]
  | String c s' =>
      match split sep s' with
      | [] => [EmptyString]
      | piece :: pieces =>
          if Ascii.eqb c sep then EmptyString :: piece :: pieces
          else String c piece :: pieces
      end
  end.

Definition label_ok (l : string) : bool :=
  (1 <=? Py.len l) && (Py.len l <=? 63) && all_chars is_lower_alnum l.

(** Top-level names [email_validator] refuses as special-use. *)
Definition reserved : list string :=
  ["arpa"; "example"; "invalid"; "local"; "localhost"; "onion"; "test"].

(** Addresses of the plainest shape, all of which [email_validator]
    accepts: a local part of 1 to 64 lower-case letters and digits, [@], a
    domain of two or more labels of 1 to 63 such characters, the last one
    letters only and not reserved, 254 characters at most in all. *)
Definition plain_address (s : string) : bool :=
  match split "@" s with
  | [local; domain] =>
      let labels := split "." domain in
      let tld := List.last labels EmptyString in
      (1 <=? Py.len local) && (Py.len local <=? 64)
      && all_chars is_lower_alnum local
      && (2 <=? Z.of_nat (List.length labels))
      && forallb label_ok labels
      && all_chars is_lower tld
      && negb (existsb (String.eqb tld) reserved)
      && (Py.len s <=? 254)
  | _ => false
  end.

Fixpoint code_sum (s : string) : Z :=
  match s with
  | EmptyString => 0
  | String c s' => code c + code_sum s'
  end.

(** A one-letter checksum standing in for the digest. *)
Definition checksum (salt password : string) : string :=
  String (ascii_of_N (Z.to_N (97 + (code_sum (salt ++ password)) mod 26)))
         EmptyString.

#[export] Instance library : Library := {|
  email_syntax_ok := plain_address;
  hash_internal := checksum
|}.

Fixpoint repeat_char (c : ascii) (n : nat) : string :=
  match n with
  | O => EmptyString
  | S n' => String c (repeat_char c n')
  end.

End Sample.

(* ================================================================== *)
(** ** Vocabulary of the statements *)

Module Spec.
Import Sqlite.

(** From [t] to [t']: the id column of the rows already there is kept,
    position by position, and every id that appears is above all ids
    handed out so far. *)
Definition ids_extend {row : Type} `{Schema row} (t t' : table row) : Prop :=
  exists fresh : list Z,
    map row_id (rows t') = (map row_id (rows t) ++ fresh)%list /\
    Forall (fun i => seq t < i) fresh /\
    seq t <= seq t'.

(** The row [register] of src/app.py stores for the given columns. *)
Definition auth_row (i : Z) (u e pwhash f : string) (a : option Z)
           (b : option string) (ts : Z) : Auth.user :=
  {| Auth.id := i; Auth.username := u; Auth.email := e;
     Auth.password := pwhash; Auth.full_name := f; Auth.age := a;
     Auth.bio := b; Auth.created_at := ts; Auth.updated_at := ts |}.

(** The static rules of [ProfileForm], field by field. *)
Definition profile_rules `{Library} (fd : Profiles.formdata) : Prop :=
  (exists u, Profiles.f_username fd = Some u /\ Py.strip u <> "" /\
             3 <= Py.len u <= 30) /\
  (exists f, Profiles.f_full_name fd = Some f /\ Py.strip f <> "" /\
             2 <= Py.len f <= 100) /\
  (exists e, Profiles.f_email fd = Some e /\ Py.strip e <> "" /\
             email_syntax_ok e = true /\ Py.len e <= 120) /\
  (exists n, Profiles.f_age fd = WTForms.IntValue n /\ 0 <= n <= 120) /\
  Py.len (Py.or_empty (Profiles.f_bio fd)) <= 500.

(** Every stored username and email is unchanged by [strip]. *)
Definition keys_trimmed (t : Profiles.db) : Prop :=
  Forall (fun r => Py.strip (Profiles.username r) = Profiles.username r /\
                   Py.strip (Profiles.email r) = Profiles.email r) (rows t).

(** The stored row holds the submitted strings stripped, and a bio that
    is a string, stripped as well. *)
Definition stored_stripped (fd : Profiles.formdata) (r : Profiles.user) : Prop :=
  Profiles.username r = Py.strip (Py.or_empty (Profiles.f_username fd)) /\
  Profiles.full_name r = Py.strip (Py.or_empty (Profiles.f_full_name fd)) /\
  Profiles.email r = Py.strip (Py.or_empty (Profiles.f_email fd)) /\
  Profiles.bio r = Some (Py.strip (Py.or_empty (Profiles.f_bio fd))) /\
  Py.trimmed (Profiles.username r) = true /\
  Py.trimmed (Profiles.full_name r) = true /\
  Py.trimmed (Profiles.email r) = true.

(** The stored row holds email, full name and bio exactly as submitted,
    except that a missing or empty bio is stored as NULL. *)
Definition stored_as_submitted (fd : Auth.formdata) (r : Auth.user) : Prop :=
  Auth.f_email fd = Some (Auth.email r) /\
  Auth.f_full_name fd = Some (Auth.full_name r) /\
  match Auth.f_bio fd with
  | None | Some EmptyString => Auth.bio r = None
  | Some b => Auth.bio r = Some b
  end.

(** The same request with another password typed in. *)
Definition with_password (p : string) (req : Auth.request) : Auth.request :=
  {| Auth.method := Auth.method req;
     Auth.csrf := Auth.csrf req;
     Auth.form :=
       {| Auth.f_username := Auth.f_username (Auth.form req);
          Auth.f_email := Auth.f_email (Auth.form req);
          Auth.f_password := Some p;
          Auth.f_full_name := Auth.f_full_name (Auth.form req);
          Auth.f_age := Auth.f_age (Auth.form req);
          Auth.f_bio := Auth.f_bio (Auth.form req) |};
     Auth.now := Auth.now req;
     Auth.salt := Auth.salt req |}.

(** A row, and a table, with the password column blanked. *)
Definition forget_password (r : Auth.user) : Auth.user :=
  {| Auth.id := Auth.id r; Auth.username := Auth.username r;
     Auth.email := Auth.email r; Auth.password := EmptyString;
     Auth.full_name := Auth.full_name r; Auth.age := Auth.age r;
     Auth.bio := Auth.bio r; Auth.created_at := Auth.created_at r;
     Auth.updated_at := Auth.updated_at r |}.

Definition forget_passwords (t : Auth.db) : Auth.db :=
  {| rows := map forget_password (rows t); seq := seq t |}.

(** A predicate on rows that cannot tell two rows apart when they agree
    outside the password column. *)
Definition blind (q : Auth.user -> bool) : Prop :=
  forall r r', forget_password r = forget_password r' -> q r = q r'.

(** Two statements ended the same way, on tables that still agree outside
    the password column. *)
Definition same_outcome (o o' : outcome Auth.user) : Prop :=
  match o, o' with
  | Done a, Done b => forget_passwords a = forget_passwords b
  | IntegrityError, IntegrityError => True
  | _, _ => False
  end.

(** What the client gets back from a view of src/app.py. *)
Definition seen `{Library} (rt : Auth.route) (snapshot t : Auth.db)
           (s : Auth.session) (req : Auth.request) : Auth.session * Flask.response :=
  let '(_, s', resp) := Auth.handle rt snapshot t s req in (s', resp).

(** Some view answers differently on two tables that differ in nothing
    but stored password hashes. *)
Definition some_view_reads_the_hash `{Library} : Prop :=
  exists rt snapshot snapshot' t t' s req,
    forget_passwords snapshot = forget_passwords snapshot' /\
    forget_passwords t = forget_passwords t' /\
    seen rt snapshot t s req <> seen rt snapshot' t' s req.

End Spec.

(* ================================================================== *)
(** ** Concrete requests and tables *)

Module Scenario.
Import WTForms Sqlite Flask Sample.

Definition auth_post (fd : Auth.formdata) (ts : Z) : Auth.request :=
  {| Auth.method := POST; Auth.csrf := TokenValid; Auth.form := fd;
     Auth.now := ts; Auth.salt := "NaCl" |}.

Definition alice : Auth.formdata :=
  {| Auth.f_username := Some "alice"; Auth.f_email := Some "alice@example.org";
     Auth.f_password := Some "wonderland";
     Auth.f_full_name := Some "Alice Liddell";
     Auth.f_age := IntValue 30; Auth.f_bio := Some "Curious." |}.

Definition bob : Auth.formdata :=
  {| Auth.f_username := Some "bob"; Auth.f_email := Some "bob@example.org";
     Auth.f_password := Some "builder1";
     Auth.f_full_name := Some "Bob Builder";
     Auth.f_age := IntValue 41; Auth.f_bio := None |}.

Definition carol : Auth.formdata :=
  {| Auth.f_username := Some "carol"; Auth.f_email := Some "carol@example.org";
     Auth.f_password := Some "christmas";
     Auth.f_full_name := Some "Carol Singer";
     Auth.f_age := IntValue 25; Auth.f_bio := Some "" |}.

(** Another visitor asking for the username [alice]. *)
Definition alice_again : Auth.formdata :=
  {| Auth.f_username := Some "alice"; Auth.f_email := Some "other@example.org";
     Auth.f_password := Some "lookingglass";
     Auth.f_full_name := Some "Alice Other";
     Auth.f_age := IntValue 22; Auth.f_bio := None |}.

(** A registration with whitespace around username and full name. *)
Definition padded : Auth.formdata :=
  {| Auth.f_username := Some " bob "; Auth.f_email := Some "bob@example.org";
     Auth.f_password := Some "builder1";
     Auth.f_full_name := Some "  Bob Builder ";
     Auth.f_age := IntValue 41; Auth.f_bio := Some "  " |}.

(** 64 + 1 + 60 + 4 = 129 characters. *)
Definition long_email : string :=
  repeat_char "a" 64 ++ "@" ++ repeat_char "b" 60 ++ ".org".

Definition long_mail : Auth.formdata :=
  {| Auth.f_username := Some "longmail"; Auth.f_email := Some long_email;
     Auth.f_password := Some "secret99";
     Auth.f_full_name := Some "Long Mail";
     Auth.f_age := IntValue 50; Auth.f_bio := None |}.

(** Alice's profile form, asking for the address [carol@example.org]. *)
Definition alice_wants_carols_email : Auth.formdata :=
  {| Auth.f_username := None; Auth.f_email := Some "carol@example.org";
     Auth.f_password := None;
     Auth.f_full_name := Some "Alice Liddell";
     Auth.f_age := IntValue 31; Auth.f_bio := Some "Curious." |}.

(** Alice's profile form, keeping her address. *)
Definition alice_keeps_email : Auth.formdata :=
  {| Auth.f_username := None; Auth.f_email := Some "alice@example.org";
     Auth.f_password := None;
     Auth.f_full_name := Some "Alice P. Liddell";
     Auth.f_age := IntValue 31; Auth.f_bio := None |}.

(** Bob's registration form with the age field left out. *)
Definition bob_no_age : Auth.formdata :=
  {| Auth.f_username := Some "bob"; Auth.f_email := Some "bob@example.org";
     Auth.f_password := Some "builder1";
     Auth.f_full_name := Some "Bob Builder";
     Auth.f_age := NoValue; Auth.f_bio := None |}.

(** The table after a request was served with nothing in between. *)
Definition auth_then (t : Auth.db) (rt : Auth.route) (s : Auth.session)
           (req : Auth.request) : Auth.db :=
  fst (fst (Auth.handle rt t t s req)).

Definition auth_one : Auth.db :=
  auth_then Auth.init_db Auth.Register None (auth_post alice 100).

Definition auth_two : Auth.db :=
  auth_then auth_one Auth.Register None (auth_post bob 200).

Definition auth_three : Auth.db :=
  auth_then auth_two Auth.Register None (auth_post carol 300).

Definition alice_session : Auth.session := Some (1, "alice").

(** [auth_one] with another string in the password column. *)
Definition auth_one_other_hash : Auth.db :=
  {| rows := [Spec.auth_row 1 "alice" "alice@example.org" "scrypt:32768:8:1$NaCl$z"
                "Alice Liddell" (Some 30) (Some "Curious.") 100];
     seq := 1 |}.

Definition auth_get : Auth.request :=
  {| Auth.method := GET; Auth.csrf := TokenMissing;
     Auth.form := {| Auth.f_username := None; Auth.f_email := None;
                     Auth.f_password := None; Auth.f_full_name := None;
                     Auth.f_age := NoValue; Auth.f_bio := None |};
     Auth.now := 500; Auth.salt := "" |}.

Definition profiles_post (fd : Profiles.formdata) : Profiles.request :=
  {| Profiles.method := POST; Profiles.csrf := TokenValid;
     Profiles.form := fd |}.

Definition dave : Profiles.formdata :=
  {| Profiles.f_username := Some " dave "; Profiles.f_full_name := Some "Dave Dee ";
     Profiles.f_email := Some "dave@example.org";
     Profiles.f_age := IntValue 0; Profiles.f_bio := Some "" |}.

(** The form of row 1 ([jdoe]) asking for the username [asmith]. *)
Definition jdoe_wants_asmith : Profiles.formdata :=
  {| Profiles.f_username := Some "asmith"; Profiles.f_full_name := Some "John Doe";
     Profiles.f_email := Some "jdoe@example.com";
     Profiles.f_age := IntValue 35; Profiles.f_bio := Some "" |}.

(** The form of row 1 ([jdoe]) keeping username and address. *)
Definition jdoe_keeps_email : Profiles.formdata :=
  {| Profiles.f_username := Some "jdoe"; Profiles.f_full_name := Some "John D.";
     Profiles.f_email := Some "jdoe@example.com";
     Profiles.f_age := IntValue 35; Profiles.f_bio := Some "" |}.

Definition dave_no_age : Profiles.formdata :=
  {| Profiles.f_username := Some "dave"; Profiles.f_full_name := Some "Dave Dee";
     Profiles.f_email := Some "dave@example.org";
     Profiles.f_age := NoValue; Profiles.f_bio := None |}.

Definition seeded : Profiles.db := Profiles.seed Profiles.init_db.

End Scenario.

(* ================================================================== *)
(** ** Vocabulary of the further statements *)

Module More.
Import WTForms Sqlite Flask.

(** Any number of requests served by src/app.py, one after the other. *)
Inductive auth_steps `{Library} : Auth.db -> Auth.db -> Prop :=
| auth_steps_none (t : Auth.db) : auth_steps t t
| auth_steps_more (t t' t'' : Auth.db) :
    auth_steps t t' -> Auth.step t' t'' -> auth_steps t t''.

(** [r'] is [r] as far as id, username, password and [created_at] go. *)
Definition auth_same_identity (r r' : Auth.user) : Prop :=
  Auth.id r' = Auth.id r /\ Auth.username r' = Auth.username r /\
  Auth.password r' = Auth.password r /\ Auth.created_at r' = Auth.created_at r.

(** The row of the user the session names. *)
Definition own_row (s : Auth.session) (r : Auth.user) : bool :=
  match s with
  | Some (uid, _) => has_id uid r
  | None => false
  end.

(** What the forms of src/app.py let into a row. *)
Definition auth_row_ok `{Library} (r : Auth.user) : Prop :=
  3 <= Py.len (Auth.username r) <= 20 /\ Py.strip (Auth.username r) <> "" /\
  email_syntax_ok (Auth.email r) = true /\ Py.strip (Auth.email r) <> "" /\
  2 <= Py.len (Auth.full_name r) <= 100 /\ Py.strip (Auth.full_name r) <> "" /\
  (exists n, Auth.age r = Some n /\ 1 <= n <= 150) /\
  match Auth.bio r with
  | None => True
  | Some b => 1 <= Py.len b <= 500
  end /\
  (exists salt p, 6 <= Py.len p /\
                  Auth.password r = Werkzeug.generate_password_hash salt p).

(** What [ProfileForm] followed by [strip] lets into a row. *)
Definition profiles_row_ok (r : Profiles.user) : Prop :=
  1 <= Py.len (Profiles.username r) <= 30 /\
  Py.trimmed (Profiles.username r) = true /\
  1 <= Py.len (Profiles.full_name r) <= 100 /\
  Py.trimmed (Profiles.full_name r) = true /\
  1 <= Py.len (Profiles.email r) <= 120 /\
  Py.trimmed (Profiles.email r) = true /\
  (exists n, Profiles.age r = Some n /\ 0 <= n <= 120) /\
  (exists b, Profiles.bio r = Some b /\ Py.len b <= 500 /\ Py.trimmed b = true).

Fixpoint increasing (l : list Z) : Prop :=
  match l with
  | [] => True
  | a :: l' => Forall (fun b => a < b) l' /\ increasing l'
  end.

Fixpoint decreasing (l : list Z) : Prop :=
  match l with
  | [] => True
  | a :: l' => Forall (fun b => b < a) l' /\ decreasing l'
  end.

(** The ids a page lists, in the order it lists them (the id is the first
    column of every row shown). *)
Definition listed_ids (resp : response) : list Z :=
  match resp with
  | Page shown =>
      flat_map (fun cells => match cells with
                             | Int i :: _ => [i]
                             | _ => []
                             end) shown
  | _ => []
  end.

(** The update form as [update] loads it on GET
    ([form.username.data = user['username']] and so on), sent back as it
    is. *)
Definition as_loaded (r : Profiles.user) : Profiles.formdata :=
  {| Profiles.f_username := Some (Profiles.username r);
     Profiles.f_full_name := Some (Profiles.full_name r);
     Profiles.f_email := Some (Profiles.email r);
     Profiles.f_age := match Profiles.age r with
                       | Some n => IntValue n
                       | None => NoValue
                       end;
     Profiles.f_bio := Profiles.bio r |}.

Definition profiles_get : Profiles.request :=
  {| Profiles.method := GET; Profiles.csrf := TokenMissing;
     Profiles.form := {| Profiles.f_username := None; Profiles.f_full_name := None;
                         Profiles.f_email := None; Profiles.f_age := NoValue;
                         Profiles.f_bio := None |} |}.

(** The row a view of src/flask_user_profiles_app.py may write to. *)
Definition target_row (rt : Profiles.route) (r : Profiles.user) : bool :=
  match rt with
  | Profiles.Update uid => has_id uid r
  | _ => false
  end.

End More.

(* ================================================================== *)
(** * Properties *)

(** ** [str.strip] *)

Module PyFacts.
Import Py.

Lemma lstrip_first (s : string) : edge_ok (first (lstrip s)) = true.
Proof.
  induction s as [|c s IH]; simpl; [reflexivity|].
  destruct (isspace c) eqn:E; [exact IH|].
  simpl. now rewrite E.
Qed.

Lemma rstrip_last (s : string) : edge_ok (last (rstrip s)) = true.
Proof.
  induction s as [|c s IH]; simpl; [reflexivity|].
  destruct (rstrip s) as [|d t] eqn:R.
  - destruct (isspace c) eqn:E; simpl; [reflexivity| now rewrite E].
  - exact IH.
Qed.

Lemma rstrip_first (s : string) :
  edge_ok (first s) = true -> edge_ok (first (rstrip s)) = true.
Proof.
  destruct s as [|c s]; simpl; [reflexivity|].
  intros E. destruct (rstrip s); simpl; [|exact E].
  destruct (isspace c) eqn:C; simpl; [discriminate E | now rewrite C].
Qed.

Lemma strip_trimmed (s : string) : trimmed (strip s) = true.
Proof.
  unfold trimmed, strip.
  rewrite rstrip_first by apply lstrip_first.
  now rewrite rstrip_last.
Qed.

Lemma lstrip_fixed (s : string) : edge_ok (first s) = true -> lstrip s = s.
Proof.
  destruct s as [|c s]; simpl; [reflexivity|].
  destruct (isspace c); [discriminate | reflexivity].
Qed.

Lemma rstrip_fixed (s : string) : edge_ok (last s) = true -> rstrip s = s.
Proof.
  induction s as [|c s IH]; [reflexivity|].
  destruct s as [|d s'].
  - simpl. destruct (isspace c); [discriminate | reflexivity].
  - intros E. change (last (String c (String d s'))) with (last (String d s')) in E.
    specialize (IH E).
    change (rstrip (String c (String d s')))
      with (match rstrip (String d s') with
            | EmptyString => if isspace c then EmptyString else String c EmptyString
            | t => String c t
            end).
    now rewrite IH.
Qed.

Lemma strip_fixed (s : string) : trimmed s = true -> strip s = s.
Proof.
  unfold trimmed, strip. intros E.
  apply andb_true_iff in E as [E1 E2].
  rewrite (lstrip_fixed s E1). now apply rstrip_fixed.
Qed.

Lemma strip_idempotent (s : string) : strip (strip s) = strip s.
Proof. apply strip_fixed, strip_trimmed. Qed.

End PyFacts.

(** ** The table: what the constraints guarantee *)

Module SqliteFacts.
Import Sqlite.

Lemma NoDup_map_inj {A K : Type} (key : A -> K) (l : list A) (a b : A) :
  NoDup (map key l) -> In a l -> In b l -> key a = key b -> a = b.
Proof.
  induction l as [|x l IH]; simpl; [tauto|].
  intros ND Ha Hb E. inversion ND as [|? ? Hx ND']; subst.
  destruct Ha as [->|Ha], Hb as [->|Hb]; auto.
  - exfalso. apply Hx. rewrite E. now apply in_map.
  - exfalso. apply Hx. rewrite <- E. now apply in_map.
Qed.

(** Replacing the (at most one) element selected by [p] keeps a key column
    duplicate-free when the replacement's key is nobody else's. *)
Lemma NoDup_map_replace {A K : Type} (key : A -> K) (p : A -> bool)
      (f : A -> A) (l : list A) :
  NoDup (map key l) ->
  (forall a b, In a l -> In b l -> p a = true -> p b = true -> a = b) ->
  (forall a b, In a l -> In b l -> p a = true -> p b = false ->
               key (f a) <> key b) ->
  NoDup (map key (map (fun o => if p o then f o else o) l)).
Proof.
  induction l as [|x l IH]; simpl; intros ND One Other; [constructor|].
  inversion ND as [|? ? Hx ND']; subst.
  constructor.
  - rewrite map_map, in_map_iff. intros (b & E & Hb).
    destruct (p x) eqn:Px, (p b) eqn:Pb.
    + assert (x = b) by (apply One; auto). subst b.
      apply Hx. now apply in_map.
    + apply (Other x b); auto.
    + apply (Other b x); auto.
    + apply Hx. rewrite <- E. now apply in_map.
  - apply IH; auto.
Qed.

Section Facts.
Context {row : Type} `{Schema row}.

Lemma clash_with_id (i : Z) (r o : row) : clash (with_id i r) o = clash r o.
Proof.
  unfold clash. now rewrite row_username_with_id, row_email_with_id.
Qed.

Lemma clash_false (r o : row) :
  clash r o = false <->
  row_username r <> row_username o /\ row_email r <> row_email o.
Proof.
  unfold clash. rewrite orb_false_iff, !String.eqb_neq. tauto.
Qed.

Lemma clash_true (r o : row) :
  clash r o = true <->
  row_username r = row_username o \/ row_email r = row_email o.
Proof.
  unfold clash. rewrite orb_true_iff, !String.eqb_eq. tauto.
Qed.

Lemma existsb_false {A : Type} (f : A -> bool) (l : list A) :
  existsb f l = false <-> forall x, In x l -> f x = false.
Proof.
  induction l as [|a l IH]; simpl.
  - split; [intros _ x [] | reflexivity].
  - rewrite orb_false_iff, IH. split.
    + intros [Ha Hl] x [<-|Hx]; auto.
    + intros Hall. split; [apply Hall; auto | intros x Hx; apply Hall; auto].
Qed.

Lemma max_rowid_bound (l : list row) : Forall (fun r => row_id r <= max_rowid l) l.
Proof.
  induction l as [|a l IH]; simpl; constructor.
  - lia.
  - eapply Forall_impl; [|exact IH]. simpl. intros; lia.
Qed.

(** AUTOINCREMENT hands out an id above every id in the table and above
    every id handed out before. *)
Lemma next_rowid_fresh (t : table row) :
  seq t < next_rowid t /\ Forall (fun r => row_id r < next_rowid t) (rows t).
Proof.
  unfold next_rowid. split; [lia|].
  eapply Forall_impl; [|apply max_rowid_bound]. simpl. intros; lia.
Qed.

Lemma insert_done (r : row) (t t' : table row) :
  insert r t = Done t' <->
  existsb (clash r) (rows t) = false /\
  t' = {| rows := rows t ++ [with_id (next_rowid t) r]; seq := next_rowid t |}.
Proof.
  unfold insert.
  replace (existsb (clash (with_id (next_rowid t) r)) (rows t))
    with (existsb (clash r) (rows t)).
  2:{ induction (rows t) as [|a l IH]; simpl; [reflexivity|].
      now rewrite clash_with_id, IH. }
  destruct (existsb (clash r) (rows t)); split.
  - discriminate.
  - intros [? _]; discriminate.
  - intros E; injection E as <-. auto.
  - intros [_ ->]. reflexivity.
Qed.

Lemma insert_refused (r : row) (t : table row) :
  insert r t = IntegrityError <-> existsb (clash r) (rows t) = true.
Proof.
  destruct (insert r t) eqn:E.
  - apply insert_done in E as [E _]. rewrite E. split; discriminate.
  - destruct (existsb (clash r) (rows t)) eqn:X; [tauto|].
    assert (D : insert r t = Done {| rows := rows t ++ [with_id (next_rowid t) r];
                                     seq := next_rowid t |})
      by (apply insert_done; auto).
    congruence.
Qed.

Lemma insert_wf (r : row) (t t' : table row) :
  wf t -> insert r t = Done t' -> wf t'.
Proof.
  intros [Hid Hun Hem Hseq] E. apply insert_done in E as [Free ->].
  destruct (next_rowid_fresh t) as [Hs Hfresh].
  rewrite existsb_false in Free.
  rewrite Forall_forall in Hfresh.
  constructor; simpl.
  - rewrite map_app. apply NoDup_app; auto.
    + simpl. constructor; [intros []| constructor].
    + intros a Ha [E|[]]. rewrite row_id_with_id in E.
      apply in_map_iff in Ha as (o & <- & Ho). specialize (Hfresh o Ho). simpl in Hfresh. lia.
  - rewrite map_app. apply NoDup_app; auto.
    + simpl. constructor; [intros []| constructor].
    + intros a Ha [E|[]]. rewrite row_username_with_id in E.
      apply in_map_iff in Ha as (o & <- & Ho).
      apply Free, clash_false in Ho. destruct Ho; congruence.
  - rewrite map_app. apply NoDup_app; auto.
    + simpl. constructor; [intros []| constructor].
    + intros a Ha [E|[]]. rewrite row_email_with_id in E.
      apply in_map_iff in Ha as (o & <- & Ho).
      apply Free, clash_false in Ho. destruct Ho; congruence.
  - apply Forall_app. split.
    + eapply Forall_impl; [|exact Hseq]. simpl. intros; lia.
    + constructor; [|constructor]. rewrite row_id_with_id. lia.
Qed.

(** The loser of two racing inserts: once a row is in, another one with
    the same username or the same email is refused. *)
Lemma insert_then_clash (r1 r2 : row) (t t1 : table row) :
  insert r1 t = Done t1 -> clash r2 r1 = true -> insert r2 t1 = IntegrityError.
Proof.
  intros E C. apply insert_done in E as [_ ->].
  apply insert_refused. simpl. rewrite existsb_app. simpl.
  unfold clash in *. rewrite row_username_with_id, row_email_with_id.
  rewrite C. apply orb_true_r.
Qed.

Lemma update_done (uid : Z) (set : row -> row) (t t' : table row) :
  update uid set t = Done t' ->
  (fetchone (has_id uid) t = None /\ t' = t) \/
  (exists r, fetchone (has_id uid) t = Some r /\
     existsb (fun o => negb (has_id uid o) && clash (set r) o) (rows t) = false /\
     t' = {| rows := map (fun o => if has_id uid o then set o else o) (rows t);
             seq := seq t |}).
Proof.
  unfold update. destruct (fetchone (has_id uid) t) as [r|].
  - destruct (existsb _ (rows t)) eqn:X; [discriminate|].
    intros E; injection E as <-. right. exists r. auto.
  - intros E; injection E as <-. left. auto.
Qed.

Lemma update_ids (uid : Z) (set : row -> row) (l : list row) :
  (forall r, row_id (set r) = row_id r) ->
  map row_id (map (fun o => if has_id uid o then set o else o) l) = map row_id l.
Proof.
  intros Keep. rewrite map_map. apply map_ext.
  intros o. destruct (has_id uid o); auto.
Qed.

Lemma has_id_unique (uid : Z) (l : list row) (a b : row) :
  NoDup (map row_id l) -> In a l -> In b l ->
  has_id uid a = true -> has_id uid b = true -> a = b.
Proof.
  unfold has_id. intros ND Ha Hb Ea Eb.
  apply Z.eqb_eq in Ea, Eb.
  apply (NoDup_map_inj row_id l); auto. congruence.
Qed.

Lemma update_wf (uid : Z) (set : row -> row) (t t' : table row) :
  wf t -> (forall r, row_id (set r) = row_id r) ->
  update uid set t = Done t' -> wf t'.
Proof.
  intros W Keep E.
  apply update_done in E as [[_ ->]|(r & Found & Free & ->)]; [exact W|].
  destruct W as [Hid Hun Hem Hseq].
  apply find_some in Found as [Hr Pr].
  rewrite existsb_false in Free.
  assert (Other : forall a b, In a (rows t) -> In b (rows t) ->
            has_id uid a = true -> has_id uid b = false ->
            clash (set a) b = false).
  { intros a b Ha Hb Pa Pb.
    assert (a = r) by (eapply has_id_unique; eauto). subst a.
    specialize (Free b Hb). rewrite Pb in Free. exact Free. }
  constructor; simpl.
  - now rewrite update_ids.
  - apply NoDup_map_replace; auto.
    + intros a b Ha Hb Pa Pb. eapply has_id_unique; eauto.
    + intros a b Ha Hb Pa Pb. apply (Other a b Ha Hb Pa), clash_false in Pb. tauto.
  - apply NoDup_map_replace; auto.
    + intros a b Ha Hb Pa Pb. eapply has_id_unique; eauto.
    + intros a b Ha Hb Pa Pb. apply (Other a b Ha Hb Pa), clash_false in Pb. tauto.
  - rewrite Forall_forall in *. intros x Hx.
    apply in_map_iff in Hx as (o & <- & Ho).
    specialize (Hseq o Ho). simpl in Hseq.
    destruct (has_id uid o); [rewrite Keep|]; exact Hseq.
Qed.

(** An UPDATE is refused exactly when the new values collide with a row
    other than the one being updated. *)
Lemma update_refused (uid : Z) (set : row -> row) (t : table row) :
  update uid set t = IntegrityError <->
  exists r o, fetchone (has_id uid) t = Some r /\ In o (rows t) /\
              has_id uid o = false /\ clash (set r) o = true.
Proof.
  unfold update. destruct (fetchone (has_id uid) t) as [r|].
  - destruct (existsb _ (rows t)) eqn:X.
    + apply existsb_exists in X as (o & Ho & C).
      apply andb_true_iff in C as [C1 C2]. apply negb_true_iff in C1.
      split; [|reflexivity]. intros _. exists r, o. auto.
    + split; [discriminate|]. intros (r' & o & Er & Ho & Po & C).
      injection Er as <-. rewrite existsb_false in X.
      specialize (X o Ho). rewrite Po, C in X. discriminate.
  - split; [discriminate|]. intros (r & o & Er & _). discriminate.
Qed.

Lemma ids_extend_refl (t : table row) : Spec.ids_extend t t.
Proof.
  exists []. rewrite app_nil_r. repeat split; [constructor | lia].
Qed.

Lemma insert_ids_extend (r : row) (t t' : table row) :
  insert r t = Done t' -> Spec.ids_extend t t'.
Proof.
  intros E. apply insert_done in E as [_ ->].
  exists [next_rowid t]. cbn [rows seq].
  rewrite map_app. cbn. rewrite row_id_with_id.
  destruct (next_rowid_fresh t) as [F _].
  repeat split; [repeat constructor; exact F | lia].
Qed.

Lemma update_ids_extend (uid : Z) (set : row -> row) (t t' : table row) :
  (forall r, row_id (set r) = row_id r) ->
  update uid set t = Done t' -> Spec.ids_extend t t'.
Proof.
  intros Keep E.
  apply update_done in E as [[_ ->]|(r & _ & _ & ->)]; [apply ids_extend_refl|].
  exists []. cbn [rows seq]. rewrite update_ids by exact Keep.
  rewrite app_nil_r. repeat split; [constructor | lia].
Qed.

Lemma find_all_false {A : Type} (p : A -> bool) (l : list A) :
  (forall x, In x l -> p x = false) -> find p l = None.
Proof.
  intros N. destruct (find p l) as [x|] eqn:F; [|reflexivity].
  apply find_some in F as [Hx Px]. rewrite (N x Hx) in Px. discriminate.
Qed.

(** In a table that satisfies the constraints, a row other than the one
    with id [uid] shares neither username nor email with it. *)
Lemma other_row_differs (uid : Z) (t : table row) (r o : row) :
  wf t -> In r (rows t) -> In o (rows t) ->
  has_id uid r = true -> has_id uid o = false ->
  row_username o <> row_username r /\ row_email o <> row_email r.
Proof.
  intros [_ Hun Hem _] Hr Ho Pr Po. split; intros E.
  - assert (o = r) by (apply (NoDup_map_inj row_username (rows t)); auto).
    subst o. congruence.
  - assert (o = r) by (apply (NoDup_map_inj row_email (rows t)); auto).
    subst o. congruence.
Qed.

(** An UPDATE that leaves both unique columns of its row as they are is
    never refused. *)
Lemma update_keeping_keys (uid : Z) (set : row -> row) (t : table row) (r : row) :
  wf t -> fetchone (has_id uid) t = Some r ->
  row_username (set r) = row_username r -> row_email (set r) = row_email r ->
  exists t', update uid set t = Done t'.
Proof.
  intros W F Ku Ke. destruct (update uid set t) as [t'|] eqn:U; [eauto|].
  apply update_refused in U as (r' & o & F' & Ho & Po & C).
  rewrite F in F'. injection F' as <-.
  apply find_some in F as [Hr Pr].
  destruct (other_row_differs uid t r o W Hr Ho Pr Po) as [Du De].
  apply clash_true in C. rewrite Ku, Ke in C. destruct C; congruence.
Qed.

Lemma after_wf (t : table row) (o : outcome row) :
  wf t -> (forall t', o = Done t' -> wf t') -> wf (after t o).
Proof. destruct o; simpl; auto. Qed.

Lemma empty_wf : wf (@empty row).
Proof. constructor; simpl; constructor. Qed.

End Facts.
End SqliteFacts.

(** ** Validators: when a chain leaves no message *)

Module WTFormsFacts.
Import WTForms.

Lemma chain_passes {A : Type} (vs : list (A -> verdict)) (d : A) :
  run_validation_chain vs d = [] <-> Forall (fun v => v d = Pass) vs.
Proof.
  induction vs as [|v vs IH]; simpl.
  - split; auto.
  - rewrite Forall_cons_iff, <- IH.
    destruct (v d); split; try discriminate; try tauto.
    + intros [E _]; discriminate.
    + intros [E _]; discriminate.
Qed.

Lemma no_errors_iff (fields : list (string * list string)) :
  no_errors (errors_of fields) = true <-> Forall (fun p => snd p = []) fields.
Proof.
  unfold errors_of. induction fields as [|[n ms] fields IH]; simpl.
  - split; auto.
  - rewrite Forall_cons_iff, <- IH. unfold has_messages. simpl.
    destruct ms; simpl; split; try discriminate; try tauto.
    intros [E _]; discriminate.
Qed.

Lemma truthy_strip (s : string) :
  Py.truthy (Some s) && Py.truthy (Some (Py.strip s)) = true <-> Py.strip s <> "".
Proof.
  destruct s as [|c s].
  - simpl. split; [discriminate | intros N; now elim N].
  - simpl Py.truthy at 1. rewrite andb_true_l.
    destruct (Py.strip (String c s)); simpl; split;
      try discriminate; auto; intros N; now elim N.
Qed.

Lemma DataRequired_pass (m : string) (d : option string) :
  DataRequired m d = Pass <-> exists s, d = Some s /\ Py.strip s <> "".
Proof.
  unfold DataRequired. destruct d as [s|].
  - destruct (Py.truthy (Some s) && Py.truthy (Some (Py.strip s))) eqn:T.
    + apply truthy_strip in T. split; eauto.
    + split; [discriminate|]. intros (s' & E & N). injection E as <-.
      apply truthy_strip in N. congruence.
  - split; [discriminate|]. intros (s & E & _). discriminate.
Qed.

Lemma Length_pass (lo hi : Z) (m : string) (d : option string) :
  Length lo hi m d = Pass <->
  lo <= Py.len (Py.or_empty d) /\ (hi = -1 \/ Py.len (Py.or_empty d) <= hi).
Proof.
  unfold Length.
  destruct ((lo <=? _) && ((hi =? -1) || (_ <=? hi))) eqn:T.
  - apply andb_true_iff in T as [T1 T2]. apply orb_true_iff in T2.
    split; [intros _|reflexivity]. split; [lia|].
    destruct T2; [left|right]; lia.
  - split; [discriminate|]. intros [L U].
    apply andb_false_iff in T as [T|T]; [lia|].
    apply orb_false_iff in T as [T1 T2]. lia.
Qed.

Lemma NumberRange_pass (lo hi : Z) (m : string) (d : option Z) :
  NumberRange lo hi m d = Pass <-> exists n, d = Some n /\ lo <= n <= hi.
Proof.
  unfold NumberRange. destruct d as [n|].
  - destruct ((lo <=? n) && (n <=? hi)) eqn:T.
    + split; [intros _|reflexivity]. exists n. split; [reflexivity|lia].
    + split; [discriminate|]. intros (n' & E & B). injection E as <-. lia.
  - split; [discriminate|]. intros (n & E & _). discriminate.
Qed.

Lemma Email_pass (ok : string -> bool) (m : string) (d : option string) :
  Email ok m d = Pass <-> exists s, d = Some s /\ ok s = true.
Proof.
  unfold Email. destruct d as [s|].
  - destruct (ok s) eqn:T.
    + split; eauto.
    + split; [discriminate|]. intros (s' & E & B). injection E as <-. congruence.
  - split; [discriminate|]. intros (s & E & _). discriminate.
Qed.

(** The [age] field leaves no message exactly on an integer in range. *)
Lemma int_field_ok (lo hi : Z) (m : string) (i : int_input) :
  (int_process_errors i ++ run_validation_chain [NumberRange lo hi m] (int_data i))%list
  = [] <-> exists n, i = IntValue n /\ lo <= n <= hi.
Proof.
  destruct i as [|raw|n]; simpl.
  - split; [discriminate|]. intros (n & E & _); discriminate.
  - split; [discriminate|]. intros (n & E & _); discriminate.
  - destruct ((lo <=? n) && (n <=? hi)) eqn:T.
    + split; [intros _|reflexivity]. exists n. split; [reflexivity|lia].
    + split; [discriminate|]. intros (n' & E & B). injection E as <-. lia.
Qed.

Lemma csrf_ok (c : csrf_check) : csrf_errors c = [] <-> csrf_passes c = true.
Proof. destruct c; simpl; split; auto; discriminate. Qed.

Lemma validate_on_submit_true (m : Flask.http_method) (e : form_errors) :
  Flask.validate_on_submit m e = true <-> m = Flask.POST /\ no_errors e = true.
Proof.
  destruct m; simpl; split; auto; try discriminate; try tauto.
  intros [E _]; discriminate.
Qed.

(** Turn "this chain left no message" into one fact per validator. *)
Ltac split_chain V :=
  apply chain_passes in V; cbn [app] in V; repeat rewrite Forall_cons_iff in V.

End WTFormsFacts.

(** ** src/app.py: validation and the two writing views *)

Module AuthFacts.
Import WTForms Sqlite Flask Auth WTFormsFacts SqliteFacts.

Section WithLibrary.
Context `{Library}.

Lemma validate_username_pass (snapshot : db) (d : option string) :
  validate_username snapshot d = Pass <-> fetchone (username_is d) snapshot = None.
Proof.
  unfold validate_username.
  destruct (fetchone (username_is d) snapshot); split; congruence.
Qed.

Lemma validate_email_pass (snapshot : db) (d : option string) :
  validate_email snapshot d = Pass <-> fetchone (email_is d) snapshot = None.
Proof.
  unfold validate_email.
  destruct (fetchone (email_is d) snapshot); split; congruence.
Qed.

Lemma validate_email_update_pass (snapshot : db) (uid : Z) (nm : string)
      (d : option string) :
  validate_email_update snapshot (Some (uid, nm)) d = Pass <->
  fetchone (fun r => email_is d r && negb (has_id uid r)) snapshot = None.
Proof.
  unfold validate_email_update.
  destruct (fetchone _ snapshot); split; congruence.
Qed.

Lemma age_or_none_positive (n : Z) : 1 <= n -> age_or_none (Some n) = Some n.
Proof.
  intros B. unfold age_or_none. destruct (n =? 0) eqn:E; [lia|reflexivity].
Qed.

(** [RegistrationForm] passes exactly on a POST with a good token whose
    fields obey the rules and whose username and email are not in the
    table the validators read. *)
Lemma registration_valid (snapshot : db) (req : request) :
  validate_on_submit (method req) (registration_errors snapshot req) = true <->
  method req = POST /\ csrf_token_ok req = true /\
  (exists u, f_username (form req) = Some u /\ Py.strip u <> "" /\
             3 <= Py.len u <= 20 /\
             fetchone (username_is (Some u)) snapshot = None) /\
  (exists e, f_email (form req) = Some e /\ Py.strip e <> "" /\
             email_syntax_ok e = true /\
             fetchone (email_is (Some e)) snapshot = None) /\
  (exists p, f_password (form req) = Some p /\ Py.strip p <> "" /\ 6 <= Py.len p) /\
  (exists f, f_full_name (form req) = Some f /\ Py.strip f <> "" /\
             2 <= Py.len f <= 100) /\
  (exists n, f_age (form req) = IntValue n /\ 1 <= n <= 150) /\
  Py.len (Py.or_empty (f_bio (form req))) <= 500.
Proof.
  rewrite validate_on_submit_true. unfold registration_errors.
  rewrite no_errors_iff. repeat rewrite Forall_cons_iff. cbn [snd].
  unfold age_errors, age_validators. rewrite int_field_ok, csrf_ok.
  unfold username_validators, email_static_validators, password_validators,
    full_name_validators, bio_validators. cbn [app].
  repeat rewrite chain_passes. repeat rewrite Forall_cons_iff.
  repeat rewrite DataRequired_pass. repeat rewrite Length_pass.
  rewrite Email_pass, validate_username_pass, validate_email_pass.
  split.
  - intros (M & ((u & Eu & Nu) & Lu & Fu & _)
            & ((e & Ee & Ne) & (e' & Ee' & Ok) & Fe & _)
            & ((p & Ep & Np) & Lp & _) & ((f & Ef & Nf) & Lf & _)
            & A & (Lb & _) & C & _).
    rewrite Eu in Lu, Fu. rewrite Ee in Fe, Ee'. rewrite Ep in Lp.
    rewrite Ef in Lf. injection Ee' as <-. simpl in Lu, Lp, Lf.
    repeat split; auto.
    + exists u. repeat split; auto; lia.
    + exists e. repeat split; auto.
    + exists p. repeat split; auto; lia.
    + exists f. repeat split; auto; lia.
    + lia.
  - intros (M & C & (u & Eu & Nu & Lu & Fu) & (e & Ee & Ne & Ok & Fe)
            & (p & Ep & Np & Lp) & (f & Ef & Nf & Lf) & A & Lb).
    rewrite Eu, Ee, Ep, Ef. simpl. unfold Py.len in *.
    repeat split; eauto; try lia; try (right; lia); try (left; reflexivity).
Qed.

(** What a passing [UpdateProfileForm] says of the submission. *)
Lemma update_valid (snapshot : db) (uid : Z) (nm : string) (req : request) :
  validate_on_submit (method req) (update_errors snapshot (Some (uid, nm)) req) = true ->
  method req = POST /\ csrf_token_ok req = true /\
  (exists e, f_email (form req) = Some e /\ Py.strip e <> "" /\
             email_syntax_ok e = true /\
             fetchone (fun r => email_is (Some e) r && negb (has_id uid r))
                      snapshot = None) /\
  (exists f, f_full_name (form req) = Some f /\ Py.strip f <> "" /\
             2 <= Py.len f <= 100) /\
  (exists n, f_age (form req) = IntValue n /\ 1 <= n <= 150) /\
  Py.len (Py.or_empty (f_bio (form req))) <= 500.
Proof.
  intros V. apply validate_on_submit_true in V as [M V].
  unfold update_errors in V. apply no_errors_iff in V.
  rewrite !Forall_cons_iff in V. cbn [snd] in V.
  destruct V as (Ve & Vf & Va & Vb & Vc & _).
  split; [exact M|]. split; [now apply csrf_ok|].
  unfold email_static_validators in Ve. unfold full_name_validators in Vf.
  unfold bio_validators in Vb.
  split_chain Ve. split_chain Vf. split_chain Vb.
  destruct Ve as (E1 & E2 & E3 & _). destruct Vf as (F1 & F2 & _).
  destruct Vb as (B1 & _).
  apply DataRequired_pass in E1 as (e & Ee & Ne).
  apply DataRequired_pass in F1 as (f & Ef & Nf).
  rewrite Ee in E2, E3. rewrite Ef in F2.
  apply Length_pass in F2, B1. simpl in F2.
  apply validate_email_update_pass in E3.
  apply Email_pass in E2 as (e' & Ee' & Ok). injection Ee' as <-.
  apply int_field_ok in Va.
  repeat split.
  - exists e. auto.
  - exists f. repeat split; auto; lia.
  - exact Va.
  - lia.
Qed.

Lemma find_app_last {A : Type} (p : A -> bool) (l : list A) (x : A) :
  (forall a, In a l -> p a = false) ->
  find p (l ++ [x]) = if p x then Some x else None.
Proof.
  induction l as [|a l IH]; simpl; intros N; [reflexivity|].
  rewrite (N a) by auto. apply IH. auto.
Qed.

(** A submission that passes validation goes to exactly one INSERT, whose
    outcome decides between [Saved] and [Conflict]. *)
Lemma register_valid_eq (snapshot t : db) (s : session) (req : request) :
  validate_on_submit (method req) (registration_errors snapshot req) = true ->
  exists u e p f n,
    f_username (form req) = Some u /\ f_email (form req) = Some e /\
    f_password (form req) = Some p /\ f_full_name (form req) = Some f /\
    f_age (form req) = IntValue n /\
    register snapshot t s req =
      match insert (Spec.auth_row 0 u e
                      (Werkzeug.generate_password_hash (salt req) p) f (Some n)
                      (Py.or_none (f_bio (form req))) (now req)) t with
      | Done t' => (t', Some (next_rowid t, u), Saved)
      | IntegrityError => (t, s, Conflict)
      end.
Proof.
  intros V.
  destruct (proj1 (registration_valid _ _) V)
    as (_ & _ & (u & Eu & _) & (e & Ee & _) & (p & Ep & _) & (f & Ef & _)
        & (n & En & Bn) & _).
  exists u, e, p, f, n. repeat (split; [assumption|]).
  unfold register. rewrite V, Eu, Ee, Ep, Ef, En. cbn [option_map int_data sql_insert].
  rewrite age_or_none_positive by lia.
  fold (Spec.auth_row 0 u e (Werkzeug.generate_password_hash (salt req) p) f
                      (Some n) (Py.or_none (f_bio (form req))) (now req)).
  destruct (insert _ t) as [t'|] eqn:I; [|reflexivity].
  apply insert_done in I as [Free ->].
  unfold fetchone. cbn [rows].
  rewrite find_app_last.
  - cbn. now rewrite String.eqb_refl.
  - rewrite existsb_false in Free. intros a Ha.
    apply Free, clash_false in Ha as [Ha _]. cbn in Ha |- *.
    apply String.eqb_neq. congruence.
Qed.

Lemma register_saved_valid (snapshot t t' : db) (s s' : session) (req : request) :
  register snapshot t s req = (t', s', Saved) ->
  validate_on_submit (method req) (registration_errors snapshot req) = true.
Proof.
  unfold register. destruct (validate_on_submit _ _); [reflexivity|discriminate].
Qed.

(** [register] never lets an exception out. *)
Lemma register_no_server_error (snapshot t : db) (s : session) (req : request) :
  snd (register snapshot t s req) <> ServerError.
Proof.
  destruct (validate_on_submit (method req) (registration_errors snapshot req)) eqn:V.
  - destruct (register_valid_eq snapshot t s req V)
      as (u & e & p & f & n & _ & _ & _ & _ & _ & ->).
    destruct (insert _ t); discriminate.
  - unfold register. rewrite V. discriminate.
Qed.

Lemma set_profile_keeps_id (e f : string) (a : option Z) (b : option string)
      (ts : Z) (r : user) :
  row_id (set_profile e f a b ts r) = row_id r.
Proof. reflexivity. Qed.

Lemma sql_insert_wf (u e p f : option string) (a : option Z) (b : option string)
      (ts : Z) (t t' : db) :
  wf t -> sql_insert u e p f a b ts t = Done t' -> wf t'.
Proof.
  unfold sql_insert. intros W.
  destruct u, e, p, f; try discriminate. apply insert_wf, W.
Qed.

Lemma sql_update_wf (e f : option string) (a : option Z) (b : option string)
      (ts uid : Z) (t t' : db) :
  wf t -> sql_update e f a b ts uid t = Done t' -> wf t'.
Proof.
  unfold sql_update. intros W.
  destruct e as [e|], f as [f|];
    try (destruct (fetchone (has_id uid) t); [discriminate|];
         intros E; injection E as <-; exact W).
  apply update_wf; auto.
Qed.

(** Whatever a view does, the table it leaves satisfies the constraints. *)
Lemma handle_wf (rt : route) (snapshot t : db) (s : session) (req : request) :
  wf t -> wf (fst (fst (handle rt snapshot t s req))).
Proof.
  intros W. destruct rt; cbn [handle].
  - destruct (method req); exact W.
  - unfold register.
    destruct (validate_on_submit _ _); [|exact W].
    destruct (sql_insert _ _ _ _ _ _ _ t) as [t'|] eqn:I; [|exact W].
    apply sql_insert_wf in I; auto.
    destruct (fetchone _ t'); exact I.
  - unfold profile, get_only. destruct (method req); [|exact W].
    destruct s as [[uid nm]|]; [|exact W].
    destruct (fetchone _ t); exact W.
  - unfold update_profile. destruct s as [[uid nm]|]; [|exact W].
    destruct (fetchone _ snapshot); [|exact W].
    destruct (validate_on_submit _ _).
    + destruct (sql_update _ _ _ _ _ _ t) as [t'|] eqn:U; [|exact W].
      apply sql_update_wf in U; auto.
    + destruct (method req); exact W.
  - destruct (method req); exact W.
Qed.

Lemma reachable_wf (t : db) : reachable t -> wf t.
Proof.
  induction 1 as [|t t' R IH S].
  - apply empty_wf.
  - destruct S. now apply handle_wf.
Qed.

Lemma sql_insert_ids_extend (u e p f : option string) (a : option Z)
      (b : option string) (ts : Z) (t t' : db) :
  sql_insert u e p f a b ts t = Done t' -> Spec.ids_extend t t'.
Proof.
  unfold sql_insert. destruct u, e, p, f; try discriminate.
  apply insert_ids_extend.
Qed.

Lemma sql_update_ids_extend (e f : option string) (a : option Z)
      (b : option string) (ts uid : Z) (t t' : db) :
  sql_update e f a b ts uid t = Done t' -> Spec.ids_extend t t'.
Proof.
  unfold sql_update.
  destruct e as [e|], f as [f|];
    try (destruct (fetchone (has_id uid) t); [discriminate|];
         intros E; injection E as <-; apply ids_extend_refl).
  apply update_ids_extend. reflexivity.
Qed.

Lemma handle_ids_extend (rt : route) (snapshot t : db) (s : session) (req : request) :
  Spec.ids_extend t (fst (fst (handle rt snapshot t s req))).
Proof.
  pose proof (ids_extend_refl t) as R.
  destruct rt; cbn [handle].
  - destruct (method req); exact R.
  - unfold register.
    destruct (validate_on_submit _ _); [|exact R].
    destruct (sql_insert _ _ _ _ _ _ _ t) as [t'|] eqn:I; [|exact R].
    apply sql_insert_ids_extend in I.
    destruct (fetchone _ t'); exact I.
  - unfold profile, get_only. destruct (method req); [|exact R].
    destruct s as [[uid nm]|]; [|exact R].
    destruct (fetchone _ t); exact R.
  - unfold update_profile. destruct s as [[uid nm]|]; [|exact R].
    destruct (fetchone _ snapshot); [|exact R].
    destruct (validate_on_submit _ _).
    + destruct (sql_update _ _ _ _ _ _ t) as [t'|] eqn:U; [|exact R].
      apply sql_update_ids_extend in U. exact U.
    + destruct (method req); exact R.
  - destruct (method req); exact R.
Qed.

End WithLibrary.
End AuthFacts.

(** ** src/flask_user_profiles_app.py: validation and the two writing views *)

Module ProfilesFacts.
Import WTForms Sqlite Flask Profiles WTFormsFacts SqliteFacts.

Section WithLibrary.
Context `{Library}.

(** [ProfileForm] passes exactly on a POST with a good token whose fields
    obey the static rules. *)
Lemma profile_valid (req : request) :
  validate_on_submit (method req) (profile_errors req) = true <->
  method req = POST /\ csrf_token_ok req = true /\ Spec.profile_rules (form req).
Proof.
  rewrite validate_on_submit_true. unfold profile_errors, Spec.profile_rules.
  rewrite no_errors_iff. repeat rewrite Forall_cons_iff. cbn [snd].
  unfold age_errors, age_validators. rewrite int_field_ok, csrf_ok.
  unfold username_validators, full_name_validators, email_validators,
    bio_validators.
  repeat rewrite chain_passes. repeat rewrite Forall_cons_iff.
  repeat rewrite DataRequired_pass. repeat rewrite Length_pass.
  rewrite Email_pass.
  split.
  - intros (M & ((u & Eu & Nu) & Lu & _) & ((f & Ef & Nf) & Lf & _)
            & ((e & Ee & Ne) & (e' & Ee' & Ok) & Le & _) & A & (Lb & _) & C & _).
    rewrite Eu in Lu. rewrite Ef in Lf. rewrite Ee in Le, Ee'.
    injection Ee' as <-. simpl in Lu, Lf, Le.
    repeat split; auto.
    + exists u. repeat split; auto; lia.
    + exists f. repeat split; auto; lia.
    + exists e. repeat split; auto; lia.
    + lia.
  - intros (M & C & (u & Eu & Nu & Lu) & (f & Ef & Nf & Lf)
            & (e & Ee & Ne & Ok & Le) & A & Lb).
    rewrite Eu, Ef, Ee. simpl. unfold Py.len in *.
    repeat split; eauto; try lia; try (right; lia).
Qed.

Lemma profiles_set_profile_keeps_id (u f e : string) (a : option Z) (b : option string)
      (r : user) :
  row_id (set_profile u f e a b r) = row_id r.
Proof. reflexivity. Qed.

Lemma seed_wf : wf (seed init_db).
Proof.
  unfold seed. cbn [rows init_db empty].
  apply after_wf.
  - apply after_wf; [apply empty_wf|]. intros t'. apply insert_wf, empty_wf.
  - intros t'. apply insert_wf.
    apply after_wf; [apply empty_wf|]. intros t''. apply insert_wf, empty_wf.
Qed.

Lemma profiles_handle_wf (rt : route) (snapshot t : db) (req : request) :
  wf t -> wf (fst (handle rt snapshot t req)).
Proof.
  intros W. destruct rt; cbn [handle].
  - destruct (method req); exact W.
  - unfold register. destruct (validate_on_submit _ _); [|exact W].
    destruct (sql_insert _ _ _ _ _ t) as [t'|] eqn:I; [|exact W].
    apply insert_wf in I; auto.
  - destruct (int_converter user_id); [|exact W].
    unfold profile, get_only, no_such_row. destruct (method req); [|exact W].
    destruct (fetchone _ t); [|destruct (binds _)]; exact W.
  - destruct (int_converter user_id); [|exact W].
    unfold update, no_such_row.
    destruct (fetchone _ snapshot); [|destruct (binds _); exact W].
    destruct (method req); [exact W|].
    destruct (validate_on_submit _ _); [|exact W].
    destruct (sql_update _ _ _ _ _ _ t) as [t'|] eqn:U; [|exact W].
    apply update_wf in U; auto.
Qed.

Lemma profiles_reachable_wf (t : db) : reachable t -> wf t.
Proof.
  induction 1 as [| |t t' R IH S].
  - apply empty_wf.
  - apply seed_wf.
  - destruct S. now apply profiles_handle_wf.
Qed.

Lemma profiles_handle_ids_extend (rt : route) (snapshot t : db) (req : request) :
  Spec.ids_extend t (fst (handle rt snapshot t req)).
Proof.
  pose proof (ids_extend_refl t) as R.
  destruct rt; cbn [handle].
  - destruct (method req); exact R.
  - unfold register. destruct (validate_on_submit _ _); [|exact R].
    destruct (sql_insert _ _ _ _ _ t) as [t'|] eqn:I; [|exact R].
    apply insert_ids_extend in I. exact I.
  - destruct (int_converter user_id); [|exact R].
    unfold profile, get_only, no_such_row. destruct (method req); [|exact R].
    destruct (fetchone _ t); [|destruct (binds _)]; exact R.
  - destruct (int_converter user_id); [|exact R].
    unfold update, no_such_row.
    destruct (fetchone _ snapshot); [|destruct (binds _); exact R].
    destruct (method req); [exact R|].
    destruct (validate_on_submit _ _); [|exact R].
    destruct (sql_update _ _ _ _ _ _ t) as [t'|] eqn:U; [|exact R].
    apply update_ids_extend in U; [exact U | reflexivity].
Qed.

Lemma cleaned_fixed (o : option string) : Py.strip (cleaned o) = cleaned o.
Proof. apply PyFacts.strip_idempotent. Qed.

Lemma handle_keys_trimmed (rt : route) (snapshot t : db) (req : request) :
  Spec.keys_trimmed t -> Spec.keys_trimmed (fst (handle rt snapshot t req)).
Proof.
  unfold Spec.keys_trimmed. intros K. destruct rt; cbn [handle].
  - destruct (method req); exact K.
  - unfold register. destruct (validate_on_submit _ _); [|exact K].
    destruct (sql_insert _ _ _ _ _ t) as [t'|] eqn:I; [|exact K].
    apply insert_done in I as [_ ->]. cbn [fst rows].
    apply Forall_app. split; [exact K|].
    constructor; [|constructor]. cbn. split; apply cleaned_fixed.
  - destruct (int_converter user_id); [|exact K].
    unfold profile, get_only, no_such_row. destruct (method req); [|exact K].
    destruct (fetchone _ t); [|destruct (binds _)]; exact K.
  - destruct (int_converter user_id); [|exact K].
    unfold update, no_such_row.
    destruct (fetchone _ snapshot); [|destruct (binds _); exact K].
    destruct (method req); [exact K|].
    destruct (validate_on_submit _ _); [|exact K].
    destruct (sql_update _ _ _ _ _ _ t) as [t'|] eqn:U; [|exact K].
    apply update_done in U as [[_ ->]|(r & _ & _ & ->)]; [exact K|].
    cbn [fst rows]. rewrite Forall_forall in *. intros x Hx.
    apply in_map_iff in Hx as (o & <- & Ho).
    destruct (has_id user_id o); [|auto].
    cbn. split; apply cleaned_fixed.
Qed.

Lemma reachable_keys_trimmed (t : db) : reachable t -> Spec.keys_trimmed t.
Proof.
  induction 1 as [| |t t' R IH S].
  - constructor.
  - unfold Spec.keys_trimmed. vm_compute. repeat constructor.
  - destruct S. now apply handle_keys_trimmed.
Qed.

End WithLibrary.
End ProfilesFacts.

(** ** src/app.py: no view looks at the password column *)

Module AuthBlindFacts.
Import Sqlite Auth Spec WTFormsFacts SqliteFacts AuthFacts.

Lemma map_cons_eq {A B : Type} (f : A -> B) (a a' : A) (l l' : list A) :
  map f (a :: l) = map f (a' :: l') -> f a = f a' /\ map f l = map f l'.
Proof.
  cbn. intros E. split.
  - exact (f_equal (hd (f a)) E).
  - exact (f_equal (@tl B) E).
Qed.

Lemma some_eq {A : Type} (a b : A) : Some a = Some b -> a = b.
Proof. intros E. exact (f_equal (fun o => match o with Some x => x | None => a end) E). Qed.

Lemma forget_row_eq (r r' : user) :
  forget_password r = forget_password r' ->
  id r = id r' /\ username r = username r' /\ email r = email r' /\
  full_name r = full_name r' /\ age r = age r' /\ bio r = bio r' /\
  created_at r = created_at r' /\ updated_at r = updated_at r'.
Proof.
  destruct r, r'. cbn. intros E. injection E. intros. subst. repeat split.
Qed.

Lemma find_blind (q : user -> bool) (l l' : list user) :
  blind q -> map forget_password l = map forget_password l' ->
  option_map forget_password (find q l) = option_map forget_password (find q l').
Proof.
  intros B. revert l'. induction l as [|a l IH]; intros [|a' l'] E;
    try discriminate; [reflexivity|].
  apply map_cons_eq in E as [Ea El]. cbn.
  rewrite (B a a' Ea). destruct (q a'); cbn; [now rewrite Ea | auto].
Qed.

Lemma existsb_blind (q q' : user -> bool) (l l' : list user) :
  (forall r r', forget_password r = forget_password r' -> q r = q' r') ->
  map forget_password l = map forget_password l' -> existsb q l = existsb q' l'.
Proof.
  intros B. revert l'. induction l as [|a l IH]; intros [|a' l'] E;
    try discriminate; [reflexivity|].
  apply map_cons_eq in E as [Ea El]. cbn.
  now rewrite (B a a' Ea), (IH l' El).
Qed.

Lemma map_blind (g g' : user -> user) (l l' : list user) :
  (forall r r', forget_password r = forget_password r' ->
                forget_password (g r) = forget_password (g' r')) ->
  map forget_password l = map forget_password l' ->
  map forget_password (map g l) = map forget_password (map g' l').
Proof.
  intros G. revert l'. induction l as [|a l IH]; intros [|a' l'] E;
    try discriminate; [reflexivity|].
  apply map_cons_eq in E as [Ea El]. cbn.
  now rewrite (G a a' Ea), (IH l' El).
Qed.

Lemma max_rowid_blind (l l' : list user) :
  map forget_password l = map forget_password l' -> max_rowid l = max_rowid l'.
Proof.
  revert l'. induction l as [|a l IH]; intros [|a' l'] E;
    try discriminate; [reflexivity|].
  apply map_cons_eq in E as [Ea El].
  change (Z.max (id a) (max_rowid l) = Z.max (id a') (max_rowid l')).
  apply forget_row_eq in Ea as (-> & _). now rewrite (IH l' El).
Qed.

Lemma forget_eq (t t' : db) :
  forget_passwords t = forget_passwords t' <->
  map forget_password (rows t) = map forget_password (rows t') /\ seq t = seq t'.
Proof.
  unfold forget_passwords. split.
  - intros E. injection E. auto.
  - intros [-> ->]. reflexivity.
Qed.

Lemma next_rowid_blind (t t' : db) :
  forget_passwords t = forget_passwords t' -> next_rowid t = next_rowid t'.
Proof.
  intros E. apply forget_eq in E as [Er Es]. unfold next_rowid.
  now rewrite Es, (max_rowid_blind _ _ Er).
Qed.

Lemma fetchone_blind (q : user -> bool) (t t' : db) :
  blind q -> forget_passwords t = forget_passwords t' ->
  option_map forget_password (fetchone q t) = option_map forget_password (fetchone q t').
Proof.
  intros B E. apply forget_eq in E as [Er _]. now apply find_blind.
Qed.

Lemma clash_blind (r r' o o' : user) :
  forget_password r = forget_password r' ->
  forget_password o = forget_password o' -> clash r o = clash r' o'.
Proof.
  intros Er Eo. apply forget_row_eq in Er as (_ & Eu & Ee & _).
  apply forget_row_eq in Eo as (_ & Eu' & Ee' & _).
  unfold clash. cbn. now rewrite Eu, Ee, Eu', Ee'.
Qed.

Lemma has_id_blind (uid : Z) : blind (has_id uid).
Proof.
  intros r r' E. apply forget_row_eq in E as (Ei & _). unfold has_id. cbn. now rewrite Ei.
Qed.

Lemma username_is_blind (d : option string) : blind (username_is d).
Proof.
  intros r r' E. apply forget_row_eq in E as (_ & Eu & _).
  unfold username_is. now rewrite Eu.
Qed.

Lemma email_is_blind (d : option string) : blind (email_is d).
Proof.
  intros r r' E. apply forget_row_eq in E as (_ & _ & Ee & _).
  unfold email_is. now rewrite Ee.
Qed.

Lemma insert_blind (r : user) (t t' : db) :
  forget_passwords t = forget_passwords t' -> same_outcome (insert r t) (insert r t').
Proof.
  intros E. pose proof (next_rowid_blind t t' E) as N.
  apply forget_eq in E as [Er Es].
  assert (X : existsb (clash r) (rows t) = existsb (clash r) (rows t')).
  { apply existsb_blind; [|exact Er]. intros o o' Eo. now apply clash_blind. }
  destruct (insert r t) as [a|] eqn:I, (insert r t') as [b|] eqn:I'; cbn; auto.
  - apply insert_done in I as [_ ->]. apply insert_done in I' as [_ ->].
    apply forget_eq. cbn [rows seq]. rewrite !map_app, Er, N. auto.
  - apply insert_done in I as [I _]. apply insert_refused in I'. congruence.
  - apply insert_done in I' as [I' _]. apply insert_refused in I. congruence.
Qed.

Lemma update_blind (uid : Z) (set : user -> user) (t t' : db) :
  (forall r r', forget_password r = forget_password r' ->
                forget_password (set r) = forget_password (set r')) ->
  forget_passwords t = forget_passwords t' -> same_outcome (update uid set t) (update uid set t').
Proof.
  intros S E.
  pose proof (fetchone_blind (has_id uid) t t' (has_id_blind uid) E) as F.
  apply forget_eq in E as [Er Es].
  unfold update.
  destruct (fetchone (has_id uid) t) as [r|], (fetchone (has_id uid) t') as [r'|];
    try discriminate F.
  - cbn in F. apply some_eq in F.
    rewrite (existsb_blind (fun o => negb (has_id uid o) && clash (set r) o)
               (fun o => negb (has_id uid o) && clash (set r') o)
               (rows t) (rows t')).
    2:{ intros o o' Eo. rewrite (has_id_blind uid o o' Eo).
        f_equal. apply clash_blind; auto. }
    2:{ exact Er. }
    destruct (existsb _ (rows t')); cbn; auto.
    apply forget_eq. cbn [rows seq]. split; [|exact Es].
    apply map_blind; [|exact Er].
    intros o o' Eo. rewrite (has_id_blind uid o o' Eo).
    destruct (has_id uid o'); auto.
  - cbn. apply forget_eq. auto.
Qed.

Section WithLibrary.
Context `{Library}.

Lemma validate_username_blind (snapshot snapshot' : db) (d : option string) :
  forget_passwords snapshot = forget_passwords snapshot' ->
  validate_username snapshot d = validate_username snapshot' d.
Proof.
  intros E. unfold validate_username.
  pose proof (fetchone_blind _ _ _ (username_is_blind d) E) as F.
  destruct (fetchone _ snapshot), (fetchone _ snapshot');
    try discriminate F; reflexivity.
Qed.

Lemma validate_email_blind (snapshot snapshot' : db) (d : option string) :
  forget_passwords snapshot = forget_passwords snapshot' ->
  validate_email snapshot d = validate_email snapshot' d.
Proof.
  intros E. unfold validate_email.
  pose proof (fetchone_blind _ _ _ (email_is_blind d) E) as F.
  destruct (fetchone _ snapshot), (fetchone _ snapshot');
    try discriminate F; reflexivity.
Qed.

Lemma validate_email_update_blind (snapshot snapshot' : db) (s : session)
      (d : option string) :
  forget_passwords snapshot = forget_passwords snapshot' ->
  validate_email_update snapshot s d = validate_email_update snapshot' s d.
Proof.
  intros E. unfold validate_email_update. destruct s as [[uid nm]|]; [|reflexivity].
  assert (B : blind (fun r => email_is d r && negb (has_id uid r))).
  { intros r r' Er. now rewrite (email_is_blind d r r' Er), (has_id_blind uid r r' Er). }
  pose proof (fetchone_blind _ _ _ B E) as F.
  destruct (fetchone _ snapshot), (fetchone _ snapshot');
    try discriminate F; reflexivity.
Qed.

Lemma registration_errors_blind (snapshot snapshot' : db) (req : request) :
  forget_passwords snapshot = forget_passwords snapshot' ->
  registration_errors snapshot req = registration_errors snapshot' req.
Proof.
  intros E. unfold registration_errors, username_validators, email_static_validators.
  cbn [app WTForms.run_validation_chain].
  now rewrite (validate_username_blind _ _ _ E), (validate_email_blind _ _ _ E).
Qed.

Lemma update_errors_blind (snapshot snapshot' : db) (s : session) (req : request) :
  forget_passwords snapshot = forget_passwords snapshot' ->
  update_errors snapshot s req = update_errors snapshot' s req.
Proof.
  intros E. unfold update_errors, email_static_validators.
  cbn [app WTForms.run_validation_chain].
  now rewrite (validate_email_update_blind _ _ _ _ E).
Qed.

Lemma set_profile_blind (e f : string) (a : option Z) (b : option string) (ts : Z)
      (r r' : user) :
  forget_password r = forget_password r' ->
  forget_password (set_profile e f a b ts r)
  = forget_password (set_profile e f a b ts r').
Proof.
  intros E. apply forget_row_eq in E as (Ei & Eu & _ & _ & _ & _ & Ec & _).
  unfold set_profile, forget_password. cbn. now rewrite Ei, Eu, Ec.
Qed.

Lemma sql_update_blind (e f : option string) (a : option Z) (b : option string)
      (ts uid : Z) (t t' : db) :
  forget_passwords t = forget_passwords t' ->
  same_outcome (sql_update e f a b ts uid t) (sql_update e f a b ts uid t').
Proof.
  intros E. unfold sql_update.
  pose proof (fetchone_blind (has_id uid) t t' (has_id_blind uid) E) as F.
  destruct e as [e|], f as [f|].
  1:{ apply update_blind; [|exact E]. intros r r'. apply set_profile_blind. }
  all: destruct (fetchone (has_id uid) t), (fetchone (has_id uid) t');
    try discriminate F; cbn; auto.
Qed.

(** On two pairs of tables that agree outside the password column, a view
    gives the same session and the same response, and leaves tables that
    again agree outside the password column. *)
Lemma handle_blind (rt : route) (snapshot snapshot' t t' : db) (s : session)
      (req : request) :
  forget_passwords snapshot = forget_passwords snapshot' ->
  forget_passwords t = forget_passwords t' ->
  seen rt snapshot t s req = seen rt snapshot' t' s req /\
  forget_passwords (fst (fst (handle rt snapshot t s req)))
  = forget_passwords (fst (fst (handle rt snapshot' t' s req))).
Proof.
  intros Es Et. unfold seen. destruct rt; cbn [handle].
  - unfold get_only. destruct (method req); cbn; auto.
  - destruct (Flask.validate_on_submit (method req)
                (registration_errors snapshot' req)) eqn:V'.
    + assert (V : Flask.validate_on_submit (method req)
                    (registration_errors snapshot req) = true)
        by (rewrite (registration_errors_blind _ _ _ Es); exact V').
      destruct (register_valid_eq snapshot t s req V)
        as (u & e & p & f & n & Eu & Ee & Ep & Ef & En & ->).
      destruct (register_valid_eq snapshot' t' s req V')
        as (u' & e' & p' & f' & n' & Eu' & Ee' & Ep' & Ef' & En' & ->).
      rewrite Eu in Eu'. apply some_eq in Eu'. subst u'.
      rewrite Ee in Ee'. apply some_eq in Ee'. subst e'.
      rewrite Ep in Ep'. apply some_eq in Ep'. subst p'.
      rewrite Ef in Ef'. apply some_eq in Ef'. subst f'.
      rewrite En in En'. injection En' as <-.
      pose proof (insert_blind
                    (Spec.auth_row 0 u e
                       (Werkzeug.generate_password_hash (salt req) p) f (Some n)
                       (Py.or_none (f_bio (form req))) (now req)) t t' Et) as I.
      rewrite (next_rowid_blind t t' Et).
      destruct (insert _ t), (insert _ t'); cbn in I |- *; try contradiction; auto.
    + unfold register.
      rewrite (registration_errors_blind _ _ _ Es), V'. cbn. auto.
  - unfold get_only, profile. destruct (method req); [|cbn; auto].
    destruct s as [[uid nm]|]; [|cbn; auto].
    pose proof (fetchone_blind (has_id uid) t t' (has_id_blind uid) Et) as F.
    destruct (fetchone _ t) as [u|], (fetchone _ t') as [u'|];
      try discriminate F; [|cbn; auto].
    cbn in F. apply some_eq, forget_row_eq in F
      as (-> & -> & -> & -> & -> & -> & -> & ->).
    cbn. auto.
  - unfold update_profile. destruct s as [[uid nm]|]; [|cbn; auto].
    pose proof (fetchone_blind (has_id uid) snapshot snapshot' (has_id_blind uid) Es)
      as F.
    destruct (fetchone _ snapshot) as [u|], (fetchone _ snapshot') as [u'|];
      try discriminate F; [|cbn; auto].
    cbn in F. apply some_eq, forget_row_eq in F
      as (_ & _ & Ee & Ef & Ea & Eb & _).
    rewrite (update_errors_blind _ _ _ _ Es).
    destruct (Flask.validate_on_submit _ _).
    + pose proof (sql_update_blind (f_email (form req)) (f_full_name (form req))
                    (age_or_none (WTForms.int_data (f_age (form req))))
                    (Py.or_none (f_bio (form req))) (now req) uid t t' Et) as U.
      destruct (sql_update _ _ _ _ _ _ t), (sql_update _ _ _ _ _ _ t');
        cbn in U |- *; try contradiction; auto.
    + destruct (method req); cbn; [rewrite Ee, Ef, Ea, Eb|]; auto.
  - unfold get_only, logout. destruct (method req); cbn; auto.
Qed.

End WithLibrary.
End AuthBlindFacts.

(* ================================================================== *)
(** * The claims of the specification *)

Import WTForms Sqlite Flask.

(** C1. In every table reachable through the views of either program,
    with requests interleaved in any way, usernames, emails and ids are
    duplicate-free; a request keeps the id column of the rows already
    there and only adds ids above every id handed out before; and when two
    registrations validated against the same table ask for the same
    username or email, the one whose INSERT comes second is refused by the
    table, which stays as the first one left it, and gets the conflict
    answer. *)
Theorem storage_keeps_keys_unique `{Library} :
  (forall t, Auth.reachable t -> wf t) /\
  (forall t, Profiles.reachable t -> wf t) /\
  (forall t t', Auth.step t t' -> Spec.ids_extend t t') /\
  (forall t t', Profiles.step t t' -> Spec.ids_extend t t') /\
  (forall snapshot t t1 s1 s1' s2 req1 req2,
      Auth.register snapshot t s1 req1 = (t1, s1', Saved) ->
      validate_on_submit (Auth.method req2)
                         (Auth.registration_errors snapshot req2) = true ->
      Auth.f_username (Auth.form req2) = Auth.f_username (Auth.form req1) \/
      Auth.f_email (Auth.form req2) = Auth.f_email (Auth.form req1) ->
      Auth.register snapshot t1 s2 req2 = (t1, s2, Conflict)) /\
  (forall t t1 req1 req2,
      Profiles.register t req1 = (t1, Saved) ->
      validate_on_submit (Profiles.method req2) (Profiles.profile_errors req2) = true ->
      Profiles.cleaned (Profiles.f_username (Profiles.form req2))
        = Profiles.cleaned (Profiles.f_username (Profiles.form req1)) \/
      Profiles.cleaned (Profiles.f_email (Profiles.form req2))
        = Profiles.cleaned (Profiles.f_email (Profiles.form req1)) ->
      Profiles.register t1 req2 = (t1, Conflict)).
Proof.
  repeat apply conj.
  - apply AuthFacts.reachable_wf.
  - apply ProfilesFacts.profiles_reachable_wf.
  - intros t t' []. apply AuthFacts.handle_ids_extend.
  - intros t t' []. apply ProfilesFacts.profiles_handle_ids_extend.
  - intros snapshot t t1 s1 s1' s2 req1 req2 R1 V2 Same.
    pose proof (AuthFacts.register_saved_valid _ _ _ _ _ _ R1) as V1.
    destruct (AuthFacts.register_valid_eq snapshot t s1 req1 V1)
      as (u1 & e1 & p1 & f1 & n1 & Eu1 & Ee1 & _ & _ & _ & Q1).
    destruct (AuthFacts.register_valid_eq snapshot t1 s2 req2 V2)
      as (u2 & e2 & p2 & f2 & n2 & Eu2 & Ee2 & _ & _ & _ & Q2).
    rewrite Q1 in R1. rewrite Q2.
    destruct (insert _ t) as [t1'|] eqn:I1; [|discriminate].
    injection R1 as <- _.
    erewrite SqliteFacts.insert_then_clash; [reflexivity | exact I1 |].
    apply SqliteFacts.clash_true. cbn.
    rewrite Eu1, Eu2, Ee1, Ee2 in Same.
    destruct Same as [E|E]; injection E as ->; auto.
  - intros t t1 req1 req2 R1 V2 Same.
    unfold Profiles.register in *. rewrite V2.
    destruct (validate_on_submit (Profiles.method req1) _); [|discriminate].
    unfold Profiles.sql_insert in *.
    destruct (insert _ t) as [t1'|] eqn:I1; [|discriminate].
    injection R1 as <-.
    erewrite SqliteFacts.insert_then_clash; [reflexivity | exact I1 |].
    apply SqliteFacts.clash_true. cbn. exact Same.
Qed.

(** Alice registers on an empty table; a second registration for the
    username [alice], validated against the same empty table, reaches the
    INSERT after hers. *)
Lemma storage_keeps_keys_unique_witness :
  wf Scenario.auth_one /\
  wf (fst (Profiles.handle (H := Sample.library) Profiles.Register Scenario.seeded
             Scenario.seeded (Scenario.profiles_post Scenario.dave))) /\
  Auth.register (H := Sample.library) Auth.init_db Scenario.auth_one None
    (Scenario.auth_post Scenario.alice_again 150)
  = (Scenario.auth_one, None, Conflict).
Proof.
  pose proof (storage_keeps_keys_unique (H := Sample.library))
    as (A & P & _ & _ & RA & _).
  split; [|split].
  - apply A. apply (Auth.reach_step Auth.init_db); [constructor|].
    apply (Auth.step_handle Auth.Register Auth.init_db Auth.init_db None
             (Scenario.auth_post Scenario.alice 100)).
  - apply P. apply (Profiles.reach_step Scenario.seeded); [apply Profiles.reach_seed|].
    apply (Profiles.step_handle Profiles.Register Scenario.seeded Scenario.seeded
             (Scenario.profiles_post Scenario.dave)).
  - apply (RA Auth.init_db Auth.init_db Scenario.auth_one None
              (Some (1, "alice")) None (Scenario.auth_post Scenario.alice 100)).
    + vm_compute. reflexivity.
    + vm_compute. reflexivity.
    + left. reflexivity.
Defined.

(** C2 (the code at the failing input). Alice's profile form asks for the
    address [carol@example.org] while nobody has it, so validation passes;
    served alone the update is saved. When Carol's registration commits
    between Alice's validation and Alice's UPDATE, the UPDATE raises
    [sqlite3.IntegrityError], which [update_profile] does not catch: the
    exception leaves the view function. *)
Theorem update_profile_lets_integrity_error_out :
  Scenario.auth_three
  = fst (fst (Auth.register (H := Sample.library) Scenario.auth_two Scenario.auth_two
                None (Scenario.auth_post Scenario.carol 300))) /\
  snd (Auth.update_profile (H := Sample.library) Scenario.auth_two Scenario.auth_two
         Scenario.alice_session
         (Scenario.auth_post Scenario.alice_wants_carols_email 400))
  = Saved /\
  Auth.update_profile (H := Sample.library) Scenario.auth_two Scenario.auth_three
    Scenario.alice_session
    (Scenario.auth_post Scenario.alice_wants_carols_email 400)
  = (Scenario.auth_three, Scenario.alice_session, ServerError).
Proof. repeat split; vm_compute; reflexivity. Qed.

(** The writing views of src/flask_user_profiles_app.py catch
    [sqlite3.IntegrityError]: [register] never lets an exception out, and
    [update] does not either once its SELECT has run, that is, when the
    [user_id] of the path can be bound. *)
Lemma profiles_no_server_error `{Library} (snapshot t : Profiles.db) (uid : Z)
      (req : Profiles.request) :
  snd (Profiles.register t req) <> ServerError /\
  (binds uid = true -> snd (Profiles.update snapshot t uid req) <> ServerError).
Proof.
  split.
  - unfold Profiles.register. destruct (validate_on_submit _ _); [|discriminate].
    destruct (Profiles.sql_insert _ _ _ _ _ t); discriminate.
  - intros B. unfold Profiles.update, Profiles.no_such_row. rewrite B.
    destruct (fetchone _ snapshot); [|discriminate].
    destruct (Profiles.method req); [discriminate|].
    destruct (validate_on_submit _ _); [|discriminate].
    destruct (Profiles.sql_update _ _ _ _ _ _ t); discriminate.
Qed.

(** C3 (as stated, refuted). src/app.py stores a username, a full name and
    a bio with the whitespace they were submitted with;
    src/flask_user_profiles_app.py stores an empty bio as the empty
    string, not as NULL. *)
Lemma normalization_counterexample :
  (let '(t', _, resp) :=
     Auth.register (H := Sample.library) Auth.init_db Auth.init_db None
       (Scenario.auth_post Scenario.padded 1) in
   resp = Saved /\
   map Auth.username (rows t') = [" bob "] /\
   map Auth.full_name (rows t') = ["  Bob Builder "] /\
   map Auth.bio (rows t') = [Some "  "]) /\
  (let '(t', resp) :=
     Profiles.register (H := Sample.library) Profiles.init_db
       (Scenario.profiles_post Scenario.dave) in
   resp = Saved /\ map Profiles.bio (rows t') = [Some ""]).
Proof. vm_compute. repeat split; reflexivity. Qed.

(** C3 (amended). For every field set accepted by validation:
    src/flask_user_profiles_app.py hands username, full name, email and
    bio to the table stripped of leading and trailing whitespace, the bio
    always as a string (empty when nothing is left); src/app.py hands
    username, email, full name and bio to the table exactly as submitted,
    except that a missing or empty bio is stored as NULL. *)
Theorem persisted_fields_by_variant `{Library} :
  (forall t req t',
      Profiles.register t req = (t', Saved) ->
      exists r, rows t' = (rows t ++ [r])%list /\
                Spec.stored_stripped (Profiles.form req) r) /\
  (forall snapshot t uid req t',
      Profiles.update snapshot t uid req = (t', Saved) ->
      forall r, In r (rows t') -> Profiles.id r = uid ->
                Spec.stored_stripped (Profiles.form req) r) /\
  (forall snapshot t s req t' s',
      Auth.register snapshot t s req = (t', s', Saved) ->
      exists r, rows t' = (rows t ++ [r])%list /\
                Auth.f_username (Auth.form req) = Some (Auth.username r) /\
                Spec.stored_as_submitted (Auth.form req) r) /\
  (forall snapshot t s req t' s',
      Auth.update_profile snapshot t s req = (t', s', Saved) ->
      forall uid nm r, s = Some (uid, nm) -> In r (rows t') -> Auth.id r = uid ->
                Spec.stored_as_submitted (Auth.form req) r).
Proof.
  assert (Stripped : forall fd i,
             Spec.stored_stripped fd
               {| Profiles.id := i;
                  Profiles.username := Profiles.cleaned (Profiles.f_username fd);
                  Profiles.full_name := Profiles.cleaned (Profiles.f_full_name fd);
                  Profiles.email := Profiles.cleaned (Profiles.f_email fd);
                  Profiles.age := int_data (Profiles.f_age fd);
                  Profiles.bio := Some (Profiles.cleaned (Profiles.f_bio fd)) |}).
  { intros fd i. unfold Spec.stored_stripped, Profiles.cleaned. cbn.
    repeat split; apply PyFacts.strip_trimmed. }
  assert (Bio : forall o : option string,
             match o with
             | None | Some EmptyString => Py.or_none o = None
             | Some b => Py.or_none o = Some b
             end).
  { intros [[|c b]|]; reflexivity. }
  repeat apply conj.
  - intros t req t' R. unfold Profiles.register in R.
    destruct (validate_on_submit _ _); [|discriminate].
    unfold Profiles.sql_insert in R.
    destruct (insert _ t) as [t1|] eqn:I; [|discriminate].
    injection R as <-. apply SqliteFacts.insert_done in I as [_ ->].
    eexists. split; [reflexivity|]. apply Stripped.
  - intros snapshot t uid req t' R r Hr Hid.
    unfold Profiles.update, Profiles.no_such_row in R.
    destruct (fetchone _ snapshot); [|destruct (binds _); discriminate].
    destruct (Profiles.method req); [discriminate|].
    destruct (validate_on_submit _ _); [|discriminate].
    unfold Profiles.sql_update in R.
    destruct (update _ _ t) as [t1|] eqn:U; [|discriminate].
    injection R as <-.
    apply SqliteFacts.update_done in U as [[N ->]|(r0 & _ & _ & ->)].
    + apply (find_none _ _ N) in Hr. unfold has_id in Hr. cbn in Hr. lia.
    + cbn [rows] in Hr. apply in_map_iff in Hr as (o & <- & Ho).
      destruct (has_id uid o) eqn:P; [apply Stripped|].
      unfold has_id in P. cbn in P. lia.
  - intros snapshot t s req t' s' R.
    pose proof (AuthFacts.register_saved_valid _ _ _ _ _ _ R) as V.
    destruct (AuthFacts.register_valid_eq snapshot t s req V)
      as (u & e & p & f & n & Eu & Ee & Ep & Ef & En & Q).
    rewrite Q in R. destruct (insert _ t) as [t1|] eqn:I; [|discriminate].
    injection R as <- _. apply SqliteFacts.insert_done in I as [_ ->].
    eexists. split; [reflexivity|]. cbn.
    unfold Spec.stored_as_submitted. cbn. rewrite Eu, Ee, Ef.
    repeat split. apply Bio.
  - intros snapshot t s req t' s' R uid nm r -> Hr Hid.
    unfold Auth.update_profile in R.
    destruct (fetchone _ snapshot); [|discriminate].
    destruct (validate_on_submit _ _) eqn:V.
    2:{ destruct (Auth.method req); discriminate. }
    destruct (AuthFacts.update_valid _ _ _ _ V)
      as (_ & _ & (e & Ee & _) & (f & Ef & _) & _).
    rewrite Ee, Ef in R. cbn [Auth.sql_update] in R.
    destruct (update _ _ t) as [t1|] eqn:U; [|discriminate].
    injection R as <-.
    apply SqliteFacts.update_done in U as [[N ->]|(r0 & _ & _ & ->)].
    + apply (find_none _ _ N) in Hr. unfold has_id in Hr. cbn in Hr. lia.
    + cbn [rows] in Hr. apply in_map_iff in Hr as (o & <- & Ho).
      destruct (has_id uid o) eqn:P.
      * unfold Spec.stored_as_submitted. cbn. rewrite Ee, Ef.
        repeat split. apply Bio.
      * unfold has_id in P. cbn in P. lia.
Qed.

(** Dave registers in the seeded table with padded fields and an empty
    bio; a visitor registers through src/app.py with padded fields. *)
Lemma persisted_fields_by_variant_witness :
  let done := Profiles.register (H := Sample.library) Scenario.seeded
                (Scenario.profiles_post Scenario.dave) in
  let done' := Auth.register (H := Sample.library) Auth.init_db Auth.init_db None
                 (Scenario.auth_post Scenario.padded 1) in
  (done = (fst done, Saved) /\
   exists r, rows (fst done) = (rows Scenario.seeded ++ [r])%list /\
             Spec.stored_stripped Scenario.dave r) /\
  (done' = (fst (fst done'), Some (1, " bob "), Saved) /\
   exists r, rows (fst (fst done')) = [r] /\
             Auth.f_username Scenario.padded = Some (Auth.username r) /\
             Spec.stored_as_submitted Scenario.padded r).
Proof.
  intros done done'.
  assert (D : done = (fst done, Saved)) by (vm_compute; reflexivity).
  assert (D' : done' = (fst (fst done'), Some (1, " bob "), Saved))
    by (vm_compute; reflexivity).
  pose proof (persisted_fields_by_variant (H := Sample.library))
    as (P & _ & A & _).
  split; split; auto.
  - exact (P _ _ _ D).
  - exact (A _ _ _ _ _ _ D').
Defined.

(** C4 (the code at the failing input). A submission that brings no
    integer for the age (the field left out, or sent blank) fails
    validation in both programs: [NumberRange] rejects [None], and no
    [Optional()] precedes it. When an integer is submitted the rule is the
    configured range: 1 to 150 in src/app.py, 0 to 120 in
    src/flask_user_profiles_app.py. *)
Theorem age_left_out_fails_validation `{Library} :
  (forall snapshot req,
      int_data (Auth.f_age (Auth.form req)) = None ->
      validate_on_submit (Auth.method req)
                         (Auth.registration_errors snapshot req) = false) /\
  (forall snapshot s req,
      int_data (Auth.f_age (Auth.form req)) = None ->
      validate_on_submit (Auth.method req)
                         (Auth.update_errors snapshot s req) = false) /\
  (forall req,
      int_data (Profiles.f_age (Profiles.form req)) = None ->
      validate_on_submit (Profiles.method req) (Profiles.profile_errors req) = false) /\
  Auth.age_errors NoValue = ["Age must be between 1 and 150"] /\
  Auth.age_errors (NotAnInteger "")
  = ["Not a valid integer value."; "Age must be between 1 and 150"] /\
  Profiles.age_errors NoValue = ["Number must be between 0 and 120."] /\
  Profiles.age_errors (NotAnInteger "")
  = ["Not a valid integer value."; "Number must be between 0 and 120."] /\
  (forall n, Auth.age_errors (IntValue n) = [] <-> 1 <= n <= 150) /\
  (forall n, Profiles.age_errors (IntValue n) = [] <-> 0 <= n <= 120).
Proof.
  repeat apply conj.
  - intros snapshot req N.
    destruct (validate_on_submit _ _) eqn:V; [|reflexivity].
    apply AuthFacts.registration_valid in V
      as (_ & _ & _ & _ & _ & _ & (n & E & _) & _).
    rewrite E in N. discriminate N.
  - intros snapshot s req N.
    destruct (validate_on_submit _ _) eqn:V; [|reflexivity].
    apply WTFormsFacts.validate_on_submit_true in V as [_ V].
    unfold Auth.update_errors in V. apply WTFormsFacts.no_errors_iff in V.
    repeat rewrite Forall_cons_iff in V. cbn [snd] in V.
    destruct V as (_ & _ & Va & _).
    apply WTFormsFacts.int_field_ok in Va as (n & E & _).
    rewrite E in N. discriminate N.
  - intros req N.
    destruct (validate_on_submit _ _) eqn:V; [|reflexivity].
    apply ProfilesFacts.profile_valid in V as (_ & _ & _ & _ & _ & (n & E & _) & _).
    rewrite E in N. discriminate N.
  - reflexivity.
  - reflexivity.
  - reflexivity.
  - reflexivity.
  - intros n. unfold Auth.age_errors, Auth.age_validators.
    rewrite WTFormsFacts.int_field_ok. split.
    + intros (n' & E & B). injection E as <-. exact B.
    + intros B. eauto.
  - intros n. unfold Profiles.age_errors, Profiles.age_validators.
    rewrite WTFormsFacts.int_field_ok. split.
    + intros (n' & E & B). injection E as <-. exact B.
    + intros B. eauto.
Qed.

(** Bob and Dave fill in every field but the age. *)
Lemma age_left_out_fails_validation_witness :
  (int_data (Auth.f_age Scenario.bob_no_age) = None /\
   validate_on_submit POST
     (Auth.registration_errors (H := Sample.library) Scenario.auth_one
        (Scenario.auth_post Scenario.bob_no_age 200)) = false) /\
  (int_data (Profiles.f_age Scenario.dave_no_age) = None /\
   validate_on_submit POST
     (Profiles.profile_errors (H := Sample.library)
        (Scenario.profiles_post Scenario.dave_no_age)) = false).
Proof.
  pose proof (age_left_out_fails_validation (H := Sample.library))
    as (A & _ & P & _).
  split; (split; [reflexivity|]).
  - apply (A Scenario.auth_one (Scenario.auth_post Scenario.bob_no_age 200)).
    reflexivity.
  - apply (P (Scenario.profiles_post Scenario.dave_no_age)). reflexivity.
Defined.

(** C5. Updating a profile with the email its own row already holds is not
    an email collision. In src/app.py the inline validator excludes the
    row of the session's user, so it passes, and a submission that passes
    validation is saved. In src/flask_user_profiles_app.py nothing is
    checked before the write and the UNIQUE index does not count the row
    being updated: the update is saved, unless the submitted username is
    the username of some other row. *)
Theorem own_email_is_no_collision `{Library} :
  (forall t uid nm r req,
      wf t -> fetchone (has_id uid) t = Some r ->
      Auth.f_email (Auth.form req) = Some (Auth.email r) ->
      Auth.validate_email_update t (Some (uid, nm)) (Auth.f_email (Auth.form req))
      = Pass /\
      (validate_on_submit (Auth.method req)
                          (Auth.update_errors t (Some (uid, nm)) req) = true ->
       exists t', Auth.update_profile t t (Some (uid, nm)) req
                  = (t', Some (uid, nm), Saved))) /\
  (forall t uid r req,
      Profiles.reachable t -> fetchone (has_id uid) t = Some r ->
      Profiles.f_email (Profiles.form req) = Some (Profiles.email r) ->
      validate_on_submit (Profiles.method req) (Profiles.profile_errors req) = true ->
      (exists t', Profiles.update t t uid req = (t', Saved)) \/
      (Profiles.update t t uid req = (t, Conflict) /\
       exists o, In o (rows t) /\ Profiles.id o <> uid /\
                 Profiles.username o
                 = Profiles.cleaned (Profiles.f_username (Profiles.form req)) /\
                 Profiles.email o <> Profiles.email r)).
Proof.
  split.
  - intros t uid nm r req W F E. split.
    + rewrite E. apply AuthFacts.validate_email_update_pass.
      apply SqliteFacts.find_all_false. intros o Ho.
      destruct (has_id uid o) eqn:Po; [apply andb_false_r|].
      rewrite andb_true_r. cbn. apply String.eqb_neq.
      apply find_some in F as [Hr Pr].
      apply (SqliteFacts.other_row_differs uid t r o W Hr Ho Pr Po).
    + intros V.
      destruct (AuthFacts.update_valid _ _ _ _ V)
        as (_ & _ & (e & Ee & _) & (f & Ef & _) & _).
      unfold Auth.update_profile. rewrite F, V, Ee, Ef. cbn [Auth.sql_update].
      rewrite E in Ee. injection Ee as <-.
      destruct (SqliteFacts.update_keeping_keys uid
                  (Auth.set_profile (Auth.email r) f
                     (Auth.age_or_none (int_data (Auth.f_age (Auth.form req))))
                     (Py.or_none (Auth.f_bio (Auth.form req))) (Auth.now req))
                  t r W F eq_refl eq_refl) as [t' ->].
      eauto.
  - intros t uid r req R F E V.
    pose proof (ProfilesFacts.profiles_reachable_wf t R) as W.
    pose proof (ProfilesFacts.reachable_keys_trimmed t R) as K.
    pose proof (proj1 (ProfilesFacts.profile_valid req) V) as (M & _).
    unfold Profiles.update. rewrite F, M. rewrite M in V. rewrite V.
    unfold Profiles.sql_update.
    destruct (update _ _ t) as [t'|] eqn:U; [left; eauto|].
    right. split; [reflexivity|].
    apply SqliteFacts.update_refused in U as (r' & o & F' & Ho & Po & C).
    rewrite F in F'. injection F' as <-.
    apply find_some in F as [Hr Pr].
    destruct (SqliteFacts.other_row_differs uid t r o W Hr Ho Pr Po) as [Du De].
    exists o. split; [exact Ho|]. split.
    { unfold has_id in Po. cbn in Po. lia. }
    split; [|exact De].
    apply SqliteFacts.clash_true in C. destruct C as [C|C].
    + change (Profiles.cleaned (Profiles.f_username (Profiles.form req))
              = Profiles.username o) in C. auto.
    + change (Profiles.cleaned (Profiles.f_email (Profiles.form req))
              = Profiles.email o) in C.
      unfold Spec.keys_trimmed in K. rewrite Forall_forall in K.
      destruct (K r Hr) as [_ Ke].
      rewrite E in C. unfold Profiles.cleaned, Py.or_empty in C.
      rewrite Ke in C. cbn in De. congruence.
Qed.

(** Alice (id 1 of two rows) and John Doe (id 1 of the seeded table) keep
    their addresses and change other fields. *)
Lemma own_email_is_no_collision_witness :
  (wf Scenario.auth_two /\
   (exists t', Auth.update_profile (H := Sample.library) Scenario.auth_two
                 Scenario.auth_two Scenario.alice_session
                 (Scenario.auth_post Scenario.alice_keeps_email 400)
               = (t', Scenario.alice_session, Saved))) /\
  (Profiles.reachable (H := Sample.library) Scenario.seeded /\
   ((exists t', Profiles.update (H := Sample.library) Scenario.seeded Scenario.seeded 1
                  (Scenario.profiles_post Scenario.jdoe_keeps_email) = (t', Saved)) \/
    (Profiles.update (H := Sample.library) Scenario.seeded Scenario.seeded 1
       (Scenario.profiles_post Scenario.jdoe_keeps_email)
     = (Scenario.seeded, Conflict) /\
     exists o, In o (rows Scenario.seeded) /\ Profiles.id o <> 1 /\
               Profiles.username o
               = Profiles.cleaned (Profiles.f_username Scenario.jdoe_keeps_email) /\
               Profiles.email o <> "jdoe@example.com"))).
Proof.
  pose proof (own_email_is_no_collision (H := Sample.library)) as (A & P).
  assert (W : wf Scenario.auth_two).
  { apply (AuthFacts.handle_wf (H := Sample.library) Auth.Register).
    apply (AuthFacts.handle_wf (H := Sample.library) Auth.Register).
    apply SqliteFacts.empty_wf. }
  split; split.
  - exact W.
  - apply (A Scenario.auth_two 1 "alice"
             {| Auth.id := 1; Auth.username := "alice";
                Auth.email := "alice@example.org";
                Auth.password := "scrypt:32768:8:1$NaCl$q";
                Auth.full_name := "Alice Liddell"; Auth.age := Some 30;
                Auth.bio := Some "Curious."; Auth.created_at := 100;
                Auth.updated_at := 100 |}
             (Scenario.auth_post Scenario.alice_keeps_email 400) W).
    + vm_compute. reflexivity.
    + reflexivity.
    + vm_compute. reflexivity.
  - apply Profiles.reach_seed.
  - apply (P Scenario.seeded 1
             {| Profiles.id := 1; Profiles.username := "jdoe";
                Profiles.full_name := "John Doe";
                Profiles.email := "jdoe@example.com"; Profiles.age := Some 34;
                Profiles.bio := Some "A short bio about John." |}
             (Scenario.profiles_post Scenario.jdoe_keeps_email)).
    + apply Profiles.reach_seed.
    + vm_compute. reflexivity.
    + reflexivity.
    + vm_compute. reflexivity.
Defined.

(** C6 (as stated, refuted). src/app.py accepts and stores a
    well-formed address of 129 characters: its email fields carry no
    [Length] validator. *)
Lemma long_email_counterexample :
  (120 < Py.len Scenario.long_email) /\
  validate_on_submit POST
    (Auth.registration_errors (H := Sample.library) Auth.init_db
       (Scenario.auth_post Scenario.long_mail 1)) = true /\
  (let '(t', _, resp) :=
     Auth.register (H := Sample.library) Auth.init_db Auth.init_db None
       (Scenario.auth_post Scenario.long_mail 1) in
   resp = Saved /\ map Auth.email (rows t') = [Scenario.long_email]).
Proof. vm_compute. repeat split; reflexivity. Qed.

(** C6 (amended). In both programs a submission passes validation only
    with an email that is present, not blank and of valid syntax. The
    limit of 120 characters is checked by src/flask_user_profiles_app.py
    alone, which rejects every longer email; in src/app.py a non-blank
    address of valid syntax passes the static email rules whatever its
    length. *)
Theorem email_rule_by_variant `{Library} :
  (forall req,
      validate_on_submit (Profiles.method req) (Profiles.profile_errors req) = true ->
      exists e, Profiles.f_email (Profiles.form req) = Some e /\
                Py.strip e <> "" /\ email_syntax_ok e = true /\ Py.len e <= 120) /\
  (forall req e,
      Profiles.f_email (Profiles.form req) = Some e -> 120 < Py.len e ->
      validate_on_submit (Profiles.method req) (Profiles.profile_errors req) = false) /\
  (forall snapshot req,
      validate_on_submit (Auth.method req)
                         (Auth.registration_errors snapshot req) = true ->
      exists e, Auth.f_email (Auth.form req) = Some e /\
                Py.strip e <> "" /\ email_syntax_ok e = true) /\
  (forall snapshot uid nm req,
      validate_on_submit (Auth.method req)
                         (Auth.update_errors snapshot (Some (uid, nm)) req) = true ->
      exists e, Auth.f_email (Auth.form req) = Some e /\
                Py.strip e <> "" /\ email_syntax_ok e = true) /\
  (forall e,
      Py.strip e <> "" -> email_syntax_ok e = true ->
      run_validation_chain Auth.email_static_validators (Some e) = []).
Proof.
  repeat apply conj.
  - intros req V.
    apply ProfilesFacts.profile_valid in V
      as (_ & _ & _ & _ & (e & Ee & Ne & Ok & Le) & _).
    eauto.
  - intros req e Ee Long.
    destruct (validate_on_submit _ _) eqn:V; [|reflexivity].
    apply ProfilesFacts.profile_valid in V
      as (_ & _ & _ & _ & (e' & Ee' & _ & _ & Le) & _).
    rewrite Ee in Ee'. injection Ee' as <-. lia.
  - intros snapshot req V.
    apply AuthFacts.registration_valid in V
      as (_ & _ & _ & (e & Ee & Ne & Ok & _) & _).
    eauto.
  - intros snapshot uid nm req V.
    apply AuthFacts.update_valid in V as (_ & _ & (e & Ee & Ne & Ok & _) & _).
    eauto.
  - intros e Ne Ok. apply WTFormsFacts.chain_passes.
    unfold Auth.email_static_validators. repeat constructor.
    + apply WTFormsFacts.DataRequired_pass. eauto.
    + apply WTFormsFacts.Email_pass. eauto.
Qed.

(** Dave's registration passes the form of
    src/flask_user_profiles_app.py; the long address passes the static
    email rules of src/app.py. *)
Lemma email_rule_by_variant_witness :
  (validate_on_submit POST
     (Profiles.profile_errors (H := Sample.library)
        (Scenario.profiles_post Scenario.dave)) = true /\
   exists e, Profiles.f_email Scenario.dave = Some e /\ Py.strip e <> "" /\
             Sample.plain_address e = true /\ Py.len e <= 120) /\
  (Py.strip Scenario.long_email <> "" /\
   Sample.plain_address Scenario.long_email = true /\
   run_validation_chain (Auth.email_static_validators (H := Sample.library))
                        (Some Scenario.long_email) = []).
Proof.
  pose proof (email_rule_by_variant (H := Sample.library))
    as (P & _ & _ & _ & A).
  assert (V : validate_on_submit POST
                (Profiles.profile_errors (H := Sample.library)
                   (Scenario.profiles_post Scenario.dave)) = true)
    by (vm_compute; reflexivity).
  assert (N : Py.strip Scenario.long_email <> "")
    by (vm_compute; discriminate).
  assert (Ok : Sample.plain_address Scenario.long_email = true)
    by (vm_compute; reflexivity).
  split; [split; [exact V | exact (P (Scenario.profiles_post Scenario.dave) V)] |].
  split; [exact N|]. split; [exact Ok|]. exact (A _ N Ok).
Defined.

(** C8 (as stated, refuted). src/app.py has no view that checks a password
    against the stored hash: on tables that differ in nothing but the
    password column every view gives the same session and the same
    response. *)
Lemma no_view_reads_the_hash :
  ~ (exists L : Library, @Spec.some_view_reads_the_hash L).
Proof.
  intros (L & rt & snapshot & snapshot' & t & t' & s & req & Es & Et & D).
  apply D. now apply AuthBlindFacts.handle_blind.
Qed.

(** C8 (amended). src/app.py has no login or verification operation:
    [check_password_hash] is imported and never called, so the answer of a
    view never depends on the stored hashes; a view leaves the session as
    it was or clears it, and the only way a session for a user comes into
    being is that user's own registration being saved. *)
Theorem sessions_come_from_registration_only `{Library} :
  (forall rt snapshot snapshot' t t' s req,
      Spec.forget_passwords snapshot = Spec.forget_passwords snapshot' ->
      Spec.forget_passwords t = Spec.forget_passwords t' ->
      Spec.seen rt snapshot t s req = Spec.seen rt snapshot' t' s req) /\
  (forall rt snapshot t s req,
      let '(t', s', resp) := Auth.handle rt snapshot t s req in
      s' = s \/ s' = None \/
      (rt = Auth.Register /\ resp = Saved /\
       exists r, rows t' = (rows t ++ [r])%list /\
                 s' = Some (Auth.id r, Auth.username r) /\
                 Auth.f_username (Auth.form req) = Some (Auth.username r))).
Proof.
  split.
  - intros rt snapshot snapshot' t t' s req Es Et.
    now apply AuthBlindFacts.handle_blind.
  - intros rt snapshot t s req. destruct rt; cbn [Auth.handle].
    + unfold Auth.get_only. destruct (Auth.method req); auto.
    + destruct (validate_on_submit (Auth.method req)
                  (Auth.registration_errors snapshot req)) eqn:V.
      * destruct (AuthFacts.register_valid_eq snapshot t s req V)
          as (u & e & p & f & n & Eu & _ & _ & _ & _ & ->).
        destruct (insert _ t) as [t1|] eqn:I; [|auto].
        apply SqliteFacts.insert_done in I as [_ ->].
        right. right. repeat split.
        match goal with |- context [with_id ?i ?x] => exists (with_id i x) end.
        repeat split. exact Eu.
      * unfold Auth.register. rewrite V. auto.
    + unfold Auth.get_only, Auth.profile. destruct (Auth.method req); auto.
      destruct s as [[uid nm]|]; auto.
      destruct (fetchone _ t); auto.
    + unfold Auth.update_profile. destruct s as [[uid nm]|]; auto.
      destruct (fetchone _ snapshot); auto.
      destruct (validate_on_submit _ _).
      * destruct (Auth.sql_update _ _ _ _ _ _ t); auto.
      * destruct (Auth.method req); auto.
    + unfold Auth.get_only, Auth.logout. destruct (Auth.method req); auto.
Qed.

(** Alice looks at her profile on two tables that hold different hashes
    for her. *)
Lemma sessions_come_from_registration_only_witness :
  Spec.forget_passwords Scenario.auth_one
  = Spec.forget_passwords Scenario.auth_one_other_hash /\
  Scenario.auth_one <> Scenario.auth_one_other_hash /\
  Spec.seen (H := Sample.library) Auth.Profile Scenario.auth_one Scenario.auth_one
    Scenario.alice_session Scenario.auth_get
  = Spec.seen (H := Sample.library) Auth.Profile Scenario.auth_one_other_hash
      Scenario.auth_one_other_hash Scenario.alice_session Scenario.auth_get.
Proof.
  pose proof (sessions_come_from_registration_only (H := Sample.library)) as (B & _).
  assert (E : Spec.forget_passwords Scenario.auth_one
              = Spec.forget_passwords Scenario.auth_one_other_hash)
    by (vm_compute; reflexivity).
  split; [exact E|]. split; [vm_compute; discriminate|].
  exact (B Auth.Profile _ _ _ _ Scenario.alice_session Scenario.auth_get E E).
Defined.

(** C9 (as stated, refuted). In src/flask_user_profiles_app.py rows are
    also created without any registration: the block under [__main__]
    turns the empty table that [init_db] creates into a table of two rows,
    [jdoe] and [asmith]; no registration on the empty table gives that
    table, and it is the table the program serves its first request
    from. *)
Lemma seed_creates_rows_without_registration :
  rows Profiles.init_db = [] /\
  map Profiles.username (rows (Profiles.seed Profiles.init_db)) = ["jdoe"; "asmith"] /\
  Profiles.reachable (H := Sample.library) (Profiles.seed Profiles.init_db) /\
  (forall req,
      fst (Profiles.register (H := Sample.library) Profiles.init_db req)
      <> Profiles.seed Profiles.init_db).
Proof.
  split; [reflexivity|]. split; [reflexivity|]. split; [apply Profiles.reach_seed|].
  intros req E. apply (f_equal (fun t => List.length (rows t))) in E.
  unfold Profiles.register in E.
  destruct (validate_on_submit _ _); [|discriminate E].
  destruct (Profiles.sql_insert _ _ _ _ _ Profiles.init_db) as [t'|] eqn:I;
    [|discriminate E].
  apply SqliteFacts.insert_done in I as [_ ->]. discriminate E.
Qed.

(** C9 (amended). A table starts empty. Whatever view is asked with
    whatever request, the table is left as it was, or the view was a
    registration that was saved and one row was appended under a fresh id,
    or the view was a profile update that was saved and the row with the
    given id (no other) had its columns replaced: email, full name, age,
    bio and [updated_at] in src/app.py, where id, username, password and
    [created_at] are kept; username, full name, email, age and bio in
    src/flask_user_profiles_app.py, where the id is kept. No view removes
    a row. The one other operation that writes is the start-up block of
    src/flask_user_profiles_app.py: it leaves a table that has a row as it
    is, and puts the two sample rows [jdoe] and [asmith], under fresh
    consecutive ids, into a table that has none. *)
Theorem rows_change_only_through_saves `{Library} :
  rows Auth.init_db = [] /\ rows Profiles.init_db = [] /\
  (forall rt snapshot t s req,
      let '(t', _, resp) := Auth.handle rt snapshot t s req in
      (t' = t \/
       (rt = Auth.Register /\ resp = Saved /\
        exists r, t' = {| rows := rows t ++ [r]; seq := Auth.id r |} /\
                  seq t < Auth.id r /\
                  Forall (fun o => Auth.id o < Auth.id r) (rows t)) \/
       (rt = Auth.UpdateProfile /\ resp = Saved /\
        exists uid nm e f,
          s = Some (uid, nm) /\
          Auth.f_email (Auth.form req) = Some e /\
          Auth.f_full_name (Auth.form req) = Some f /\
          t' = {| rows :=
                    map (fun o =>
                           if has_id uid o then
                             {| Auth.id := Auth.id o;
                                Auth.username := Auth.username o;
                                Auth.email := e;
                                Auth.password := Auth.password o;
                                Auth.full_name := f;
                                Auth.age :=
                                  Auth.age_or_none (int_data (Auth.f_age (Auth.form req)));
                                Auth.bio := Py.or_none (Auth.f_bio (Auth.form req));
                                Auth.created_at := Auth.created_at o;
                                Auth.updated_at := Auth.now req |}
                           else o) (rows t);
                  seq := seq t |})) /\
      (List.length (rows t) <= List.length (rows t'))%nat) /\
  (forall rt snapshot t req,
      let '(t', resp) := Profiles.handle rt snapshot t req in
      (t' = t \/
       (rt = Profiles.Register /\ resp = Saved /\
        exists r, t' = {| rows := rows t ++ [r]; seq := Profiles.id r |} /\
                  seq t < Profiles.id r /\
                  Forall (fun o => Profiles.id o < Profiles.id r) (rows t)) \/
       (exists uid,
          rt = Profiles.Update uid /\ resp = Saved /\
          t' = {| rows :=
                    map (fun o =>
                           if has_id uid o then
                             {| Profiles.id := Profiles.id o;
                                Profiles.username :=
                                  Profiles.cleaned (Profiles.f_username (Profiles.form req));
                                Profiles.full_name :=
                                  Profiles.cleaned (Profiles.f_full_name (Profiles.form req));
                                Profiles.email :=
                                  Profiles.cleaned (Profiles.f_email (Profiles.form req));
                                Profiles.age := int_data (Profiles.f_age (Profiles.form req));
                                Profiles.bio :=
                                  Some (Profiles.cleaned (Profiles.f_bio (Profiles.form req))) |}
                           else o) (rows t);
                  seq := seq t |})) /\
      (List.length (rows t) <= List.length (rows t'))%nat) /\
  (forall t : Profiles.db,
      match rows t with
      | _ :: _ => Profiles.seed t = t
      | [] =>
          exists i,
            seq t < i /\
            Profiles.seed t
            = {| rows :=
                   [ {| Profiles.id := i; Profiles.username := "jdoe";
                        Profiles.full_name := "John Doe";
                        Profiles.email := "jdoe@example.com";
                        Profiles.age := Some 34;
                        Profiles.bio := Some "A short bio about John." |};
                     {| Profiles.id := i + 1; Profiles.username := "asmith";
                        Profiles.full_name := "Alice Smith";
                        Profiles.email := "alice@example.com";
                        Profiles.age := Some 28;
                        Profiles.bio := Some "Alice loves coding and coffee." |} ];
                 seq := i + 1 |}
      end).
Proof.
  split; [reflexivity|]. split; [reflexivity|]. split; [|split].
  - intros rt snapshot t s req.
    destruct rt; cbn [Auth.handle].
    + unfold Auth.get_only. destruct (Auth.method req); auto.
    + destruct (validate_on_submit (Auth.method req)
                  (Auth.registration_errors snapshot req)) eqn:V.
      * destruct (AuthFacts.register_valid_eq snapshot t s req V)
          as (u & e & p & f & n & _ & _ & _ & _ & _ & ->).
        destruct (insert _ t) as [t1|] eqn:I; [|auto].
        apply SqliteFacts.insert_done in I as [_ ->].
        destruct (SqliteFacts.next_rowid_fresh t) as [Fs Fr].
        split.
        -- right. left. repeat split.
           match goal with |- context [with_id ?i ?x] => exists (with_id i x) end.
           split; [reflexivity|]. split; [exact Fs | exact Fr].
        -- cbn [rows]. rewrite length_app. cbn. lia.
      * unfold Auth.register. rewrite V. auto.
    + unfold Auth.get_only, Auth.profile. destruct (Auth.method req); auto.
      destruct s as [[uid nm]|]; auto.
      destruct (fetchone _ t); auto.
    + unfold Auth.update_profile. destruct s as [[uid nm]|]; auto.
      destruct (fetchone _ snapshot); auto.
      destruct (validate_on_submit _ _) eqn:V.
      * destruct (AuthFacts.update_valid _ _ _ _ V)
          as (_ & _ & (e & Ee & _) & (f & Ef & _) & _).
        rewrite Ee, Ef. cbn [Auth.sql_update].
        destruct (update _ _ t) as [t1|] eqn:U; [|auto].
        apply SqliteFacts.update_done in U as [[_ ->]|(r0 & _ & _ & ->)]; [auto|].
        split.
        -- right. right. repeat split. exists uid, nm, e, f. auto.
        -- cbn [rows]. rewrite length_map. lia.
      * destruct (Auth.method req); auto.
    + unfold Auth.get_only, Auth.logout. destruct (Auth.method req); auto.
  - intros rt snapshot t req.
    destruct rt; cbn [Profiles.handle].
    + unfold Profiles.get_only. destruct (Profiles.method req); auto.
    + unfold Profiles.register. destruct (validate_on_submit _ _); auto.
      unfold Profiles.sql_insert.
      destruct (insert _ t) as [t1|] eqn:I; [|auto].
      apply SqliteFacts.insert_done in I as [_ ->].
      destruct (SqliteFacts.next_rowid_fresh t) as [Fs Fr].
      split.
      * right. left. repeat split.
        match goal with |- context [with_id ?i ?x] => exists (with_id i x) end.
        split; [reflexivity|]. split; [exact Fs | exact Fr].
      * cbn [rows]. rewrite length_app. cbn. lia.
    + destruct (int_converter user_id); [|auto].
      unfold Profiles.get_only, Profiles.profile, Profiles.no_such_row.
      destruct (Profiles.method req); auto.
      destruct (fetchone _ t); [|destruct (binds _)]; auto.
    + destruct (int_converter user_id); [|auto].
      unfold Profiles.update, Profiles.no_such_row.
      destruct (fetchone _ snapshot); [|destruct (binds _); auto].
      destruct (Profiles.method req); auto.
      destruct (validate_on_submit _ _); auto.
      unfold Profiles.sql_update.
      destruct (update _ _ t) as [t1|] eqn:U; [|auto].
      apply SqliteFacts.update_done in U as [[_ ->]|(r0 & _ & _ & ->)]; [auto|].
      split.
      * right. right. exists user_id. auto.
      * cbn [rows]. rewrite length_map. lia.
  - intros [l q]. destruct l as [|r l]; cbn [rows]; [|reflexivity].
    exists (Z.max q 0 + 1). split; [cbn [seq]; lia|].
    unfold Profiles.seed, Profiles.sql_insert, insert, next_rowid.
    cbn.
    replace (Z.max (Z.max q 0 + 1) (Z.max (Z.max q 0 + 1) 0) + 1)
      with (Z.max q 0 + 1 + 1) by lia.
    reflexivity.
Qed.

(** C10. The update form of src/flask_user_profiles_app.py passes on the
    static rules alone, whatever the table holds: when the row exists, and
    the stripped username or the stripped email of a submission obeying
    the rules belongs to another row, validation still succeeds, the
    UPDATE is refused by the UNIQUE constraint, and the view answers with
    the conflict branch and leaves the table as it was. *)
Theorem update_collision_left_to_storage `{Library}
        (t : Profiles.db) (uid : Z) (r o : Profiles.user) (req : Profiles.request) :
  fetchone (has_id uid) t = Some r ->
  Profiles.method req = POST -> Profiles.csrf_token_ok req = true ->
  Spec.profile_rules (Profiles.form req) ->
  In o (rows t) -> Profiles.id o <> uid ->
  Profiles.username o = Profiles.cleaned (Profiles.f_username (Profiles.form req)) \/
  Profiles.email o = Profiles.cleaned (Profiles.f_email (Profiles.form req)) ->
  validate_on_submit (Profiles.method req) (Profiles.profile_errors req) = true /\
  Profiles.update t t uid req = (t, Conflict).
Proof.
  intros F M C Rules Ho Other Same.
  assert (V : validate_on_submit (Profiles.method req) (Profiles.profile_errors req)
              = true) by (apply ProfilesFacts.profile_valid; auto).
  split; [exact V|].
  unfold Profiles.update. rewrite F, M. rewrite M in V. rewrite V.
  unfold Profiles.sql_update.
  replace (update uid _ t) with (@IntegrityError Profiles.user); [reflexivity|].
  symmetry. apply SqliteFacts.update_refused.
  exists r, o. repeat split; auto.
  - unfold has_id. cbn. lia.
  - apply SqliteFacts.clash_true. cbn. destruct Same; auto.
Qed.

(** John Doe (row 1 of the seeded table) asks for the username [asmith],
    which is row 2's. *)
Lemma update_collision_left_to_storage_witness :
  fetchone (has_id 1) Scenario.seeded
  = Some {| Profiles.id := 1; Profiles.username := "jdoe";
            Profiles.full_name := "John Doe";
            Profiles.email := "jdoe@example.com"; Profiles.age := Some 34;
            Profiles.bio := Some "A short bio about John." |} /\
  Spec.profile_rules (H := Sample.library) Scenario.jdoe_wants_asmith /\
  validate_on_submit POST
    (Profiles.profile_errors (H := Sample.library)
       (Scenario.profiles_post Scenario.jdoe_wants_asmith)) = true /\
  Profiles.update (H := Sample.library) Scenario.seeded Scenario.seeded 1
    (Scenario.profiles_post Scenario.jdoe_wants_asmith)
  = (Scenario.seeded, Conflict).
Proof.
  assert (F : fetchone (has_id 1) Scenario.seeded
              = Some {| Profiles.id := 1; Profiles.username := "jdoe";
                        Profiles.full_name := "John Doe";
                        Profiles.email := "jdoe@example.com";
                        Profiles.age := Some 34;
                        Profiles.bio := Some "A short bio about John." |})
    by (vm_compute; reflexivity).
  assert (Rules : Spec.profile_rules (H := Sample.library) Scenario.jdoe_wants_asmith).
  { unfold Spec.profile_rules. repeat split.
    - exists "asmith". repeat split; vm_compute; discriminate.
    - exists "John Doe". repeat split; vm_compute; discriminate.
    - exists "jdoe@example.com". repeat split; vm_compute; try discriminate; reflexivity.
    - exists 35. repeat split; lia.
    - vm_compute. discriminate. }
  split; [exact F|]. split; [exact Rules|].
  apply (update_collision_left_to_storage (H := Sample.library) Scenario.seeded 1 _
           {| Profiles.id := 2; Profiles.username := "asmith";
              Profiles.full_name := "Alice Smith";
              Profiles.email := "alice@example.com"; Profiles.age := Some 28;
              Profiles.bio := Some "Alice loves coding and coffee." |}
           (Scenario.profiles_post Scenario.jdoe_wants_asmith) F).
  - reflexivity.
  - reflexivity.
  - exact Rules.
  - vm_compute. auto.
  - cbn. lia.
  - left. vm_compute. reflexivity.
Defined.

(* ================================================================== *)
(** * Further properties of the two programs *)

(** ** Lookups and positions in the table *)

Module MoreSqliteFacts.
Import SqliteFacts.

Lemma find_present {A : Type} (p : A -> bool) (l : list A) (a : A) :
  In a l -> p a = true -> exists b, find p l = Some b.
Proof.
  intros Ha Pa. destruct (find p l) as [b|] eqn:F; [eauto|].
  rewrite (find_none _ _ F a Ha) in Pa. discriminate.
Qed.

Lemma increasing_snoc (l : list Z) (x : Z) :
  More.increasing l -> Forall (fun a => a < x) l -> More.increasing (l ++ [x]).
Proof.
  induction l as [|a l IH]; cbn; intros I F.
  - split; [constructor | exact Logic.I].
  - destruct I as [Fa Il]. inversion F as [|? ? Hax Fl]; subst. split.
    + apply Forall_app. split; [exact Fa | repeat constructor; exact Hax].
    + apply IH; assumption.
Qed.

Lemma decreasing_rev (l : list Z) : More.increasing l -> More.decreasing (rev l).
Proof.
  induction l as [|a l IH]; cbn; intros I; [exact Logic.I|].
  destruct I as [Fa Il]. specialize (IH Il).
  assert (G : forall m x, More.decreasing m -> Forall (fun b => x < b) m ->
                          More.decreasing (m ++ [x])).
  { induction m as [|b m IHm]; cbn; intros x D F.
    - split; [constructor | exact Logic.I].
    - destruct D as [Fb Dm]. inversion F as [|? ? Hxb Fm]; subst. split.
      + apply Forall_app. split; [exact Fb | repeat constructor; exact Hxb].
      + apply IHm; assumption. }
  apply G; [exact IH|].
  rewrite Forall_forall in *. intros b Hb. apply Fa. now apply in_rev.
Qed.

Section Facts.
Context {row : Type} `{Schema row}.

(** In a table that satisfies the constraints, looking a row up by its id
    gives that row. *)
Lemma fetchone_by_id (t : table row) (r : row) :
  wf t -> In r (rows t) -> fetchone (has_id (row_id r)) t = Some r.
Proof.
  intros W Hr.
  assert (Pr : has_id (row_id r) r = true) by (unfold has_id; apply Z.eqb_refl).
  destruct (find_present (has_id (row_id r)) (rows t) r Hr Pr) as [b F].
  unfold fetchone. rewrite F. f_equal.
  apply find_some in F as [Hb Pb].
  eapply has_id_unique; eauto. apply W.
Qed.

Lemma fetchone_absent (uid : Z) (t : table row) :
  fetchone (has_id uid) t = None <-> ~ In uid (map row_id (rows t)).
Proof.
  unfold fetchone. split.
  - intros F Hin. apply in_map_iff in Hin as (r & E & Hr).
    pose proof (find_none _ _ F r Hr) as N. unfold has_id in N. lia.
  - intros N. apply find_all_false. intros r Hr.
    unfold has_id. apply Z.eqb_neq. intros E. apply N.
    apply in_map_iff. eauto.
Qed.

Lemma insert_keeps_place (r : row) (t t' : table row) (k : nat) (o : row) :
  insert r t = Done t' -> nth_error (rows t) k = Some o ->
  nth_error (rows t') k = Some o.
Proof.
  intros I N. apply insert_done in I as [_ ->]. cbn [rows].
  rewrite nth_error_app1; [exact N|].
  apply nth_error_Some. congruence.
Qed.

Lemma update_at_place (uid : Z) (set : row -> row) (t t' : table row)
      (k : nat) (o : row) :
  update uid set t = Done t' -> nth_error (rows t) k = Some o ->
  nth_error (rows t') k = Some (if has_id uid o then set o else o).
Proof.
  intros U N. apply update_done in U as [[F ->]|(r & _ & _ & ->)].
  - rewrite N. f_equal.
    apply nth_error_In in N. rewrite (find_none _ _ F o N). reflexivity.
  - cbn [rows]. rewrite nth_error_map, N. reflexivity.
Qed.

(** The row an INSERT has just added is the one found under the id it was
    given. *)
Lemma insert_fetch_new (r : row) (t t' : table row) :
  insert r t = Done t' ->
  fetchone (has_id (next_rowid t)) t' = Some (with_id (next_rowid t) r).
Proof.
  intros I. apply insert_done in I as [_ ->].
  unfold fetchone. cbn [rows].
  destruct (next_rowid_fresh t) as [_ Fr]. rewrite Forall_forall in Fr.
  rewrite AuthFacts.find_app_last.
  - unfold has_id. now rewrite row_id_with_id, Z.eqb_refl.
  - intros a Ha. unfold has_id. apply Z.eqb_neq.
    specialize (Fr a Ha). cbn in Fr. lia.
Qed.

Lemma insert_increasing (r : row) (t t' : table row) :
  More.increasing (map row_id (rows t)) -> insert r t = Done t' ->
  More.increasing (map row_id (rows t')).
Proof.
  intros Inc I. apply insert_done in I as [_ ->]. cbn [rows].
  rewrite map_app. cbn. rewrite row_id_with_id.
  apply increasing_snoc; [exact Inc|].
  destruct (next_rowid_fresh t) as [_ Fr].
  rewrite Forall_forall in *. intros a Ha.
  apply in_map_iff in Ha as (o & <- & Ho). exact (Fr o Ho).
Qed.

Lemma update_increasing (uid : Z) (set : row -> row) (t t' : table row) :
  (forall r, row_id (set r) = row_id r) ->
  More.increasing (map row_id (rows t)) -> update uid set t = Done t' ->
  More.increasing (map row_id (rows t')).
Proof.
  intros Keep Inc U.
  apply update_done in U as [[_ ->]|(r & _ & _ & ->)]; [exact Inc|].
  cbn [rows]. now rewrite update_ids.
Qed.

End Facts.
End MoreSqliteFacts.

(** ** src/app.py: rows, sessions and lookups across requests *)

Module MoreAuthFacts.
Import WTForms Sqlite Flask Auth SqliteFacts MoreSqliteFacts AuthFacts.

Section WithLibrary.
Context `{Library}.

Lemma same_identity_refl (r : user) : More.auth_same_identity r r.
Proof. repeat split. Qed.

Lemma same_identity_trans (a b c : user) :
  More.auth_same_identity a b -> More.auth_same_identity b c ->
  More.auth_same_identity a c.
Proof.
  unfold More.auth_same_identity.
  intros (A1 & A2 & A3 & A4) (B1 & B2 & B3 & B4). repeat split; congruence.
Qed.

Lemma sql_insert_keeps_place (u e p f : option string) (a : option Z)
      (b : option string) (ts : Z) (t t' : db) (k : nat) (o : user) :
  sql_insert u e p f a b ts t = Done t' -> nth_error (rows t) k = Some o ->
  nth_error (rows t') k = Some o.
Proof.
  unfold sql_insert. destruct u, e, p, f; try discriminate.
  apply insert_keeps_place.
Qed.

Lemma sql_update_at_place (e f : option string) (a : option Z) (b : option string)
      (ts uid : Z) (t t' : db) (k : nat) (o : user) :
  sql_update e f a b ts uid t = Done t' -> nth_error (rows t) k = Some o ->
  exists o', nth_error (rows t') k = Some o' /\ More.auth_same_identity o o' /\
             (has_id uid o = false -> o' = o).
Proof.
  unfold sql_update. intros U N.
  destruct e as [e|], f as [f|];
    try (destruct (fetchone (has_id uid) t); [discriminate|];
         injection U as <-; exists o; split; [exact N|];
         split; [apply same_identity_refl | reflexivity]).
  pose proof (update_at_place _ _ _ _ _ _ U N) as P.
  destruct (has_id uid o).
  - eexists. split; [exact P|]. split; [repeat split | discriminate].
  - exists o. split; [exact P|]. split; [apply same_identity_refl | reflexivity].
Qed.

(** One request: every row stays where it is, with the same id, username,
    password and [created_at]; a row that is not the session user's own
    stays as it is altogether. *)
Lemma handle_place (rt : route) (snapshot t : db) (s : session) (req : request)
      (k : nat) (o : user) :
  nth_error (rows t) k = Some o ->
  exists o', nth_error (rows (fst (fst (handle rt snapshot t s req)))) k = Some o' /\
             More.auth_same_identity o o' /\
             (More.own_row s o = false -> o' = o).
Proof.
  intros N.
  assert (Same : exists o', nth_error (rows t) k = Some o' /\
                            More.auth_same_identity o o' /\
                            (More.own_row s o = false -> o' = o)).
  { exists o. split; [exact N|]. split; [apply same_identity_refl | reflexivity]. }
  destruct rt; cbn [handle].
  - destruct (method req); exact Same.
  - unfold register.
    destruct (validate_on_submit _ _); [|exact Same].
    destruct (sql_insert _ _ _ _ _ _ _ t) as [t'|] eqn:I; [|exact Same].
    pose proof (sql_insert_keeps_place _ _ _ _ _ _ _ _ _ _ _ I N) as P.
    exists o. split.
    + destruct (fetchone _ t'); exact P.
    + split; [apply same_identity_refl | reflexivity].
  - unfold profile, get_only. destruct (method req); [|exact Same].
    destruct s as [[uid nm]|]; [|exact Same].
    destruct (fetchone _ t); exact Same.
  - unfold update_profile. destruct s as [[uid nm]|]; [|exact Same].
    destruct (fetchone _ snapshot); [|exact Same].
    destruct (validate_on_submit _ _).
    + destruct (sql_update _ _ _ _ _ _ t) as [t'|] eqn:U; [|exact Same].
      exact (sql_update_at_place _ _ _ _ _ _ _ _ _ _ U N).
    + destruct (method req); exact Same.
  - destruct (method req); exact Same.
Qed.

Lemma steps_place (t t' : db) (k : nat) (r : user) :
  More.auth_steps t t' -> nth_error (rows t) k = Some r ->
  exists r', nth_error (rows t') k = Some r' /\ More.auth_same_identity r r'.
Proof.
  induction 1 as [t|t t' t'' S IH St]; intros N.
  - exists r. split; [exact N | apply same_identity_refl].
  - destruct (IH N) as (r' & N' & I'). destruct St.
    destruct (handle_place rt snapshot t0 s req k r' N') as (r'' & N'' & I'' & _).
    exists r''. split; [exact N''|]. eapply same_identity_trans; eauto.
Qed.

Lemma steps_wf (t t' : db) : More.auth_steps t t' -> wf t -> wf t'.
Proof.
  induction 1 as [t|t t' t'' S IH St]; intros W; [exact W|].
  destruct St. apply handle_wf. auto.
Qed.

(** A saved registration, spelled out. *)
Lemma register_saved (snapshot t t' : db) (s s' : session) (req : request) :
  register snapshot t s req = (t', s', Saved) ->
  exists u e p f n,
    f_username (form req) = Some u /\ f_email (form req) = Some e /\
    f_password (form req) = Some p /\ f_full_name (form req) = Some f /\
    f_age (form req) = IntValue n /\
    insert (Spec.auth_row 0 u e (Werkzeug.generate_password_hash (salt req) p) f
              (Some n) (Py.or_none (f_bio (form req))) (now req)) t = Done t' /\
    s' = Some (next_rowid t, u).
Proof.
  intros R. pose proof (register_saved_valid _ _ _ _ _ _ R) as V.
  destruct (register_valid_eq snapshot t s req V)
    as (u & e & p & f & n & Eu & Ee & Ep & Ef & En & Q).
  rewrite Q in R. destruct (insert _ t) as [t1|] eqn:I; [|discriminate].
  injection R as <- <-. exists u, e, p, f, n. auto 10.
Qed.

End WithLibrary.
End MoreAuthFacts.

Import More.

(** X1. In src/app.py, right after a registration is saved, the profile
    page asked with the session that registration set shows the new id,
    the username, email and full name as submitted, the age, the bio (NULL
    when it was empty) and the time of the INSERT twice; the password hash
    is not among the columns shown. *)
Theorem auth_register_then_profile `{Library}
        (snapshot t t' : Auth.db) (s s' : Auth.session) (req : Auth.request) :
  Auth.register snapshot t s req = (t', s', Saved) ->
  exists uid u e f n,
    s' = Some (uid, u) /\
    Auth.f_username (Auth.form req) = Some u /\
    Auth.f_email (Auth.form req) = Some e /\
    Auth.f_full_name (Auth.form req) = Some f /\
    Auth.f_age (Auth.form req) = IntValue n /\
    Auth.profile t' s'
    = (t', s', Page [[ Int uid; Text u; Text e; Text f; Int n;
                       text_cell (Py.or_none (Auth.f_bio (Auth.form req)));
                       Int (Auth.now req); Int (Auth.now req) ]]).
Proof.
  intros R.
  destruct (MoreAuthFacts.register_saved _ _ _ _ _ _ R)
    as (u & e & p & f & n & Eu & Ee & Ep & Ef & En & I & ->).
  exists (next_rowid t), u, e, f, n. repeat (split; [auto; fail|]).
  unfold Auth.profile.
  rewrite (MoreSqliteFacts.insert_fetch_new _ _ _ I). reflexivity.
Qed.

(** Alice registers on the empty table and looks at her profile. *)
Lemma auth_register_then_profile_witness :
  Auth.register (H := Sample.library) Auth.init_db Auth.init_db None
    (Scenario.auth_post Scenario.alice 100)
  = (Scenario.auth_one, Some (1, "alice"), Saved) /\
  exists uid u e f n,
    Some (1, "alice") = Some (uid, u) /\
    Auth.f_username Scenario.alice = Some u /\
    Auth.f_email Scenario.alice = Some e /\
    Auth.f_full_name Scenario.alice = Some f /\
    Auth.f_age Scenario.alice = IntValue n /\
    Auth.profile Scenario.auth_one (Some (1, "alice"))
    = (Scenario.auth_one, Some (1, "alice"),
       Page [[ Int uid; Text u; Text e; Text f; Int n;
               text_cell (Some "Curious."); Int 100; Int 100 ]]).
Proof.
  assert (R : Auth.register (H := Sample.library) Auth.init_db Auth.init_db None
                (Scenario.auth_post Scenario.alice 100)
              = (Scenario.auth_one, Some (1, "alice"), Saved))
    by (vm_compute; reflexivity).
  split; [exact R|].
  exact (auth_register_then_profile (H := Sample.library) _ _ _ _ _ _ R).
Defined.

(** X2. In src/app.py no request changes a row other than the row of the
    user its session names: whatever the view and the form data, such a
    row is found afterwards at the same place with every column as it
    was; without a session no existing row changes at all. *)
Theorem auth_only_own_row_changes `{Library}
        (rt : Auth.route) (snapshot t : Auth.db) (s : Auth.session)
        (req : Auth.request) (k : nat) (o : Auth.user) :
  nth_error (rows t) k = Some o -> own_row s o = false ->
  nth_error (rows (fst (fst (Auth.handle rt snapshot t s req)))) k = Some o.
Proof.
  intros N Other.
  destruct (MoreAuthFacts.handle_place rt snapshot t s req k o N)
    as (o' & N' & _ & Same).
  now rewrite N', (Same Other).
Qed.

(** Alice saves her profile form; Bob's row, second in the table, is not
    hers. *)
Lemma auth_only_own_row_changes_witness :
  let bob_row := Spec.auth_row 2 "bob" "bob@example.org" "scrypt:32768:8:1$NaCl$y"
                   "Bob Builder" (Some 41) None 200 in
  nth_error (rows Scenario.auth_two) 1 = Some bob_row /\
  own_row Scenario.alice_session bob_row = false /\
  nth_error (rows (fst (fst (Auth.handle (H := Sample.library) Auth.UpdateProfile
                               Scenario.auth_two Scenario.auth_two
                               Scenario.alice_session
                               (Scenario.auth_post Scenario.alice_keeps_email 400)))))
            1 = Some bob_row.
Proof.
  intros bob_row.
  assert (N : nth_error (rows Scenario.auth_two) 1 = Some bob_row)
    by (vm_compute; reflexivity).
  assert (O : own_row Scenario.alice_session bob_row = false) by reflexivity.
  split; [exact N|]. split; [exact O|].
  exact (auth_only_own_row_changes (H := Sample.library) Auth.UpdateProfile
           Scenario.auth_two Scenario.auth_two Scenario.alice_session
           (Scenario.auth_post Scenario.alice_keeps_email 400) 1 bob_row N O).
Defined.

(** X3. In src/app.py a row, once stored, keeps its place, its id, its
    username, its password hash and its [created_at] through any number of
    requests of any kind: no view renames a user, changes a password or
    removes a row. *)
Theorem auth_row_identity_is_permanent `{Library}
        (t t' : Auth.db) (k : nat) (r : Auth.user) :
  auth_steps t t' -> nth_error (rows t) k = Some r ->
  exists r', nth_error (rows t') k = Some r' /\ auth_same_identity r r'.
Proof. apply MoreAuthFacts.steps_place. Qed.

(** Alice's row before and after Bob registers and Alice edits her
    profile. *)
Lemma auth_row_identity_is_permanent_witness :
  let alice_row := Spec.auth_row 1 "alice" "alice@example.org"
                     "scrypt:32768:8:1$NaCl$q" "Alice Liddell" (Some 30)
                     (Some "Curious.") 100 in
  let edited := fst (fst (Auth.handle (H := Sample.library) Auth.UpdateProfile
                            Scenario.auth_two Scenario.auth_two
                            Scenario.alice_session
                            (Scenario.auth_post Scenario.alice_keeps_email 400))) in
  auth_steps (H := Sample.library) Scenario.auth_one edited /\
  nth_error (rows Scenario.auth_one) 0 = Some alice_row /\
  exists r', nth_error (rows edited) 0 = Some r' /\ auth_same_identity alice_row r'.
Proof.
  intros alice_row edited.
  assert (S : auth_steps (H := Sample.library) Scenario.auth_one edited).
  { apply (auth_steps_more _ Scenario.auth_two).
    - apply (auth_steps_more _ Scenario.auth_one); [constructor|].
      apply (Auth.step_handle Auth.Register Scenario.auth_one Scenario.auth_one None
               (Scenario.auth_post Scenario.bob 200)).
    - apply (Auth.step_handle Auth.UpdateProfile Scenario.auth_two Scenario.auth_two
               Scenario.alice_session
               (Scenario.auth_post Scenario.alice_keeps_email 400)). }
  assert (N : nth_error (rows Scenario.auth_one) 0 = Some alice_row)
    by (vm_compute; reflexivity).
  split; [exact S|]. split; [exact N|].
  exact (auth_row_identity_is_permanent (H := Sample.library) _ _ 0 alice_row S N).
Defined.

(** X4. In src/app.py the session set by a saved registration never goes
    stale: after any number of further requests the row of that id is
    still there under the same username, so [profile] asked with that
    session shows it and does not take the "User not found" branch. *)
Theorem auth_session_stays_valid `{Library}
        (snapshot t t1 t' : Auth.db) (s : Auth.session) (req : Auth.request)
        (uid : Z) (nm : string) :
  wf t ->
  Auth.register snapshot t s req = (t1, Some (uid, nm), Saved) ->
  auth_steps t1 t' ->
  exists r',
    fetchone (has_id uid) t' = Some r' /\ Auth.username r' = nm /\
    Auth.profile t' (Some (uid, nm))
    = (t', Some (uid, nm),
       Page [[ Int uid; Text nm; Text (Auth.email r'); Text (Auth.full_name r');
               int_cell (Auth.age r'); text_cell (Auth.bio r');
               Int (Auth.created_at r'); Int (Auth.updated_at r') ]]).
Proof.
  intros W R S.
  destruct (MoreAuthFacts.register_saved _ _ _ _ _ _ R)
    as (u & e & p & f & n & _ & _ & _ & _ & _ & I & Es).
  injection Es as -> ->.
  pose proof (SqliteFacts.insert_wf _ _ _ W I) as W1.
  pose proof (MoreAuthFacts.steps_wf _ _ S W1) as W'.
  pose proof (MoreSqliteFacts.insert_fetch_new _ _ _ I) as F1.
  apply find_some in F1 as [In1 _].
  apply In_nth_error in In1 as [k N1].
  destruct (MoreAuthFacts.steps_place _ _ k _ S N1) as (r' & N' & Ei & Eu & _).
  cbn in Ei, Eu. apply nth_error_In in N'.
  pose proof (MoreSqliteFacts.fetchone_by_id t' r' W' N') as F'.
  change (row_id r') with (Auth.id r') in F'. rewrite Ei in F'.
  exists r'. split; [exact F'|]. split; [exact Eu|].
  unfold Auth.profile. rewrite F'. now rewrite Ei, Eu.
Qed.

(** Alice registers on the empty table; Bob registers and Alice edits her
    profile; her session still shows her page. *)
Lemma auth_session_stays_valid_witness :
  let edited := fst (fst (Auth.handle (H := Sample.library) Auth.UpdateProfile
                            Scenario.auth_two Scenario.auth_two
                            Scenario.alice_session
                            (Scenario.auth_post Scenario.alice_keeps_email 400))) in
  wf Auth.init_db /\
  Auth.register (H := Sample.library) Auth.init_db Auth.init_db None
    (Scenario.auth_post Scenario.alice 100)
  = (Scenario.auth_one, Some (1, "alice"), Saved) /\
  auth_steps (H := Sample.library) Scenario.auth_one edited /\
  exists r',
    fetchone (has_id 1) edited = Some r' /\ Auth.username r' = "alice" /\
    Auth.profile edited (Some (1, "alice"))
    = (edited, Some (1, "alice"),
       Page [[ Int 1; Text "alice"; Text (Auth.email r'); Text (Auth.full_name r');
               int_cell (Auth.age r'); text_cell (Auth.bio r');
               Int (Auth.created_at r'); Int (Auth.updated_at r') ]]).
Proof.
  intros edited.
  assert (W : wf Auth.init_db) by apply SqliteFacts.empty_wf.
  assert (R : Auth.register (H := Sample.library) Auth.init_db Auth.init_db None
                (Scenario.auth_post Scenario.alice 100)
              = (Scenario.auth_one, Some (1, "alice"), Saved))
    by (vm_compute; reflexivity).
  assert (S : auth_steps (H := Sample.library) Scenario.auth_one edited).
  { apply (auth_steps_more _ Scenario.auth_two).
    - apply (auth_steps_more _ Scenario.auth_one); [constructor|].
      apply (Auth.step_handle Auth.Register Scenario.auth_one Scenario.auth_one None
               (Scenario.auth_post Scenario.bob 200)).
    - apply (Auth.step_handle Auth.UpdateProfile Scenario.auth_two Scenario.auth_two
               Scenario.alice_session
               (Scenario.auth_post Scenario.alice_keeps_email 400)). }
  split; [exact W|]. split; [exact R|]. split; [exact S|].
  exact (auth_session_stays_valid (H := Sample.library) _ _ _ _ _ _ 1 "alice" W R S).
Defined.

(** ** src/app.py: what validation guarantees of the table *)

Module MoreAuthRules.
Import WTForms Sqlite Flask Auth SqliteFacts WTFormsFacts AuthFacts.

Section WithLibrary.
Context `{Library}.

Lemma bio_ok (o : option string) :
  Py.len (Py.or_empty o) <= 500 ->
  match Py.or_none o with
  | None => True
  | Some b => 1 <= Py.len b <= 500
  end.
Proof.
  destruct o as [[|c b]|]; cbn; auto.
  unfold Py.len. cbn [String.length]. lia.
Qed.

Lemma handle_rows_ok (rt : route) (snapshot t : db) (s : session) (req : request) :
  Forall More.auth_row_ok (rows t) ->
  Forall More.auth_row_ok (rows (fst (fst (handle rt snapshot t s req)))).
Proof.
  intros Ok. destruct rt; cbn [handle].
  - destruct (method req); exact Ok.
  - destruct (validate_on_submit (method req) (registration_errors snapshot req))
      eqn:V.
    + destruct (register_valid_eq snapshot t s req V)
        as (u & e & p & f & n & Eu & Ee & Ep & Ef & En & ->).
      apply registration_valid in V
        as (_ & _ & (u' & Eu' & Nu & Lu & _) & (e' & Ee' & Ne & Oke & _)
            & (p' & Ep' & _ & Lp) & (f' & Ef' & Nf & Lf) & (n' & En' & Bn) & Lb).
      rewrite Eu in Eu'. injection Eu' as <-.
      rewrite Ee in Ee'. injection Ee' as <-.
      rewrite Ep in Ep'. injection Ep' as <-.
      rewrite Ef in Ef'. injection Ef' as <-.
      rewrite En in En'. injection En' as <-.
      destruct (insert _ t) as [t1|] eqn:I; [|exact Ok].
      apply insert_done in I as [_ ->]. cbn [fst rows].
      apply Forall_app. split; [exact Ok|]. constructor; [|constructor].
      unfold More.auth_row_ok. cbn.
      repeat split; try assumption; try lia.
      * exists n. split; [reflexivity | exact Bn].
      * now apply bio_ok.
      * exists (salt req), p. auto.
    + unfold register. rewrite V. exact Ok.
  - unfold profile, get_only. destruct (method req); [|exact Ok].
    destruct s as [[uid nm]|]; [|exact Ok].
    destruct (fetchone _ t); exact Ok.
  - unfold update_profile. destruct s as [[uid nm]|]; [|exact Ok].
    destruct (fetchone _ snapshot); [|exact Ok].
    destruct (validate_on_submit _ _) eqn:V.
    2:{ destruct (method req); exact Ok. }
    destruct (update_valid _ _ _ _ V)
      as (_ & _ & (e & Ee & Ne & Oke & _) & (f & Ef & Nf & Lf) & (n & En & Bn) & Lb).
    rewrite Ee, Ef, En. cbn [sql_update int_data].
    rewrite age_or_none_positive by lia.
    destruct (update _ _ t) as [t1|] eqn:U; [|exact Ok].
    apply update_done in U as [[_ ->]|(r0 & _ & _ & ->)]; [exact Ok|].
    cbn [fst rows]. rewrite Forall_forall in *. intros x Hx.
    apply in_map_iff in Hx as (o & <- & Ho). specialize (Ok o Ho).
    destruct (has_id uid o); [|exact Ok].
    destruct Ok as (Ku & Kn & _ & _ & _ & _ & _ & _ & Kp).
    unfold More.auth_row_ok. cbn.
    repeat split; try assumption; try lia.
    + exists n. split; [reflexivity | exact Bn].
    + now apply bio_ok.
  - destruct (method req); exact Ok.
Qed.

Lemma reachable_rows_ok (t : db) : reachable t -> Forall More.auth_row_ok (rows t).
Proof.
  induction 1 as [|t t' R IH S]; [constructor|].
  destruct S. now apply handle_rows_ok.
Qed.



End WithLibrary.
End MoreAuthRules.

(** X5. Every row of every table src/app.py can reach obeys the rules of
    its forms as stored: a username of 3 to 20 characters that is not
    blank, an email of valid syntax, a full name of 2 to 100 characters,
    an age that is present and between 1 and 150, a bio that is NULL or
    has 1 to 500 characters, and a password column holding the hash string
    of a password of at least 6 characters. *)
Theorem auth_stored_rows_obey_rules `{Library} (t : Auth.db) :
  Auth.reachable t -> Forall auth_row_ok (rows t).
Proof. apply MoreAuthRules.reachable_rows_ok. Qed.

(** The table after Alice and Bob registered. *)
Lemma auth_stored_rows_obey_rules_witness :
  Auth.reachable (H := Sample.library) Scenario.auth_two /\
  Forall (auth_row_ok (H := Sample.library)) (rows Scenario.auth_two).
Proof.
  assert (R : Auth.reachable (H := Sample.library) Scenario.auth_two).
  { apply (Auth.reach_step Scenario.auth_one).
    - apply (Auth.reach_step Auth.init_db); [constructor|].
      apply (Auth.step_handle Auth.Register Auth.init_db Auth.init_db None
               (Scenario.auth_post Scenario.alice 100)).
    - apply (Auth.step_handle Auth.Register Scenario.auth_one Scenario.auth_one None
               (Scenario.auth_post Scenario.bob 200)). }
  split; [exact R|].
  exact (auth_stored_rows_obey_rules (H := Sample.library) Scenario.auth_two R).
Defined.



Module MoreFormFacts.
Import WTForms Flask WTFormsFacts.

Lemma error_entry (name : string) (ms : list string) (fields : list (string * list string)) :
  In (name, ms) fields -> ms <> [] -> In (name, ms) (errors_of fields).
Proof.
  intros Hin N. unfold errors_of. apply filter_In. split; [exact Hin|].
  unfold has_messages. cbn. destruct ms; [now elim N | reflexivity].
Qed.

(** A form whose CSRF token does not check out, or that came by GET, is
    not "validated on submit". *)
Lemma not_submitted (m : http_method) (c : csrf_check)
      (fields : list (string * list string)) :
  In ("csrf_token", csrf_errors c) fields ->
  m = GET \/ csrf_passes c = false ->
  validate_on_submit m (errors_of fields) = false.
Proof.
  intros Hin [->|B]; [reflexivity|].
  destruct (validate_on_submit m (errors_of fields)) eqn:V; [|reflexivity].
  apply validate_on_submit_true in V as [_ V]. apply no_errors_iff in V.
  rewrite Forall_forall in V. specialize (V _ Hin). cbn [snd] in V.
  apply csrf_ok in V. congruence.
Qed.

End MoreFormFacts.

(** X7. In src/app.py a registration form whose username or email is
    already in the table the validators read never reaches the INSERT:
    the form page comes back, table and session untouched.  On GET the
    page shows no error, since nothing was validated.  On POST it shows the
    errors the validators collected; when the submitted username is
    well-formed its error list is exactly the "already taken" message, and
    likewise for a well-formed email. *)
Theorem auth_taken_name_is_validation_error `{Library}
        (snapshot t : Auth.db) (s : Auth.session) (req : Auth.request)
        (r : Auth.user) :
  In r (rows snapshot) ->
  Auth.f_username (Auth.form req) = Some (Auth.username r) \/
  Auth.f_email (Auth.form req) = Some (Auth.email r) ->
  exists errors,
    Auth.register snapshot t s req = (t, s, FormPage errors []) /\
    (Auth.method req = GET -> errors = []) /\
    (Auth.method req = POST ->
     errors = Auth.registration_errors snapshot req /\
     (Auth.f_username (Auth.form req) = Some (Auth.username r) ->
      Py.strip (Auth.username r) <> "" -> 3 <= Py.len (Auth.username r) <= 20 ->
      In ("username", [Auth.username_taken_msg]) errors) /\
     (Auth.f_email (Auth.form req) = Some (Auth.email r) ->
      Py.strip (Auth.email r) <> "" -> email_syntax_ok (Auth.email r) = true ->
      In ("email", [Auth.email_taken_msg]) errors)).
Proof.
  intros Hr Taken.
  assert (Fu : exists x, fetchone (Auth.username_is (Some (Auth.username r))) snapshot
                         = Some x).
  { apply (MoreSqliteFacts.find_present _ _ r Hr). cbn. apply String.eqb_refl. }
  assert (Fe : exists x, fetchone (Auth.email_is (Some (Auth.email r))) snapshot
                         = Some x).
  { apply (MoreSqliteFacts.find_present _ _ r Hr). cbn. apply String.eqb_refl. }
  exists (rendered_errors (Auth.method req) (Auth.registration_errors snapshot req)).
  split; [|split].
  - unfold Auth.register.
    destruct (validate_on_submit _ _) eqn:V; [|reflexivity].
    exfalso. apply AuthFacts.registration_valid in V
      as (_ & _ & (u & Eu & _ & _ & Nu) & (e & Ee & _ & _ & Ne) & _).
    destruct Taken as [E|E].
    + rewrite Eu in E. injection E as ->. destruct Fu as [x Fx]. congruence.
    + rewrite Ee in E. injection E as ->. destruct Fe as [x Fx]. congruence.
  - intros ->. reflexivity.
  - intros ->. cbn [rendered_errors]. split; [reflexivity|]. split.
    + intros Eu Nu Lu. unfold Auth.registration_errors.
      apply MoreFormFacts.error_entry; [|discriminate].
      left. f_equal. rewrite Eu. unfold Auth.username_validators.
      cbn [run_validation_chain].
      rewrite (proj2 (WTFormsFacts.DataRequired_pass _ _)) by eauto.
      rewrite (proj2 (WTFormsFacts.Length_pass _ _ _ _))
        by (cbn; split; [lia | right; lia]).
      unfold Auth.validate_username. destruct Fu as [x ->]. reflexivity.
    + intros Ee Ne Oke. unfold Auth.registration_errors.
      apply MoreFormFacts.error_entry; [|discriminate].
      right. left. f_equal. rewrite Ee. unfold Auth.email_static_validators.
      cbn [app run_validation_chain].
      rewrite (proj2 (WTFormsFacts.DataRequired_pass _ _)) by eauto.
      rewrite (proj2 (WTFormsFacts.Email_pass _ _ _)) by eauto.
      unfold Auth.validate_email. destruct Fe as [x ->]. reflexivity.
Qed.

(** With Alice in the table, another visitor posts a registration for the
    username [alice] under a new address: the page shows the one error. *)
Lemma auth_taken_name_is_validation_error_witness :
  let alice_row := Spec.auth_row 1 "alice" "alice@example.org"
                     "scrypt:32768:8:1$NaCl$q" "Alice Liddell" (Some 30)
                     (Some "Curious.") 100 in
  let req := Scenario.auth_post Scenario.alice_again 150 in
  In alice_row (rows Scenario.auth_one) /\
  exists errors,
    Auth.register (H := Sample.library) Scenario.auth_one Scenario.auth_one None req
    = (Scenario.auth_one, None, FormPage errors []) /\
    errors = Auth.registration_errors (H := Sample.library) Scenario.auth_one req /\
    In ("username", [Auth.username_taken_msg]) errors.
Proof.
  intros alice_row req.
  assert (Hin : In alice_row (rows Scenario.auth_one)) by (left; reflexivity).
  destruct (auth_taken_name_is_validation_error (H := Sample.library)
              Scenario.auth_one Scenario.auth_one None req alice_row Hin
              (or_introl eq_refl)) as (errors & R & _ & P).
  destruct (P eq_refl) as (E & U & _).
  split; [exact Hin|]. exists errors. split; [exact R|]. split; [exact E|].
  apply U.
  - reflexivity.
  - vm_compute. discriminate.
  - vm_compute. split; discriminate.
Defined.

(** X8. In both programs a request that comes by GET, or whose CSRF token
    does not check out, never changes the table and is never answered as
    saved, whatever view it asks and whatever its form data. *)
Theorem only_valid_post_writes `{Library} :
  (forall rt snapshot t s req,
      Auth.method req = GET \/ Auth.csrf_token_ok req = false ->
      fst (fst (Auth.handle rt snapshot t s req)) = t /\
      snd (Auth.handle rt snapshot t s req) <> Saved) /\
  (forall rt snapshot t req,
      Profiles.method req = GET \/ Profiles.csrf_token_ok req = false ->
      fst (Profiles.handle rt snapshot t req) = t /\
      snd (Profiles.handle rt snapshot t req) <> Saved).
Proof.
  split.
  - intros rt snapshot t s req Bad. destruct rt; cbn [Auth.handle].
    + unfold Auth.get_only, Auth.index.
      destruct (Auth.method req), s; cbn; split; auto; discriminate.
    + unfold Auth.register, Auth.registration_errors.
      rewrite (MoreFormFacts.not_submitted _ (Auth.csrf req));
        [cbn; split; auto; discriminate | cbn; auto 10 | exact Bad].
    + unfold Auth.get_only, Auth.profile.
      destruct (Auth.method req); [|cbn; split; auto; discriminate].
      destruct s as [[uid nm]|]; [|cbn; split; auto; discriminate].
      destruct (fetchone _ t); cbn; split; auto; discriminate.
    + unfold Auth.update_profile.
      destruct s as [[uid nm]|]; [|cbn; split; auto; discriminate].
      destruct (fetchone _ snapshot); [|cbn; split; auto; discriminate].
      unfold Auth.update_errors.
      rewrite (MoreFormFacts.not_submitted _ (Auth.csrf req));
        [| cbn; auto 10 | exact Bad].
      destruct (Auth.method req); cbn; split; auto; discriminate.
    + unfold Auth.get_only, Auth.logout.
      destruct (Auth.method req); cbn; split; auto; discriminate.
  - intros rt snapshot t req Bad. destruct rt; cbn [Profiles.handle].
    + unfold Profiles.get_only, Profiles.index.
      destruct (Profiles.method req); cbn; split; auto; discriminate.
    + unfold Profiles.register, Profiles.profile_errors.
      rewrite (MoreFormFacts.not_submitted _ (Profiles.csrf req));
        [cbn; split; auto; discriminate | cbn; auto 10 | exact Bad].
    + destruct (int_converter user_id); [|cbn; split; auto; discriminate].
      unfold Profiles.get_only, Profiles.profile, Profiles.no_such_row.
      destruct (Profiles.method req); [|cbn; split; auto; discriminate].
      destruct (fetchone _ t); [|destruct (binds _)]; cbn; split; auto; discriminate.
    + destruct (int_converter user_id); [|cbn; split; auto; discriminate].
      unfold Profiles.update, Profiles.no_such_row.
      destruct (fetchone _ snapshot);
        [|destruct (binds _); cbn; split; auto; discriminate].
      destruct (Profiles.method req) eqn:M; [cbn; split; auto; discriminate|].
      unfold Profiles.profile_errors.
      rewrite (MoreFormFacts.not_submitted _ (Profiles.csrf req));
        [cbn; split; auto; discriminate | cbn; auto 10 |].
      destruct Bad as [B|B]; [discriminate B | auto].
Qed.

(** Alice's otherwise valid registration, sent without a valid CSRF
    token. *)
Lemma only_valid_post_writes_witness :
  let req := {| Auth.method := POST; Auth.csrf := TokenInvalid;
                Auth.form := Scenario.alice; Auth.now := 100;
                Auth.salt := "NaCl" |} in
  (Auth.method req = GET \/ Auth.csrf_token_ok req = false) /\
  fst (fst (Auth.handle (H := Sample.library) Auth.Register Auth.init_db
              Auth.init_db None req)) = Auth.init_db /\
  snd (Auth.handle (H := Sample.library) Auth.Register Auth.init_db
         Auth.init_db None req) <> Saved.
Proof.
  intros req.
  assert (B : Auth.method req = GET \/ Auth.csrf_token_ok req = false)
    by (right; reflexivity).
  split; [exact B|].
  exact (proj1 (only_valid_post_writes (H := Sample.library))
               Auth.Register Auth.init_db Auth.init_db None req B).
Defined.

(** ** src/flask_user_profiles_app.py: stored rows, order and lookups *)

Module MoreProfilesFacts.
Import WTForms Sqlite Flask Profiles SqliteFacts MoreSqliteFacts WTFormsFacts
       ProfilesFacts.

Lemma lstrip_len (s : string) : Py.len (Py.lstrip s) <= Py.len s.
Proof.
  unfold Py.len. induction s as [|c s IH]; cbn [Py.lstrip]; [lia|].
  destruct (Py.isspace c); cbn [String.length]; lia.
Qed.

Lemma rstrip_len (s : string) : Py.len (Py.rstrip s) <= Py.len s.
Proof.
  unfold Py.len. induction s as [|c s IH]; cbn [Py.rstrip]; [lia|].
  destruct (Py.rstrip s) as [|d r].
  - destruct (Py.isspace c); cbn [String.length] in *; lia.
  - cbn [String.length] in *. lia.
Qed.

(** [strip] never makes a string longer. *)
Lemma strip_len (s : string) : Py.len (Py.strip s) <= Py.len s.
Proof.
  unfold Py.strip. pose proof (rstrip_len (Py.lstrip s)). pose proof (lstrip_len s). lia.
Qed.

Lemma nonempty_len (s : string) : s <> "" -> 1 <= Py.len s.
Proof.
  destruct s; [intros N; now elim N|]. intros _. unfold Py.len. cbn [String.length]. lia.
Qed.

(** The row built from a submission that obeys the static rules. *)
Lemma cleaned_row_ok `{Library} (fd : formdata) (i : Z) :
  Spec.profile_rules fd ->
  More.profiles_row_ok
    {| id := i; username := cleaned (f_username fd);
       full_name := cleaned (f_full_name fd); email := cleaned (f_email fd);
       age := int_data (f_age fd); bio := Some (cleaned (f_bio fd)) |}.
Proof.
  intros ((u & Eu & Nu & Lu) & (f & Ef & Nf & Lf) & (e & Ee & Ne & _ & Le)
          & (n & En & Bn) & Lb).
  unfold More.profiles_row_ok, cleaned.
  cbn [username full_name email age bio]. rewrite Eu, Ef, Ee, En.
  cbn [Py.or_empty int_data].
  pose proof (strip_len u). pose proof (strip_len f). pose proof (strip_len e).
  pose proof (strip_len (Py.or_empty (f_bio fd))).
  pose proof (nonempty_len _ Nu). pose proof (nonempty_len _ Nf).
  pose proof (nonempty_len _ Ne).
  split; [lia|]. split; [apply PyFacts.strip_trimmed|].
  split; [lia|]. split; [apply PyFacts.strip_trimmed|].
  split; [lia|]. split; [apply PyFacts.strip_trimmed|].
  split.
  - exists n. split; [reflexivity | exact Bn].
  - eexists. split; [reflexivity|]. split; [lia | apply PyFacts.strip_trimmed].
Qed.

Section WithLibrary.
Context `{Library}.

Lemma profiles_handle_rows_ok (rt : route) (snapshot t : db) (req : request) :
  Forall More.profiles_row_ok (rows t) ->
  Forall More.profiles_row_ok (rows (fst (handle rt snapshot t req))).
Proof.
  intros Ok. destruct rt; cbn [handle].
  - destruct (method req); exact Ok.
  - unfold register. destruct (validate_on_submit _ _) eqn:V; [|exact Ok].
    apply profile_valid in V as (_ & _ & Rules).
    unfold sql_insert.
    destruct (insert _ t) as [t'|] eqn:I; [|exact Ok].
    apply insert_done in I as [_ ->]. cbn [fst rows].
    apply Forall_app. split; [exact Ok|]. constructor; [|constructor].
    apply (cleaned_row_ok (form req) (next_rowid t) Rules).
  - destruct (int_converter user_id); [|exact Ok].
    unfold profile, get_only, no_such_row. destruct (method req); [|exact Ok].
    destruct (fetchone _ t); [|destruct (binds _)]; exact Ok.
  - destruct (int_converter user_id); [|exact Ok].
    unfold update, no_such_row.
    destruct (fetchone _ snapshot); [|destruct (binds _); exact Ok].
    destruct (method req) eqn:M; [exact Ok|].
    destruct (validate_on_submit _ _) eqn:V; [|exact Ok].
    assert (V' : validate_on_submit (method req) (profile_errors req) = true)
      by (rewrite M; exact V).
    apply profile_valid in V' as (_ & _ & Rules).
    destruct (sql_update _ _ _ _ _ _ t) as [t'|] eqn:U; [|exact Ok].
    apply update_done in U as [[_ ->]|(r0 & _ & _ & ->)]; [exact Ok|].
    cbn [fst rows]. rewrite Forall_forall in *. intros x Hx.
    apply in_map_iff in Hx as (o & <- & Ho).
    destruct (has_id user_id o); [|auto].
    apply (cleaned_row_ok (form req) (id o) Rules).
Qed.

Lemma seed_rows_ok : Forall More.profiles_row_ok (rows (seed init_db)).
Proof.
  assert (Ok : forall i u f e n b,
             1 <= Py.len u <= 30 -> Py.trimmed u = true ->
             1 <= Py.len f <= 100 -> Py.trimmed f = true ->
             1 <= Py.len e <= 120 -> Py.trimmed e = true ->
             0 <= n <= 120 -> Py.len b <= 500 -> Py.trimmed b = true ->
             More.profiles_row_ok
               {| id := i; username := u; full_name := f; email := e;
                  age := Some n; bio := Some b |}).
  { intros. unfold More.profiles_row_ok. cbn.
    repeat (split; [assumption|]). split; eauto. }
  assert (E : rows (seed init_db)
              = [ {| id := 1; username := "jdoe"; full_name := "John Doe";
                     email := "jdoe@example.com"; age := Some 34;
                     bio := Some "A short bio about John." |};
                  {| id := 2; username := "asmith"; full_name := "Alice Smith";
                     email := "alice@example.com"; age := Some 28;
                     bio := Some "Alice loves coding and coffee." |} ])
    by (vm_compute; reflexivity).
  rewrite E.
  repeat constructor; apply Ok; vm_compute; try reflexivity;
    try (split; discriminate); discriminate.
Qed.

Lemma profiles_reachable_rows_ok (t : db) : reachable t -> Forall More.profiles_row_ok (rows t).
Proof.
  induction 1 as [| |t t' R IH S].
  - constructor.
  - apply seed_rows_ok.
  - destruct S. now apply profiles_handle_rows_ok.
Qed.

Lemma profiles_handle_increasing (rt : route) (snapshot t : db) (req : request) :
  More.increasing (map id (rows t)) ->
  More.increasing (map id (rows (fst (handle rt snapshot t req)))).
Proof.
  intros Inc. destruct rt; cbn [handle].
  - destruct (method req); exact Inc.
  - unfold register. destruct (validate_on_submit _ _); [|exact Inc].
    destruct (sql_insert _ _ _ _ _ t) as [t'|] eqn:I; [|exact Inc].
    exact (insert_increasing _ _ _ Inc I).
  - destruct (int_converter user_id); [|exact Inc].
    unfold profile, get_only, no_such_row. destruct (method req); [|exact Inc].
    destruct (fetchone _ t); [|destruct (binds _)]; exact Inc.
  - destruct (int_converter user_id); [|exact Inc].
    unfold update, no_such_row.
    destruct (fetchone _ snapshot); [|destruct (binds _); exact Inc].
    destruct (method req); [exact Inc|].
    destruct (validate_on_submit _ _); [|exact Inc].
    destruct (sql_update _ _ _ _ _ _ t) as [t'|] eqn:U; [|exact Inc].
    unfold sql_update in U. cbn [fst].
    refine (update_increasing _ _ _ _ _ Inc U). reflexivity.
Qed.

Lemma profiles_reachable_increasing (t : db) : reachable t -> More.increasing (map id (rows t)).
Proof.
  induction 1 as [| |t t' R IH S].
  - exact I.
  - vm_compute. repeat constructor.
  - destruct S. now apply profiles_handle_increasing.
Qed.

Lemma index_lists_ids (t : db) :
  More.listed_ids (index t) = rev (map id (rows t)).
Proof.
  unfold index, More.listed_ids. rewrite <- map_rev.
  induction (rev (rows t)) as [|a l IH]; cbn; [reflexivity|]. now rewrite IH.
Qed.

End WithLibrary.
End MoreProfilesFacts.

(** X9. Every row of every table src/flask_user_profiles_app.py can reach
    (from the empty or the seeded table) holds a username of 1 to 30
    characters, a full name of 1 to 100 and an email of 1 to 120, each
    without whitespace at either end, an age that is present and between 0
    and 120, and a bio that is a string of at most 500 characters, never
    NULL. The lower bounds are 1, not the 3 and 2 of the form: the lengths
    are checked before [strip], the stripped strings are stored. *)
Theorem profiles_stored_rows_obey_rules `{Library} (t : Profiles.db) :
  Profiles.reachable t -> Forall profiles_row_ok (rows t).
Proof. apply MoreProfilesFacts.profiles_reachable_rows_ok. Qed.

(** Dave registers in the seeded table as [" dave "]. *)
Lemma profiles_stored_rows_obey_rules_witness :
  let t' := fst (Profiles.handle (H := Sample.library) Profiles.Register
                   Scenario.seeded Scenario.seeded
                   (Scenario.profiles_post Scenario.dave)) in
  Profiles.reachable (H := Sample.library) t' /\ Forall profiles_row_ok (rows t').
Proof.
  intros t'.
  assert (R : Profiles.reachable (H := Sample.library) t').
  { apply (Profiles.reach_step Scenario.seeded); [apply Profiles.reach_seed|].
    apply (Profiles.step_handle Profiles.Register Scenario.seeded Scenario.seeded
             (Scenario.profiles_post Scenario.dave)). }
  split; [exact R|].
  exact (profiles_stored_rows_obey_rules (H := Sample.library) t' R).
Defined.

(** X10. In every table src/flask_user_profiles_app.py can reach, the
    rows stand in strictly increasing order of id, so the listing of
    [index] (the rows in reverse) shows every row of the table exactly
    once in strictly decreasing order of id, newest first, as its
    [ORDER BY id DESC] asks. *)
Theorem profiles_index_newest_first `{Library} (t : Profiles.db) :
  Profiles.reachable t ->
  increasing (map Profiles.id (rows t)) /\
  listed_ids (Profiles.index t) = rev (map Profiles.id (rows t)) /\
  decreasing (listed_ids (Profiles.index t)).
Proof.
  intros R. pose proof (MoreProfilesFacts.profiles_reachable_increasing t R) as Inc.
  split; [exact Inc|].
  rewrite MoreProfilesFacts.index_lists_ids. split; [reflexivity|].
  now apply MoreSqliteFacts.decreasing_rev.
Qed.

(** The seeded table: ids 1 and 2, listed as 2 then 1. *)
Lemma profiles_index_newest_first_witness :
  Profiles.reachable (H := Sample.library) Scenario.seeded /\
  increasing (map Profiles.id (rows Scenario.seeded)) /\
  listed_ids (Profiles.index Scenario.seeded)
  = rev (map Profiles.id (rows Scenario.seeded)) /\
  decreasing (listed_ids (Profiles.index Scenario.seeded)).
Proof.
  assert (R : Profiles.reachable (H := Sample.library) Scenario.seeded)
    by apply Profiles.reach_seed.
  split; [exact R|].
  exact (profiles_index_newest_first (H := Sample.library) Scenario.seeded R).
Defined.

(** X11. In src/flask_user_profiles_app.py, right after a registration
    is saved, the SELECT by the new id finds the row just stored (the
    stripped fields), the update form of the new id opened by GET is
    loaded with that row and shows no error, and the listing of [index] is
    the listing of before with the new row put in front. *)
Theorem profiles_register_then_lookup `{Library}
        (t t' : Profiles.db) (req : Profiles.request) :
  Profiles.register t req = (t', Saved) ->
  exists r shown,
    Spec.stored_stripped (Profiles.form req) r /\
    Profiles.age r = int_data (Profiles.f_age (Profiles.form req)) /\
    seq t < Profiles.id r /\
    fetchone (has_id (Profiles.id r)) t' = Some r /\
    (forall get, Profiles.method get = GET ->
                 Profiles.update t' t' (Profiles.id r) get
                 = (t', FormPage [] (Profiles.all_columns r))) /\
    Profiles.index t = Page shown /\
    Profiles.index t'
    = Page ([ Int (Profiles.id r); Text (Profiles.username r);
              Text (Profiles.full_name r); Text (Profiles.email r) ] :: shown).
Proof.
  intros R. unfold Profiles.register in R.
  destruct (validate_on_submit _ _); [|discriminate].
  unfold Profiles.sql_insert in R.
  destruct (insert _ t) as [t1|] eqn:I; [|discriminate].
  injection R as <-.
  pose proof (MoreSqliteFacts.insert_fetch_new _ _ _ I) as F.
  apply SqliteFacts.insert_done in I as [_ ->].
  destruct (SqliteFacts.next_rowid_fresh t) as [Fs _].
  match type of F with _ = Some ?x => exists x; set (r := x) in * end.
  eexists.
  assert (E : Profiles.id r = next_rowid t) by reflexivity.
  split.
  { unfold Spec.stored_stripped, Profiles.cleaned. cbn.
    repeat split; apply PyFacts.strip_trimmed. }
  split; [reflexivity|]. split; [rewrite E; exact Fs|]. split.
  { rewrite E. exact F. }
  split.
  { intros get G. unfold Profiles.update. rewrite E, F, G. reflexivity. }
  split; [reflexivity|].
  unfold Profiles.index. cbn [rows]. rewrite rev_app_distr. reflexivity.
Qed.

(** Dave registers in the seeded table and becomes row 3. *)
Lemma profiles_register_then_lookup_witness :
  let done := Profiles.register (H := Sample.library) Scenario.seeded
                (Scenario.profiles_post Scenario.dave) in
  done = (fst done, Saved) /\
  exists r shown,
    Spec.stored_stripped Scenario.dave r /\
    Profiles.age r = Some 0 /\
    seq Scenario.seeded < Profiles.id r /\
    fetchone (has_id (Profiles.id r)) (fst done) = Some r /\
    (forall get, Profiles.method get = GET ->
                 Profiles.update (H := Sample.library) (fst done) (fst done)
                   (Profiles.id r) get
                 = (fst done, FormPage [] (Profiles.all_columns r))) /\
    Profiles.index Scenario.seeded = Page shown /\
    Profiles.index (fst done)
    = Page ([ Int (Profiles.id r); Text (Profiles.username r);
              Text (Profiles.full_name r); Text (Profiles.email r) ] :: shown).
Proof.
  intros done.
  assert (D : done = (fst done, Saved)) by (vm_compute; reflexivity).
  split; [exact D|].
  exact (profiles_register_then_lookup (H := Sample.library) Scenario.seeded
           (fst done) (Scenario.profiles_post Scenario.dave) D).
Defined.

Module MoreProfilesViews.
Import WTForms Sqlite Flask Profiles SqliteFacts MoreSqliteFacts ProfilesFacts.

Section WithLibrary.
Context `{Library}.

(** One request: every row stays where it is under the same id; a row the
    view is not an update of stays as it is altogether. *)
Lemma profiles_handle_place (rt : route) (snapshot t : db) (req : request)
      (k : nat) (o : user) :
  nth_error (rows t) k = Some o ->
  exists o', nth_error (rows (fst (handle rt snapshot t req))) k = Some o' /\
             id o' = id o /\ (More.target_row rt o = false -> o' = o).
Proof.
  intros N.
  assert (Same : exists o', nth_error (rows t) k = Some o' /\ id o' = id o /\
                            (More.target_row rt o = false -> o' = o)) by eauto.
  destruct rt; cbn [handle].
  - destruct (method req); exact Same.
  - unfold register. destruct (validate_on_submit _ _); [|exact Same].
    destruct (sql_insert _ _ _ _ _ t) as [t'|] eqn:I; [|exact Same].
    exists o. split; [|auto]. exact (insert_keeps_place _ _ _ _ _ I N).
  - destruct (int_converter user_id); [|exact Same].
    unfold profile, get_only, no_such_row. destruct (method req); [|exact Same].
    destruct (fetchone _ t); [|destruct (binds _)]; exact Same.
  - destruct (int_converter user_id); [|exact Same].
    unfold update, no_such_row.
    destruct (fetchone _ snapshot); [|destruct (binds _); exact Same].
    destruct (method req); [exact Same|].
    destruct (validate_on_submit _ _); [|exact Same].
    destruct (sql_update _ _ _ _ _ _ t) as [t'|] eqn:U; [|exact Same].
    pose proof (update_at_place _ _ _ _ _ _ U N) as P. cbn [fst More.target_row].
    destruct (has_id user_id o).
    + eexists. split; [exact P|]. split; [reflexivity | discriminate].
    + exists o. auto.
Qed.

(** Saving the values a row already holds writes the row back as it is. *)
Lemma set_profile_same (r : user) (n : Z) (b : string) :
  Py.trimmed (username r) = true -> Py.trimmed (full_name r) = true ->
  Py.trimmed (email r) = true -> age r = Some n -> bio r = Some b ->
  Py.trimmed b = true ->
  set_profile (cleaned (f_username (More.as_loaded r)))
              (cleaned (f_full_name (More.as_loaded r)))
              (cleaned (f_email (More.as_loaded r)))
              (int_data (f_age (More.as_loaded r)))
              (Some (cleaned (f_bio (More.as_loaded r)))) r = r.
Proof.
  intros Tu Tf Te En Eb Tb. destruct r as [i u f e a bo].
  cbn [username full_name email age bio] in *. subst a bo.
  unfold set_profile, cleaned, More.as_loaded.
  cbn [f_username f_full_name f_email f_age f_bio username full_name email
       age bio id Py.or_empty int_data].
  now rewrite !PyFacts.strip_fixed by assumption.
Qed.

End WithLibrary.
End MoreProfilesViews.

(** X12. In src/flask_user_profiles_app.py, for a row of a reachable
    table: GET on its update page loads the form with exactly the stored
    columns and changes nothing; sending those values back unchanged
    leaves the table exactly as it was and is never answered with the
    conflict branch; it is answered as saved whenever the stored values
    pass the form's rules. *)
Theorem profiles_reload_and_save_changes_nothing `{Library}
        (t : Profiles.db) (uid : Z) (r : Profiles.user) :
  Profiles.reachable t -> fetchone (has_id uid) t = Some r ->
  let back := Scenario.profiles_post (as_loaded r) in
  Profiles.update t t uid profiles_get
  = (t, FormPage [] (Profiles.all_columns r)) /\
  fst (Profiles.update t t uid back) = t /\
  snd (Profiles.update t t uid back) <> Conflict /\
  (validate_on_submit POST (Profiles.profile_errors back) = true ->
   Profiles.update t t uid back = (t, Saved)).
Proof.
  intros R F back.
  pose proof (ProfilesFacts.profiles_reachable_wf t R) as W.
  pose proof (MoreProfilesFacts.profiles_reachable_rows_ok t R) as Ok.
  pose proof F as F'. apply find_some in F' as [Hr Pr].
  rewrite Forall_forall in Ok.
  destruct (Ok r Hr) as (_ & Tu & _ & Tf & _ & Te & (n & En & _) & (b & Eb & _ & Tb)).
  pose proof (MoreProfilesViews.set_profile_same r n b Tu Tf Te En Eb Tb) as Same.
  assert (U : Profiles.sql_update
                (Profiles.cleaned (Profiles.f_username (as_loaded r)))
                (Profiles.cleaned (Profiles.f_full_name (as_loaded r)))
                (Profiles.cleaned (Profiles.f_email (as_loaded r)))
                (int_data (Profiles.f_age (as_loaded r)))
                (Some (Profiles.cleaned (Profiles.f_bio (as_loaded r)))) uid t
              = Done t).
  { unfold Profiles.sql_update.
    destruct (SqliteFacts.update_keeping_keys uid _ t r W F
                (f_equal Profiles.username Same) (f_equal Profiles.email Same))
      as [t' U].
    rewrite U. f_equal.
    apply SqliteFacts.update_done in U as [[_ ->]|(r0 & F0 & _ & ->)];
      [reflexivity|].
    destruct t as [l sq]. cbn [rows seq] in *. f_equal.
    rewrite <- (map_id l) at 2. apply map_ext_in. intros o Ho.
    destruct (has_id uid o) eqn:Po; [|reflexivity].
    assert (o = r) by (eapply SqliteFacts.has_id_unique; eauto; apply W).
    subst o. exact Same. }
  unfold Profiles.update. rewrite F. cbn [Profiles.method profiles_get].
  split; [reflexivity|].
  cbn [Profiles.method back Scenario.profiles_post Profiles.form].
  destruct (validate_on_submit POST _).
  - rewrite U. cbn. split; [reflexivity|]. split; [discriminate|].
    intros _. reflexivity.
  - cbn. split; [reflexivity|]. split; discriminate.
Qed.

(** John Doe's row in the seeded table, loaded and sent back. *)
Lemma profiles_reload_and_save_changes_nothing_witness :
  let jdoe := {| Profiles.id := 1; Profiles.username := "jdoe";
                 Profiles.full_name := "John Doe";
                 Profiles.email := "jdoe@example.com"; Profiles.age := Some 34;
                 Profiles.bio := Some "A short bio about John." |} in
  let back := Scenario.profiles_post (as_loaded jdoe) in
  Profiles.reachable (H := Sample.library) Scenario.seeded /\
  fetchone (has_id 1) Scenario.seeded = Some jdoe /\
  validate_on_submit POST (Profiles.profile_errors (H := Sample.library) back) = true /\
  Profiles.update (H := Sample.library) Scenario.seeded Scenario.seeded 1 back
  = (Scenario.seeded, Saved).
Proof.
  intros jdoe back.
  assert (R : Profiles.reachable (H := Sample.library) Scenario.seeded)
    by apply Profiles.reach_seed.
  assert (F : fetchone (has_id 1) Scenario.seeded = Some jdoe)
    by (vm_compute; reflexivity).
  assert (V : validate_on_submit POST
                (Profiles.profile_errors (H := Sample.library) back) = true)
    by (vm_compute; reflexivity).
  split; [exact R|]. split; [exact F|]. split; [exact V|].
  destruct (profiles_reload_and_save_changes_nothing (H := Sample.library)
              Scenario.seeded 1 jdoe R F) as (_ & _ & _ & S).
  exact (S V).
Defined.

(** X13. In src/flask_user_profiles_app.py no request removes or moves a
    row or changes its id, and the only row a request can change is the
    one whose id is in the URL of [update]: every other row is found
    afterwards at the same place with every column as it was. *)
Theorem profiles_update_touches_one_row `{Library}
        (rt : Profiles.route) (snapshot t : Profiles.db) (req : Profiles.request)
        (k : nat) (o : Profiles.user) :
  nth_error (rows t) k = Some o ->
  exists o', nth_error (rows (fst (Profiles.handle rt snapshot t req))) k = Some o' /\
             Profiles.id o' = Profiles.id o /\
             (target_row rt o = false -> o' = o).
Proof. apply MoreProfilesViews.profiles_handle_place. Qed.

(** John Doe's form is saved with new values; Alice Smith's row, second
    in the seeded table, stays. *)
Lemma profiles_update_touches_one_row_witness :
  let asmith := {| Profiles.id := 2; Profiles.username := "asmith";
                   Profiles.full_name := "Alice Smith";
                   Profiles.email := "alice@example.com"; Profiles.age := Some 28;
                   Profiles.bio := Some "Alice loves coding and coffee." |} in
  nth_error (rows Scenario.seeded) 1 = Some asmith /\
  exists o', nth_error (rows (fst (Profiles.handle (H := Sample.library)
                                     (Profiles.Update 1) Scenario.seeded
                                     Scenario.seeded
                                     (Scenario.profiles_post Scenario.jdoe_keeps_email))))
                       1 = Some o' /\
             Profiles.id o' = 2 /\
             (target_row (Profiles.Update 1) asmith = false -> o' = asmith).
Proof.
  intros asmith.
  assert (N : nth_error (rows Scenario.seeded) 1 = Some asmith)
    by (vm_compute; reflexivity).
  split; [exact N|].
  exact (profiles_update_touches_one_row (H := Sample.library) (Profiles.Update 1)
           Scenario.seeded Scenario.seeded
           (Scenario.profiles_post Scenario.jdoe_keeps_email) 1 asmith N).
Defined.

(** X14. What src/flask_user_profiles_app.py answers to the id in the
    path of [/profile/<id>] and [/update/<id>].  A negative number matches
    no rule of the URL map (404) and no view runs.  An id that no row has
    and that fits 64 bits is answered "User not found" by [profile] and by
    [update] (before the form is even looked at), the table untouched.  An
    id that no row has and that is 2^63 or more cannot be bound by
    [sqlite3]: the SELECT raises and the exception leaves both views.  For
    the id of a row of a table that satisfies the constraints, GET on
    [update] loads the form with that row, all six columns, and shows no
    error, while [profile] never shows the row: rendering
    [PROFILE_TEMPLATE] raises and the exception leaves the view. *)
Theorem profiles_lookup_by_id `{Library} :
  (forall snapshot t uid req,
      uid < 0 ->
      Profiles.handle (Profiles.Profile uid) snapshot t req = (t, NoSuchPage) /\
      Profiles.handle (Profiles.Update uid) snapshot t req = (t, NoSuchPage)) /\
  (forall snapshot t uid req,
      ~ In uid (map Profiles.id (rows snapshot)) ->
      - 2 ^ 63 <= uid < 2 ^ 63 ->
      Profiles.profile snapshot uid = (snapshot, NotFound) /\
      Profiles.update snapshot t uid req = (t, NotFound)) /\
  (forall snapshot t uid req,
      ~ In uid (map Profiles.id (rows snapshot)) ->
      2 ^ 63 <= uid ->
      Profiles.profile snapshot uid = (snapshot, ServerError) /\
      Profiles.update snapshot t uid req = (t, ServerError)) /\
  (forall t r req,
      wf t -> In r (rows t) -> Profiles.method req = GET ->
      Profiles.update t t (Profiles.id r) req
      = (t, FormPage [] (Profiles.all_columns r)) /\
      Profiles.profile t (Profiles.id r) = (t, ServerError)).
Proof.
  repeat apply conj.
  - intros snapshot t uid req Neg. cbn [Profiles.handle].
    unfold int_converter. destruct (Z.leb_spec 0 uid); [lia|]. split; reflexivity.
  - intros snapshot t uid req N B.
    assert (F : fetchone (has_id uid) snapshot = None)
      by (apply MoreSqliteFacts.fetchone_absent; exact N).
    assert (Bi : binds uid = true).
    { unfold binds. apply andb_true_iff. split; apply Z.leb_le; lia. }
    unfold Profiles.profile, Profiles.update, Profiles.no_such_row.
    rewrite F, Bi. split; reflexivity.
  - intros snapshot t uid req N B.
    assert (F : fetchone (has_id uid) snapshot = None)
      by (apply MoreSqliteFacts.fetchone_absent; exact N).
    assert (Bi : binds uid = false).
    { unfold binds. apply andb_false_iff. right. apply Z.leb_gt. lia. }
    unfold Profiles.profile, Profiles.update, Profiles.no_such_row.
    rewrite F, Bi. split; reflexivity.
  - intros t r req W Hr M.
    pose proof (MoreSqliteFacts.fetchone_by_id t r W Hr) as F.
    change (row_id r) with (Profiles.id r) in F.
    unfold Profiles.profile, Profiles.update. rewrite F, M. split; reflexivity.
Qed.

(** Id 7 is not in the seeded table, nor is 2^63; id 2 is Alice Smith's. *)
Lemma profiles_lookup_by_id_witness :
  let asmith := {| Profiles.id := 2; Profiles.username := "asmith";
                   Profiles.full_name := "Alice Smith";
                   Profiles.email := "alice@example.com"; Profiles.age := Some 28;
                   Profiles.bio := Some "Alice loves coding and coffee." |} in
  let post := Scenario.profiles_post Scenario.jdoe_keeps_email in
  Profiles.handle (H := Sample.library) (Profiles.Profile (-1)) Scenario.seeded
    Scenario.seeded profiles_get = (Scenario.seeded, NoSuchPage) /\
  (~ In 7 (map Profiles.id (rows Scenario.seeded)) /\
   Profiles.update (H := Sample.library) Scenario.seeded Scenario.seeded 7 post
   = (Scenario.seeded, NotFound)) /\
  (~ In (2 ^ 63) (map Profiles.id (rows Scenario.seeded)) /\
   Profiles.profile Scenario.seeded (2 ^ 63) = (Scenario.seeded, ServerError)) /\
  (wf Scenario.seeded /\ In asmith (rows Scenario.seeded) /\
   Profiles.update (H := Sample.library) Scenario.seeded Scenario.seeded 2 profiles_get
   = (Scenario.seeded, FormPage [] (Profiles.all_columns asmith)) /\
   Profiles.profile Scenario.seeded 2 = (Scenario.seeded, ServerError)).
Proof.
  intros asmith post.
  pose proof (profiles_lookup_by_id (H := Sample.library)) as (Neg & Miss & Big & Hit).
  assert (N : ~ In 7 (map Profiles.id (rows Scenario.seeded))).
  { vm_compute. intros [E|[E|[]]]; discriminate E. }
  assert (N' : ~ In (2 ^ 63) (map Profiles.id (rows Scenario.seeded))).
  { vm_compute. intros [E|[E|[]]]; discriminate E. }
  assert (W : wf Scenario.seeded) by apply ProfilesFacts.seed_wf.
  assert (Hin : In asmith (rows Scenario.seeded)) by (right; left; reflexivity).
  split.
  { exact (proj1 (Neg Scenario.seeded Scenario.seeded (-1) profiles_get
                      ltac:(lia))). }
  split.
  { split; [exact N|].
    exact (proj2 (Miss Scenario.seeded Scenario.seeded 7 post N ltac:(lia))). }
  split.
  { split; [exact N'|].
    exact (proj1 (Big Scenario.seeded Scenario.seeded (2 ^ 63) post N' ltac:(lia))). }
  split; [exact W|]. split; [exact Hin|].
  exact (Hit Scenario.seeded asmith profiles_get W Hin eq_refl).
Defined.



(** X16. The start-up block of src/flask_user_profiles_app.py puts its
    two sample users into a table without rows, both INSERTs succeeding,
    and leaves a table that has rows as it is; run again (a restart) it
    changes nothing. *)
Theorem seed_runs_once (t : Profiles.db) :
  Profiles.seed (Profiles.seed t) = Profiles.seed t /\
  (rows t <> [] -> Profiles.seed t = t) /\
  (rows t = [] ->
   map Profiles.username (rows (Profiles.seed t)) = ["jdoe"; "asmith"] /\
   map Profiles.email (rows (Profiles.seed t))
   = ["jdoe@example.com"; "alice@example.com"] /\
   Forall (fun r => seq t < Profiles.id r) (rows (Profiles.seed t))).
Proof.
  destruct t as [l sq]. destruct l as [|a l].
  - assert (E : exists r1 r2 sq',
               Profiles.seed {| rows := []; seq := sq |}
               = {| rows := [r1; r2]; seq := sq' |} /\
               Profiles.username r1 = "jdoe" /\ Profiles.username r2 = "asmith" /\
               Profiles.email r1 = "jdoe@example.com" /\
               Profiles.email r2 = "alice@example.com" /\
               sq < Profiles.id r1 /\ sq < Profiles.id r2).
    { unfold Profiles.seed, Profiles.sql_insert, insert, next_rowid.
      cbn -[Z.max Z.add]. do 3 eexists. split; [reflexivity|].
      cbn -[Z.max Z.add]. repeat split; lia. }
    destruct E as (r1 & r2 & sq' & -> & U1 & U2 & E1 & E2 & I1 & I2).
    split; [reflexivity|]. split; [intros N; now elim N|].
    intros _. cbn [rows map seq]. rewrite U1, U2, E1, E2.
    repeat split. repeat constructor; assumption.
  - split; [reflexivity|]. split; [reflexivity|]. intros E. discriminate E.
Qed.

(** The table without rows, and the seeded table (which has rows). *)
Lemma seed_runs_once_witness :
  (rows Profiles.init_db = [] /\
   map Profiles.username (rows (Profiles.seed Profiles.init_db)) = ["jdoe"; "asmith"]) /\
  (rows Scenario.seeded <> [] /\ Profiles.seed Scenario.seeded = Scenario.seeded).
Proof.
  split.
  - split; [reflexivity|].
    exact (proj1 (proj2 (proj2 (seed_runs_once Profiles.init_db)) eq_refl)).
  - assert (N : rows Scenario.seeded <> []) by (vm_compute; discriminate).
    split; [exact N|].
    exact (proj1 (proj2 (seed_runs_once Scenario.seeded)) N).
Defined.

(** X17. In src/flask_user_profiles_app.py a registration is answered as
    saved exactly when it is a POST with a valid CSRF token whose fields
    obey the static rules and whose stripped username and stripped email
    are those of no row in the table; uniqueness is thus decided on the
    stripped values, by the table alone. *)
Theorem profiles_register_saved_iff `{Library}
        (t : Profiles.db) (req : Profiles.request) :
  snd (Profiles.register t req) = Saved <->
  Profiles.method req = POST /\ Profiles.csrf_token_ok req = true /\
  Spec.profile_rules (Profiles.form req) /\
  (forall o, In o (rows t) ->
             Profiles.username o
             <> Profiles.cleaned (Profiles.f_username (Profiles.form req)) /\
             Profiles.email o
             <> Profiles.cleaned (Profiles.f_email (Profiles.form req))).
Proof.
  unfold Profiles.register, Profiles.sql_insert.
  destruct (validate_on_submit _ _) eqn:V.
  - apply ProfilesFacts.profile_valid in V as (M & C & Rules).
    destruct (insert _ t) as [t'|] eqn:I.
    + apply SqliteFacts.insert_done in I as [Free _].
      rewrite SqliteFacts.existsb_false in Free.
      split; [intros _ | reflexivity]. repeat (split; [assumption|]).
      intros o Ho. apply Free, SqliteFacts.clash_false in Ho. cbn in Ho.
      destruct Ho. split; congruence.
    + split; [discriminate|]. intros (_ & _ & _ & Free). exfalso.
      apply SqliteFacts.insert_refused, existsb_exists in I as (o & Ho & Cl).
      apply SqliteFacts.clash_true in Cl. cbn in Cl.
      destruct (Free o Ho) as [Du De]. destruct Cl; congruence.
  - split; [discriminate|]. intros (M & C & Rules & _).
    assert (V' : validate_on_submit (Profiles.method req)
                   (Profiles.profile_errors req) = true)
      by (apply ProfilesFacts.profile_valid; auto).
    congruence.
Qed.

(** Dave registers in the seeded table: his stripped username and email
    are nobody's. *)
Lemma profiles_register_saved_iff_witness :
  (Profiles.method (Scenario.profiles_post Scenario.dave) = POST /\
   Profiles.csrf_token_ok (Scenario.profiles_post Scenario.dave) = true /\
   Spec.profile_rules (H := Sample.library) Scenario.dave /\
   (forall o, In o (rows Scenario.seeded) ->
              Profiles.username o <> "dave" /\
              Profiles.email o <> "dave@example.org")) /\
  snd (Profiles.register (H := Sample.library) Scenario.seeded
         (Scenario.profiles_post Scenario.dave)) = Saved.
Proof.
  assert (Rules : Spec.profile_rules (H := Sample.library) Scenario.dave).
  { unfold Spec.profile_rules. split; [|split; [|split; [|split]]].
    - exists " dave ". repeat split; vm_compute; discriminate.
    - exists "Dave Dee ". repeat split; vm_compute; discriminate.
    - exists "dave@example.org".
      repeat split; vm_compute; try discriminate; reflexivity.
    - exists 0. repeat split; lia.
    - vm_compute. discriminate. }
  assert (Free : forall o, In o (rows Scenario.seeded) ->
                           Profiles.username o <> "dave" /\
                           Profiles.email o <> "dave@example.org").
  { intros o [<-|[<-|[]]]; split; vm_compute; discriminate. }
  assert (Pre : Profiles.method (Scenario.profiles_post Scenario.dave) = POST /\
                Profiles.csrf_token_ok (Scenario.profiles_post Scenario.dave) = true /\
                Spec.profile_rules (H := Sample.library) Scenario.dave /\
                (forall o, In o (rows Scenario.seeded) ->
                           Profiles.username o <> "dave" /\
                           Profiles.email o <> "dave@example.org")).
  { split; [reflexivity|]. split; [reflexivity|]. split; [exact Rules | exact Free]. }
  split; [exact Pre|].
  exact (proj2 (profiles_register_saved_iff (H := Sample.library) Scenario.seeded
                  (Scenario.profiles_post Scenario.dave)) Pre).
Defined.

(** ** src/app.py: what the password column holds *)

(** X18. In src/app.py a registration is saved only when a password was
    submitted that is not blank and has at least 6 characters. The row it
    appends holds in its password column the string
    [generate_password_hash] returns: the method tag [scrypt:32768:8:1],
    the salt drawn for this call and the digest werkzeug computes from
    salt and password, joined by [$]. Every other column comes from
    another field, the clock or AUTOINCREMENT. The table depends on the
    password through the digest alone: another acceptable password with
    the same digest under the same salt leaves the same table, session
    and answer. What the digest is, and that it cannot be inverted, is
    werkzeug's matter and is not stated here. *)
Theorem registration_stores_hash_string `{Library} :
  (forall snapshot t s req t' s',
      Auth.register snapshot t s req = (t', s', Saved) ->
      exists u e p f n,
        Auth.f_password (Auth.form req) = Some p /\
        Py.strip p <> "" /\ 6 <= Py.len p /\
        Auth.f_username (Auth.form req) = Some u /\
        Auth.f_email (Auth.form req) = Some e /\
        Auth.f_full_name (Auth.form req) = Some f /\
        Auth.f_age (Auth.form req) = IntValue n /\
        rows t' =
          (rows t ++
           [Spec.auth_row (next_rowid t) u e
              ("scrypt:32768:8:1" ++ "$" ++ Auth.salt req ++ "$"
               ++ hash_internal (Auth.salt req) p)%string
              f (Some n)
              (Py.or_none (Auth.f_bio (Auth.form req))) (Auth.now req)])%list) /\
  (forall snapshot t s req t' s' p p',
      Auth.register snapshot t s req = (t', s', Saved) ->
      Auth.f_password (Auth.form req) = Some p ->
      Py.strip p' <> "" -> 6 <= Py.len p' ->
      hash_internal (Auth.salt req) p' = hash_internal (Auth.salt req) p ->
      Auth.register snapshot t s (Spec.with_password p' req) = (t', s', Saved)).
Proof.
  split.
  - intros snapshot t s req t' s' R.
    pose proof (AuthFacts.register_saved_valid _ _ _ _ _ _ R) as V.
    destruct (AuthFacts.register_valid_eq snapshot t s req V)
      as (u & e & p & f & n & Eu & Ee & Ep & Ef & En & Q).
    apply AuthFacts.registration_valid in V
      as (_ & _ & _ & _ & (p0 & Ep0 & Np & Lp) & _).
    rewrite Ep in Ep0. injection Ep0 as <-.
    rewrite Q in R. destruct (insert _ t) as [t1|] eqn:I; [|discriminate].
    injection R as <- _. apply SqliteFacts.insert_done in I as [_ ->].
    exists u, e, p, f, n. repeat (split; [assumption|]). reflexivity.
  - intros snapshot t s req t' s' p p' R Ep Np' Lp' Same.
    pose proof (AuthFacts.register_saved_valid _ _ _ _ _ _ R) as V.
    assert (V' : validate_on_submit (Auth.method (Spec.with_password p' req))
                   (Auth.registration_errors snapshot (Spec.with_password p' req))
                 = true).
    { apply AuthFacts.registration_valid.
      apply AuthFacts.registration_valid in V
        as (M & C & U & E & _ & F & A & B).
      cbn. repeat split; auto. exists p'. auto. }
    destruct (AuthFacts.register_valid_eq snapshot t s req V)
      as (u & e & p0 & f & n & Eu & Ee & Ep0 & Ef & En & Q).
    destruct (AuthFacts.register_valid_eq snapshot t s _ V')
      as (u' & e' & p1 & f' & n' & Eu' & Ee' & Ep1 & Ef' & En' & Q').
    cbn in Eu', Ee', Ep1, Ef', En'.
    rewrite Ep in Ep0. injection Ep0 as <-.
    rewrite Eu in Eu'. injection Eu' as <-.
    rewrite Ee in Ee'. injection Ee' as <-.
    rewrite Ef in Ef'. injection Ef' as <-.
    rewrite En in En'. injection En' as <-.
    injection Ep1 as <-.
    rewrite Q'. cbn [Spec.with_password Auth.salt Auth.form Auth.f_bio Auth.now].
    replace (Werkzeug.generate_password_hash (Auth.salt req) p')
      with (Werkzeug.generate_password_hash (Auth.salt req) p)
      by (unfold Werkzeug.generate_password_hash; now rewrite Same).
    rewrite <- Q. exact R.
Qed.

(** Alice registers on the empty table; typing [christmas] instead of
    Bob's [builder1] gives the same digest under the sample checksum. *)
Lemma registration_stores_hash_string_witness :
  (Auth.register (H := Sample.library) Auth.init_db Auth.init_db None
     (Scenario.auth_post Scenario.alice 100)
   = (Scenario.auth_one, Some (1, "alice"), Saved) /\
   exists u e p f n,
     Auth.f_password Scenario.alice = Some p /\
     Py.strip p <> "" /\ 6 <= Py.len p /\
     Auth.f_username Scenario.alice = Some u /\
     Auth.f_email Scenario.alice = Some e /\
     Auth.f_full_name Scenario.alice = Some f /\
     Auth.f_age Scenario.alice = IntValue n /\
     rows Scenario.auth_one =
       [Spec.auth_row 1 u e
          ("scrypt:32768:8:1" ++ "$" ++ "NaCl" ++ "$"
           ++ hash_internal (Library := Sample.library) "NaCl" p)%string
          f (Some n) (Some "Curious.") 100]) /\
  (Auth.register (H := Sample.library) Scenario.auth_one Scenario.auth_one None
     (Scenario.auth_post Scenario.bob 200)
   = (Scenario.auth_two, Some (2, "bob"), Saved) /\
   Auth.register (H := Sample.library) Scenario.auth_one Scenario.auth_one None
     (Spec.with_password "christmas" (Scenario.auth_post Scenario.bob 200))
   = (Scenario.auth_two, Some (2, "bob"), Saved)).
Proof.
  pose proof (registration_stores_hash_string (H := Sample.library)) as (A & B).
  assert (R1 : Auth.register (H := Sample.library) Auth.init_db Auth.init_db None
                 (Scenario.auth_post Scenario.alice 100)
               = (Scenario.auth_one, Some (1, "alice"), Saved))
    by (vm_compute; reflexivity).
  assert (R2 : Auth.register (H := Sample.library) Scenario.auth_one
                 Scenario.auth_one None (Scenario.auth_post Scenario.bob 200)
               = (Scenario.auth_two, Some (2, "bob"), Saved))
    by (vm_compute; reflexivity).
  split; split.
  - exact R1.
  - exact (A _ _ _ _ _ _ R1).
  - exact R2.
  - apply (B _ _ _ _ _ _ "builder1" "christmas" R2).
    + reflexivity.
    + vm_compute. discriminate.
    + vm_compute. discriminate.
    + vm_compute. reflexivity.
Defined.
